(** * The confidence-driven handoff workflows of looped

    A shallow embedding of the three turn processors of the repository,

    - [Handoff]    : the handoff workflow wired into the chat route
                     ([processUserMessageWithHandoff], [runHandoffWorkflow]);
    - [Concurrent] : src/lib/ai/concurrent-workflow.ts ([runConcurrentWorkflow]);
    - [Simple]     : src/lib/ai/workflow.ts ([processUserMessage]);

    together with the JavaScript operators they rely on.  Numbers are IEEE 754
    binary64 values (Rocq's primitive floats), so [0.6 + 0.1], [NaN < 0.5] and
    [x || 0.8] evaluate here as they do in the running program.

    The collaborators (language model, knowledge-base search, conversation
    table) are answered by an environment, one answer per call site; every
    call is recorded in the world, and exceptions keep the world they were
    raised in. *)

From Stdlib Require Import Floats ZArith Bool List String Ascii Lia.
From Stdlib Require DecimalString.
Import ListNotations.

Set Warnings "-inexact-float".
Set Warnings "-register-all".

Local Open Scope string_scope.
Local Open Scope list_scope.

(* ===================================================================== *)
(** * JavaScript values and operators                                     *)
(* ===================================================================== *)

Module JS.

(** The values a field of a parsed JSON payload can hold: a number, a
    boolean, [null], a string, an array, an object, or nothing at all (reading
    an absent property gives [undefined]).  Strings are sequences of code
    units below 256.  [JObj] is an object whatever its properties, provided
    none of them is named [toString]: converting an object with such a
    property to a number or to text throws.  The handoff workflow logs the
    confidences it parsed inside its [try] blocks, so that a reply holding
    such an object, also as an element of an array, ends there as an
    [Unparsable] reply does; the simple workflow never converts the
    confidence it parsed; in the concurrent workflow such a reply is outside
    the model. *)
Inductive value : Type :=
| JUndefined
| JNull
| JBool (b : bool)
| JNum (x : float)
| JStr (s : string)
| JArr (elements : list value)
| JObj.

(** ToBoolean: [undefined], [null], [false], [+0], [-0], [NaN] and the empty
    string are falsy. *)
Definition ToBoolean (v : value) : bool :=
  match v with
  | JUndefined => false
  | JNull => false
  | JBool b => b
  | JNum x => negb (is_zero x || is_nan x)
  | JStr s => negb (String.eqb s EmptyString)
  | JArr _ => true
  | JObj => true
  end.

(** ** StringToNumber *)

(** White space and line terminators below 256. *)
Definition is_white (c : ascii) : bool :=
  let n := nat_of_ascii c in
  ((9 <=? n) && (n <=? 13) || (n =? 32) || (n =? 160))%nat.

Fixpoint trim_start (s : string) : string :=
  match s with
  | EmptyString => EmptyString
  | String c s' => if is_white c then trim_start s' else s
  end.

Fixpoint trim_end (s : string) : string :=
  match s with
  | EmptyString => EmptyString
  | String c s' =>
      match trim_end s' with
      | EmptyString => if is_white c then EmptyString else String c EmptyString
      | rest => String c rest
      end
  end.

(** The value of a digit in a base up to 16. *)
Definition digit (base : Z) (c : ascii) : option Z :=
  let n := Z.of_nat (nat_of_ascii c) in
  let d :=
    (if (48 <=? n) && (n <=? 57) then n - 48
     else if (97 <=? n) && (n <=? 102) then n - 87
     else if (65 <=? n) && (n <=? 70) then n - 55
     else base)%Z in
  if (d <? base)%Z then Some d else None.

(** The longest run of digits at the start of [s], read after the digits
    [acc]: its value, its length and what follows it. *)
Fixpoint digits (base : Z) (s : string) (acc : Z) (count : Z) : Z * Z * string :=
  match s with
  | EmptyString => (acc, count, s)
  | String c s' =>
      match digit base c with
      | Some d => digits base s' (base * acc + d)%Z (count + 1)%Z
      | None => (acc, count, s)
      end
  end.

(** The binary64 value nearest to [m * 2 ^ e], ties to even. *)
Definition nearest (negative : bool) (m e : Z) : float :=
  SF2Prim (SpecFloat.binary_normalize prec emax (if negative then (- m)%Z else m) e negative).

Definition signed (negative : bool) (x : float) : float :=
  if negative then (- x)%float else x.

(** The binary64 value nearest to [m * 10 ^ e], for [m] not negative.  A
    quotient is carried with more than 64 bits and a sticky bit. *)
Definition decimal (negative : bool) (m e : Z) : float :=
  if (m =? 0)%Z then signed negative 0%float
  else if (0 <=? e)%Z then
    if (400 <? e)%Z then signed negative infinity
    else nearest negative (m * 10 ^ e)%Z 0%Z
  else if (Z.log2 m / 3 + 2 + e <? -400)%Z then signed negative 0%float
  else
    let d := (10 ^ (- e))%Z in
    let s := Z.max 0 (Z.log2 d - Z.log2 m + 70)%Z in
    let q := ((m * 2 ^ s) / d)%Z in
    let r := ((m * 2 ^ s) mod d)%Z in
    nearest negative (2 * q + (if r =? 0 then 0 else 1))%Z (- (s + 1))%Z.

(** [ExponentPart], or nothing, up to the end of the string. *)
Definition exponent (s : string) : option Z :=
  match s with
  | EmptyString => Some 0%Z
  | String c s' =>
      if Ascii.eqb c "e" || Ascii.eqb c "E" then
        let '(negative, s') :=
          match s' with
          | String "-" t => (true, t)
          | String "+" t => (false, t)
          | _ => (false, s')
          end in
        match digits 10 s' 0 0 with
        | (e, count, EmptyString) =>
            if (0 <? count)%Z then Some (if negative then (- e)%Z else e) else None
        | _ => None
        end
      else None
  end.

(** [StrUnsignedDecimalLiteral]. *)
Definition unsigned_decimal (negative : bool) (s : string) : float :=
  if String.eqb s "Infinity" then signed negative infinity
  else
    let '(whole, count, rest) := digits 10 s 0 0 in
    let '(mantissa, places, rest) :=
      match rest with
      | String "." rest =>
          let '(mantissa, places, rest) := digits 10 rest whole 0 in
          (mantissa, places, rest)
      | _ => (whole, 0%Z, rest)
      end in
    if (0 <? count + places)%Z then
      match exponent rest with
      | Some e => decimal negative mantissa (e - places)%Z
      | None => nan
      end
    else nan.

(** [NonDecimalIntegerLiteral] after its prefix. *)
Definition integer (base : Z) (s : string) : float :=
  match digits base s 0 0 with
  | (n, count, EmptyString) => if (0 <? count)%Z then nearest false n 0%Z else nan
  | _ => nan
  end.

(** StringToNumber: the number a string converts to, [NaN] when it is not
    a numeric literal. *)
Definition StringToNumber (s : string) : float :=
  match trim_end (trim_start s) with
  | EmptyString => 0%float
  | String "0" (String "x" s') | String "0" (String "X" s') => integer 16 s'
  | String "0" (String "o" s') | String "0" (String "O" s') => integer 8 s'
  | String "0" (String "b" s') | String "0" (String "B" s') => integer 2 s'
  | String "-" s' => unsigned_decimal true s'
  | String "+" s' => unsigned_decimal false s'
  | s' => unsigned_decimal false s'
  end.

(** ToNumber.  An array converts through its text: the empty array gives
    0, an array of one element what the text of the element gives (a number
    itself, without the sign of a zero; [null] gives the empty text), and a
    longer array, whose text has a comma, [NaN].  The text of an object is
    no numeric literal. *)
Fixpoint ToNumber (v : value) : float :=
  match v with
  | JUndefined => nan
  | JNull => 0%float
  | JBool true => 1%float
  | JBool false => 0%float
  | JNum x => x
  | JStr s => StringToNumber s
  | JArr [] => 0%float
  | JArr [element] =>
      match element with
      | JUndefined | JNull => 0%float
      | JBool _ => nan
      | JNum x => if is_zero x then 0%float else x
      | JStr s => StringToNumber s
      | JArr _ => ToNumber element
      | JObj => nan
      end
  | JArr _ => nan
  | JObj => nan
  end.

(** [a || b]: the left operand when it is truthy, else the right one. *)
Definition or (a b : value) : value :=
  if ToBoolean a then a else b.

(** [a && b]. *)
Definition and (a b : value) : value :=
  if ToBoolean a then b else a.

(** [a < b] and [a > b] on non-string operands: both sides go through
    ToNumber, and a comparison with [NaN] is false. *)
Definition lt (a b : value) : bool := (ToNumber a <? ToNumber b)%float.
Definition gt (a b : value) : bool := (ToNumber b <? ToNumber a)%float.

(** [a * b] on non-string operands. *)
Definition mul (a b : value) : float := (ToNumber a * ToNumber b)%float.

(** [Math.min(x, y)]: [NaN] when either argument is, and [-0] is below [+0]. *)
Definition Math_min (x y : float) : float :=
  if is_nan x || is_nan y then nan
  else if (x <? y)%float then x
  else if (y <? x)%float then y
  else if get_sign x then x else y.

(** ** Strings *)

Definition LF : string := String (ascii_of_nat 10) EmptyString.

(** [String.prototype.toLowerCase], on the ASCII letters. *)
Definition lower_ascii (c : ascii) : ascii :=
  let n := nat_of_ascii c in
  if (65 <=? n)%nat && (n <=? 90)%nat then ascii_of_nat (n + 32) else c.

Fixpoint toLowerCase (s : string) : string :=
  match s with
  | EmptyString => EmptyString
  | String c s' => String (lower_ascii c) (toLowerCase s')
  end.

(** [s.includes(sub)]. *)
Fixpoint includes (s sub : string) : bool :=
  if prefix sub s then true
  else match s with
       | EmptyString => false
       | String _ s' => includes s' sub
       end.

(** [s.split(' ')]: the pieces between single spaces, empty pieces kept. *)
Fixpoint split_space (s : string) : list string :=
  match s with
  | EmptyString => [EmptyString]
  | String c s' =>
      if Ascii.eqb c " "%char then EmptyString :: split_space s'
      else match split_space s' with
           | [] => [String c EmptyString]
           | piece :: rest => String c piece :: rest
           end
  end.

(** [n.toString()] for an array index. *)
Definition string_of_index (n : nat) : string :=
  DecimalString.NilEmpty.string_of_uint (Nat.to_uint n).

(** [arr.map((x, index) => f(x, index))]. *)
Fixpoint map_index {A B : Type} (f : A -> nat -> B) (i : nat) (l : list A) : list B :=
  match l with
  | [] => []
  | x :: l' => f x i :: map_index f (S i) l'
  end.

(** [arr.slice(0, n)]. *)
Definition slice0 {A : Type} (n : nat) (l : list A) : list A := firstn n l.

(** [arr.some(p)]. *)
Definition some {A : Type} (p : A -> bool) (l : list A) : bool := existsb p l.

End JS.

Import JS.

(* ===================================================================== *)
(** * Collaborators, effects and shared data                              *)
(* ===================================================================== *)

(** [ConversationStatus] of the shared types. *)
Inductive ConversationStatus : Type :=
| green
| yellow
| red
| resolved_ai
| resolved_human
| typing_ai
| typing_user
| active_human_needed.

Definition ConversationStatus_eqb (a b : ConversationStatus) : bool :=
  match a, b with
  | green, green | yellow, yellow | red, red
  | resolved_ai, resolved_ai | resolved_human, resolved_human
  | typing_ai, typing_ai | typing_user, typing_user
  | active_human_needed, active_human_needed => true
  | _, _ => false
  end.

(** [AISuggestion]: [{ id, text, confidence }]. *)
Module Suggestion.
Record t : Type := mk {
  id : string;
  text : string;
  confidence : value
}.
End Suggestion.
Definition AISuggestion : Type := Suggestion.t.
Definition mkSuggestion := Suggestion.mk.

(** One entry of [sources]: [{ documentId, fileName, chunkCount }]. *)
Record Source : Type := mkSource {
  documentId : string;
  fileName : string;
  chunkCount : nat
}.

(** [BaseMessage]: only the two classes the workflows build. *)
Inductive BaseMessage : Type :=
| HumanMessage (content : string)
| AIMessage (content : string).

(** One element of the suggestions array the model is asked for. *)
Record SuggestionJson : Type := mkSuggestionJson {
  s_text : string;
  s_confidence : value
}.

(** What a model call followed by [JSON.parse] can come to. *)
Inductive reply (A : Type) : Type :=
| Rejects                 (* [llm.invoke] throws or rejects *)
| Unparsable              (* the text is not JSON: [JSON.parse] throws *)
| ParsedNull              (* the text is the JSON [null]: reading a property throws *)
| Parsed (payload : A).   (* a JSON object; an absent property reads [undefined] *)
Arguments Rejects {A}.
Arguments Unparsable {A}.
Arguments ParsedNull {A}.
Arguments Parsed {A} payload.

(** What [KnowledgeBaseService.search] can come to: it throws, or returns
    the texts of the matching chunks with their sources. *)
Inductive search_reply : Type :=
| SearchThrows
| SearchResults (chunks : list string) (found : list Source).

(** What the update of the conversations table can come to. *)
Inductive db_reply : Type :=
| DbOk        (* the statement ran *)
| DbError     (* the client returns [{ error }] *)
| DbThrows.   (* the client throws *)

(** The answers of the collaborators during one turn, one per call site. *)
Record Env (A R : Type) : Type := mkEnv {
  llm_analysis : reply A;
  kb_search : search_reply;
  llm_response : reply R;
  llm_suggestions : reply (list SuggestionJson);
  db_update : db_reply
}.
Arguments mkEnv {A R}.
Arguments llm_analysis {A R}.
Arguments kb_search {A R}.
Arguments llm_response {A R}.
Arguments llm_suggestions {A R}.
Arguments db_update {A R}.

(** The calls a turn makes to its collaborators. *)
Inductive call : Type :=
| CallAnalyzer
| CallRetriever
| CallGenerator
| CallSuggester
| CallStatusUpdate (conversation : string) (status : ConversationStatus).

(** The world a turn runs in: the calls made so far, oldest first, and the
    status column of the conversations table. *)
Record World : Type := mkWorld {
  calls : list call;
  conversations : string -> option ConversationStatus
}.

Inductive error : Type :=
| ModelError
| SyntaxError
| TypeError
| SearchError
| DatabaseError.

Inductive outcome (A : Type) : Type :=
| Returned (a : A)
| Thrown (e : error).
Arguments Returned {A} a.
Arguments Thrown {A} e.

(** Computations of the workflows: they read and change the world and end
    by returning or by throwing.  A throw keeps the world as it was when
    the exception was raised. *)
Definition M (A : Type) : Type := World -> outcome A * World.

Definition ret {A : Type} (a : A) : M A := fun w => (Returned a, w).

Definition throw {A : Type} (e : error) : M A := fun w => (Thrown e, w).

Definition bind {A B : Type} (m : M A) (k : A -> M B) : M B :=
  fun w =>
    match m w with
    | (Returned a, w') => k a w'
    | (Thrown e, w') => (Thrown e, w')
    end.

(** [try { body } catch (error) { handler }]. *)
Definition try_catch {A : Type} (body : M A) (handler : error -> M A) : M A :=
  fun w =>
    match body w with
    | (Returned a, w') => (Returned a, w')
    | (Thrown e, w') => handler e w'
    end.

(** One statement [x = await m] of a [try] block whose [catch] block is
    [handler], followed by the rest [k] of the block (itself made of such
    statements): [handler] is the catch block as it reads the variables at
    this statement. *)
Definition guarded {A B : Type} (m : M A) (handler : error -> M B) (k : A -> M B) : M B :=
  fun w =>
    match m w with
    | (Returned a, w') => k a w'
    | (Thrown e, w') => handler e w'
    end.

Declare Scope workflow_scope.
Delimit Scope workflow_scope with wf.
Notation "x <- m ;; k" := (bind m (fun x => k))
  (at level 61, m at next level, right associativity) : workflow_scope.
Notation "m ;;; k" := (bind m (fun _ => k))
  (at level 61, right associativity) : workflow_scope.
Local Open Scope workflow_scope.

Definition add_call (c : call) (w : World) : World :=
  mkWorld (calls w ++ [c]) (conversations w).

Definition record_call (c : call) : M unit :=
  fun w => (Returned tt, add_call c w).

(** [await llm.invoke(...)] followed by [JSON.parse]: [None] is the parsed
    [null]. *)
Definition invoke_json {A : Type} (c : call) (r : reply A) : M (option A) :=
  record_call c ;;;
  match r with
  | Rejects => throw ModelError
  | Unparsable => throw SyntaxError
  | ParsedNull => ret None
  | Parsed a => ret (Some a)
  end.

(** Reading a property of a parsed payload; on [null] it throws. *)
Definition object {A : Type} (o : option A) : M A :=
  match o with
  | None => throw TypeError
  | Some a => ret a
  end.

(** [await KnowledgeBaseService.search(...)]. *)
Definition search (r : search_reply) : M (list string * list Source) :=
  record_call CallRetriever ;;;
  match r with
  | SearchThrows => throw SearchError
  | SearchResults chunks found => ret (chunks, found)
  end.

Definition set_status (cid : string) (s : ConversationStatus)
    (t : string -> option ConversationStatus) : string -> option ConversationStatus :=
  fun k => if String.eqb k cid then
             match t k with Some _ => Some s | None => None end
           else t k.

(** [await supabaseAdmin.from('conversations').update({ status }).eq('id', cid)]:
    returns whether the client reported an error.  The statement changes the
    row of [cid] when there is one; no row is no error. *)
Definition update_conversation (r : db_reply) (cid : string) (s : ConversationStatus) : M bool :=
  record_call (CallStatusUpdate cid s) ;;;
  match r with
  | DbOk => fun w => (Returned false, mkWorld (calls w) (set_status cid s (conversations w)))
  | DbError => ret true
  | DbThrows => throw DatabaseError
  end.

(** [OptimizedQueries.updateConversationStatus]: the same update followed by
    [.select().single()], whose error (also that of no row) is thrown. *)
Definition updateConversationStatus (r : db_reply) (cid : string) (s : ConversationStatus) : M unit :=
  record_call (CallStatusUpdate cid s) ;;;
  match r with
  | DbOk => fun w =>
      match conversations w cid with
      | Some _ => (Returned tt, mkWorld (calls w) (set_status cid s (conversations w)))
      | None => (Thrown DatabaseError, w)
      end
  | DbError => throw DatabaseError
  | DbThrows => throw DatabaseError
  end.

(** The result every entry point returns to its caller. *)
Module Result.
Record t : Type := mk {
  response : string;
  status : ConversationStatus;
  confidence : value;
  suggestions : list AISuggestion;
  sources : option (list Source)
}.
End Result.
Definition WorkflowResult : Type := Result.t.
Definition mkResult := Result.mk.

(** [sources.length > 0 ? sources : undefined]. *)
Definition sources_or_undefined (l : list Source) : option (list Source) :=
  match l with [] => None | _ => Some l end.

(** The sentence both handoff steps append on red. *)
Definition handoff_sentence : string :=
  LF ++ LF ++ "I'm connecting you with a human agent who can better assist you.".

Definition early_escalation_message : string :=
  "This request requires immediate human assistance. I'm connecting you with an agent.".

Definition error_suggestion : AISuggestion :=
  mkSuggestion "error_suggestion"
    "Technical issue detected - escalate to human support immediately" (JNum 1.0).

Definition escalate_immediately : AISuggestion :=
  mkSuggestion "escalate_immediately" "Escalate to human agent immediately" (JNum 0.95).

Definition review_context : AISuggestion :=
  mkSuggestion "review_context" "Review available knowledge base context" (JNum 0.8).

Definition fallback_suggestion : AISuggestion :=
  mkSuggestion "fallback_suggestion"
    "Review the conversation context and provide personalized assistance" (JNum 0.8).

(** [suggestions.map((s, index) => ({ id: `suggestion_${index}`, text: s.text,
    confidence: s.confidence }))]. *)
Definition number_suggestions (l : list SuggestionJson) : list AISuggestion :=
  map_index (fun s index =>
               mkSuggestion ("suggestion_" ++ string_of_index index) (s_text s) (s_confidence s))
            0 l.

(** The context both handoff workflows fall back to when the search finds
    nothing. *)
Definition fallbackContext : list string :=
  [ "Company policy: We offer 24/7 customer support for all premium users.";
    "FAQ: Account issues can usually be resolved by clearing browser cache.";
    "Support hours: Our human agents are available Monday-Friday 9AM-6PM EST." ].

Definition search_error_context : list string :=
  [ "Error accessing knowledge base - escalating to human support" ].

Definition technical_difficulties : string :=
  "I'm experiencing technical difficulties. Please try again or contact human support.".

Definition generation_failed_message : string :=
  "I'm having trouble processing your request. Let me connect you with a human agent.".

(* ===================================================================== *)
(** * The handoff workflow                                                *)
(* ===================================================================== *)

Module Handoff.

(** The payload the analysis prompt asks for, as [analyzeQuery] reads it
    (the flag is spelled [needsImmedateHuman] in prompt and code).  The
    string properties of the payloads are taken as present. *)
Module analysis.
Record t : Type := mk {
  intent : string;
  aiConfidence : value;
  needsImmedateHuman : value;
  reasoning : string
}.
End analysis.

(** The payload the response prompt asks for. *)
Module aiResponse.
Record t : Type := mk {
  response : string;
  confidence : value;
  suggestsHumanHelp : value
}.
End aiResponse.

Record HandoffWorkflowState : Type := mkState {
  conversationId : string;
  companyId : string;
  userQuery : string;
  messages : list BaseMessage;
  currentStatus : ConversationStatus;
  confidence : value;
  retrievedContext : list string;
  suggestions : list AISuggestion;
  needsHumanIntervention : value;
  finalResponse : string;
  sources : list Source;
  escalationReason : string;
  agentAssigned : bool
}.

(** [{ ...state, field: v }], one function per field the workflow writes. *)
Definition with_currentStatus (v : ConversationStatus) (st : HandoffWorkflowState) :=
  mkState (conversationId st) (companyId st) (userQuery st) (messages st) v
          (confidence st) (retrievedContext st) (suggestions st)
          (needsHumanIntervention st) (finalResponse st) (sources st)
          (escalationReason st) (agentAssigned st).
Definition with_confidence (v : value) (st : HandoffWorkflowState) :=
  mkState (conversationId st) (companyId st) (userQuery st) (messages st) (currentStatus st)
          v (retrievedContext st) (suggestions st)
          (needsHumanIntervention st) (finalResponse st) (sources st)
          (escalationReason st) (agentAssigned st).
Definition with_retrievedContext (v : list string) (st : HandoffWorkflowState) :=
  mkState (conversationId st) (companyId st) (userQuery st) (messages st) (currentStatus st)
          (confidence st) v (suggestions st)
          (needsHumanIntervention st) (finalResponse st) (sources st)
          (escalationReason st) (agentAssigned st).
Definition with_suggestions (v : list AISuggestion) (st : HandoffWorkflowState) :=
  mkState (conversationId st) (companyId st) (userQuery st) (messages st) (currentStatus st)
          (confidence st) (retrievedContext st) v
          (needsHumanIntervention st) (finalResponse st) (sources st)
          (escalationReason st) (agentAssigned st).
Definition with_needsHumanIntervention (v : value) (st : HandoffWorkflowState) :=
  mkState (conversationId st) (companyId st) (userQuery st) (messages st) (currentStatus st)
          (confidence st) (retrievedContext st) (suggestions st)
          v (finalResponse st) (sources st)
          (escalationReason st) (agentAssigned st).
Definition with_finalResponse (v : string) (st : HandoffWorkflowState) :=
  mkState (conversationId st) (companyId st) (userQuery st) (messages st) (currentStatus st)
          (confidence st) (retrievedContext st) (suggestions st)
          (needsHumanIntervention st) v (sources st)
          (escalationReason st) (agentAssigned st).
Definition with_sources (v : list Source) (st : HandoffWorkflowState) :=
  mkState (conversationId st) (companyId st) (userQuery st) (messages st) (currentStatus st)
          (confidence st) (retrievedContext st) (suggestions st)
          (needsHumanIntervention st) (finalResponse st) v
          (escalationReason st) (agentAssigned st).
Definition with_escalationReason (v : string) (st : HandoffWorkflowState) :=
  mkState (conversationId st) (companyId st) (userQuery st) (messages st) (currentStatus st)
          (confidence st) (retrievedContext st) (suggestions st)
          (needsHumanIntervention st) (finalResponse st) (sources st)
          v (agentAssigned st).
Definition with_agentAssigned (v : bool) (st : HandoffWorkflowState) :=
  mkState (conversationId st) (companyId st) (userQuery st) (messages st) (currentStatus st)
          (confidence st) (retrievedContext st) (suggestions st)
          (needsHumanIntervention st) (finalResponse st) (sources st)
          (escalationReason st) v.

Section Turn.

Variable env : Env analysis.t aiResponse.t.

(** Step 1: analyze query intent and complexity. *)
Definition analyzeQuery (state : HandoffWorkflowState) : M HandoffWorkflowState :=
  try_catch
    (parsed <- invoke_json CallAnalyzer (llm_analysis env) ;;
     analysis <- object parsed ;;
     ret (with_escalationReason
            (if ToBoolean (analysis.needsImmedateHuman analysis)
             then analysis.reasoning analysis else EmptyString)
         (with_needsHumanIntervention
            (JS.or (analysis.needsImmedateHuman analysis) (JBool false))
         (with_confidence
            (JS.or (analysis.aiConfidence analysis) (JNum 0.8))
            state))))
    (fun _ =>
       ret (with_escalationReason "Analysis failed - proceeding with caution"
           (with_needsHumanIntervention (JBool false)
           (with_confidence (JNum 0.5) state)))).

(** Step 2: retrieve knowledge base context. *)
Definition retrieveContext (state : HandoffWorkflowState) : M HandoffWorkflowState :=
  try_catch
    (searchResults <- search (kb_search env) ;;
     let '(chunks, found) := searchResults in
     if (0 <? List.length chunks)%nat
     then ret (with_sources found (with_retrievedContext chunks state))
     else ret (with_sources [] (with_retrievedContext fallbackContext state)))
    (fun _ =>
       ret (with_confidence
              (JNum (Math_min (JS.mul (confidence state) (JNum 0.7)) 0.5))
           (with_sources []
           (with_retrievedContext search_error_context state)))).

(** Step 3: generate the response and blend the two confidences. *)
Definition generateResponse (state : HandoffWorkflowState) : M HandoffWorkflowState :=
  try_catch
    (parsed <- invoke_json CallGenerator (llm_response env) ;;
     aiResponse <- object parsed ;;
     let combinedConfidence :=
       Math_min (JS.mul (confidence state) (JNum 0.6)
                 + JS.mul (aiResponse.confidence aiResponse) (JNum 0.4))%float
                0.95 in
     ret (with_needsHumanIntervention
            (JS.or (needsHumanIntervention state) (aiResponse.suggestsHumanHelp aiResponse))
         (with_confidence (JNum combinedConfidence)
         (with_finalResponse (aiResponse.response aiResponse) state))))
    (fun _ =>
       ret (with_escalationReason "AI response generation failed"
           (with_needsHumanIntervention (JBool true)
           (with_confidence (JNum 0.3)
           (with_finalResponse generation_failed_message state))))).

(** Suggestions for the yellow status. *)
Definition generateSuggestions (state : HandoffWorkflowState) : M (list AISuggestion) :=
  try_catch
    (parsed <- invoke_json CallSuggester (llm_suggestions env) ;;
     suggestions <- object parsed ;;
     ret (number_suggestions suggestions))
    (fun _ => ret [fallback_suggestion]).

(** Step 4: determine the conversation status. *)
Definition determineStatus (state : HandoffWorkflowState) : M HandoffWorkflowState :=
  if ToBoolean (JS.or (needsHumanIntervention state)
                      (JBool (JS.lt (confidence state) (JNum 0.5))))
  then ret (with_suggestions [escalate_immediately; review_context]
           (with_currentStatus red state))
  else if JS.lt (confidence state) (JNum 0.7)
  then suggestions <- generateSuggestions state ;;
       ret (with_suggestions suggestions (with_currentStatus yellow state))
  else ret (with_suggestions [] (with_currentStatus green state)).

(** Step 5: handle the human handoff. *)
Definition handleHandoff (state : HandoffWorkflowState) : M HandoffWorkflowState :=
  try_catch
    (error <- update_conversation (db_update env)
                (conversationId state) (currentStatus state) ;;
     if ConversationStatus_eqb (currentStatus state) red
     then ret (with_finalResponse (finalResponse state ++ handoff_sentence)
              (with_agentAssigned false state))
     else ret state)
    (fun _ => ret state).

Definition initial_state (conversationId userMessage companyId : string)
    (previousMessages : list BaseMessage) : HandoffWorkflowState :=
  mkState conversationId companyId userMessage
          (previousMessages ++ [HumanMessage userMessage])
          green (JNum 0.8) [] [] (JBool false) EmptyString [] EmptyString false.

(** The [catch] block of the orchestrator, reading [state]. *)
Definition error_state (state : HandoffWorkflowState) : HandoffWorkflowState :=
  with_suggestions [error_suggestion]
 (with_finalResponse technical_difficulties
 (with_confidence (JNum 0.0)
 (with_currentStatus red state))).

(** Main workflow orchestrator. *)
Definition runHandoffWorkflow (conversationId userMessage companyId : string)
    (previousMessages : list BaseMessage) : M HandoffWorkflowState :=
  let state := initial_state conversationId userMessage companyId previousMessages in
  let catch (state : HandoffWorkflowState) (_ : error) := ret (error_state state) in
  guarded (analyzeQuery state) (catch state) (fun state =>
    if ToBoolean (JS.and (needsHumanIntervention state)
                         (JBool (JS.lt (confidence state) (JNum 0.3))))
    then
      let state := with_finalResponse early_escalation_message
                  (with_currentStatus red state) in
      guarded (handleHandoff state) (catch state) ret
    else
      guarded (retrieveContext state) (catch state) (fun state =>
      guarded (generateResponse state) (catch state) (fun state =>
      guarded (determineStatus state) (catch state) (fun state =>
        if ConversationStatus_eqb (currentStatus state) red
        then guarded (handleHandoff state) (catch state) ret
        else ret state)))).

(** Main function to process user messages using the handoff workflow. *)
Definition processUserMessageWithHandoff (conversationId userMessage companyId : string)
    (previousMessages : list BaseMessage) : M WorkflowResult :=
  result <- runHandoffWorkflow conversationId userMessage companyId previousMessages ;;
  ret (mkResult (finalResponse result) (currentStatus result) (confidence result)
                (suggestions result) (sources_or_undefined (sources result))).

End Turn.

End Handoff.

(* ===================================================================== *)
(** * The concurrent workflow                                             *)
(* ===================================================================== *)

(** [RunnableParallel] runs its branches independently; their answers come
    from the environment and neither reads what the other writes, so the
    branches are run here one after the other.  The fields [processingTime]
    (wall-clock time) and [parallelResults] (a copy of the step-1 results
    that nothing reads) of the state are left out. *)
Module Concurrent.

Module analysis.
Record t : Type := mk {
  intent : string;
  urgency : string;
  complexity : string;
  aiConfidence : value;
  needsImmediateHuman : value;
  reasoning : string
}.
End analysis.

Module aiResponse.
Record t : Type := mk {
  response : string;
  confidence : value;
  suggestsHumanHelp : value;
  reasoning : string
}.
End aiResponse.

(** What the context retrieval runnable returns. *)
Module context.
Record t : Type := mk {
  context : list string;
  sources : list Source;
  success : bool
}.
End context.

Record ConcurrentWorkflowState : Type := mkState {
  conversationId : string;
  companyId : string;
  userQuery : string;
  messages : list BaseMessage;
  currentStatus : ConversationStatus;
  confidence : value;
  retrievedContext : list string;
  suggestions : list AISuggestion;
  needsHumanIntervention : value;
  finalResponse : string;
  sources : list Source;
  escalationReason : string;
  agentAssigned : bool
}.

(** [state.field = v], one function per field the workflow writes. *)
Definition set_currentStatus (v : ConversationStatus) (st : ConcurrentWorkflowState) :=
  mkState (conversationId st) (companyId st) (userQuery st) (messages st) v
          (confidence st) (retrievedContext st) (suggestions st)
          (needsHumanIntervention st) (finalResponse st) (sources st)
          (escalationReason st) (agentAssigned st).
Definition set_confidence (v : value) (st : ConcurrentWorkflowState) :=
  mkState (conversationId st) (companyId st) (userQuery st) (messages st) (currentStatus st)
          v (retrievedContext st) (suggestions st)
          (needsHumanIntervention st) (finalResponse st) (sources st)
          (escalationReason st) (agentAssigned st).
Definition set_retrievedContext (v : list string) (st : ConcurrentWorkflowState) :=
  mkState (conversationId st) (companyId st) (userQuery st) (messages st) (currentStatus st)
          (confidence st) v (suggestions st)
          (needsHumanIntervention st) (finalResponse st) (sources st)
          (escalationReason st) (agentAssigned st).
Definition set_suggestions (v : list AISuggestion) (st : ConcurrentWorkflowState) :=
  mkState (conversationId st) (companyId st) (userQuery st) (messages st) (currentStatus st)
          (confidence st) (retrievedContext st) v
          (needsHumanIntervention st) (finalResponse st) (sources st)
          (escalationReason st) (agentAssigned st).
Definition set_needsHumanIntervention (v : value) (st : ConcurrentWorkflowState) :=
  mkState (conversationId st) (companyId st) (userQuery st) (messages st) (currentStatus st)
          (confidence st) (retrievedContext st) (suggestions st)
          v (finalResponse st) (sources st)
          (escalationReason st) (agentAssigned st).
Definition set_finalResponse (v : string) (st : ConcurrentWorkflowState) :=
  mkState (conversationId st) (companyId st) (userQuery st) (messages st) (currentStatus st)
          (confidence st) (retrievedContext st) (suggestions st)
          (needsHumanIntervention st) v (sources st)
          (escalationReason st) (agentAssigned st).
Definition set_sources (v : list Source) (st : ConcurrentWorkflowState) :=
  mkState (conversationId st) (companyId st) (userQuery st) (messages st) (currentStatus st)
          (confidence st) (retrievedContext st) (suggestions st)
          (needsHumanIntervention st) (finalResponse st) v
          (escalationReason st) (agentAssigned st).

Definition default_analysis : analysis.t :=
  analysis.mk "general_inquiry" "medium" "moderate" (JNum 0.5) (JBool false)
              "Analysis failed - proceeding with defaults".

Definition default_response : aiResponse.t :=
  aiResponse.mk generation_failed_message (JNum 0.3) (JBool true)
                "Response generation failed".

Section Turn.

Variable env : Env analysis.t aiResponse.t.

(** [createAnalysisRunnable()]: the parsed payload, or the defaults. *)
Definition analysisRunnable : M (option analysis.t) :=
  try_catch (invoke_json CallAnalyzer (llm_analysis env))
            (fun _ => ret (Some default_analysis)).

(** [createContextRetrievalRunnable()]. *)
Definition contextRetrievalRunnable : M context.t :=
  try_catch
    (searchResults <- search (kb_search env) ;;
     let '(chunks, found) := searchResults in
     if (0 <? List.length chunks)%nat
     then ret (context.mk chunks found true)
     else ret (context.mk fallbackContext [] false))
    (fun _ => ret (context.mk search_error_context [] false)).

(** [createSuggestionsRunnable()], on [input.confidence]. *)
Definition suggestionsRunnable (input_confidence : value) : M (list AISuggestion) :=
  if JS.gt input_confidence (JNum 0.7)
  then ret []
  else
    try_catch
      (parsed <- invoke_json CallSuggester (llm_suggestions env) ;;
       suggestions <- object parsed ;;
       ret (number_suggestions suggestions))
      (fun _ => ret [fallback_suggestion]).

(** [responseRunnable]: the parsed payload, or the defaults. *)
Definition responseRunnable : M (option aiResponse.t) :=
  try_catch (invoke_json CallGenerator (llm_response env))
            (fun _ => ret (Some default_response)).

(** Optimized handoff handling. *)
Definition handleConcurrentHandoff (state : ConcurrentWorkflowState)
    : M ConcurrentWorkflowState :=
  try_catch
    (updateConversationStatus (db_update env)
       (conversationId state) (currentStatus state) ;;;
     if ConversationStatus_eqb (currentStatus state) red
     then ret (set_finalResponse (finalResponse state ++ handoff_sentence) state)
     else ret state)
    (fun _ => ret state).

Definition initial_state (conversationId userMessage companyId : string)
    (previousMessages : list BaseMessage) : ConcurrentWorkflowState :=
  mkState conversationId companyId userMessage
          (previousMessages ++ [HumanMessage userMessage])
          green (JNum 0.8) [] [] (JBool false) EmptyString [] EmptyString false.

(** The [catch] block of the orchestrator, writing into [state]. *)
Definition error_state (state : ConcurrentWorkflowState) : ConcurrentWorkflowState :=
  set_suggestions [error_suggestion]
 (set_finalResponse technical_difficulties
 (set_confidence (JNum 0.0)
 (set_currentStatus red state))).

(** Step 3 of the orchestrator: the status, and one suggestion on red
    when there is none yet. *)
Definition classify (state : ConcurrentWorkflowState) : ConcurrentWorkflowState :=
  if ToBoolean (JS.or (needsHumanIntervention state)
                      (JBool (JS.lt (confidence state) (JNum 0.5))))
  then
    let state := set_currentStatus red state in
    if (List.length (suggestions state) =? 0)%nat
    then set_suggestions [escalate_immediately] state
    else state
  else if JS.lt (confidence state) (JNum 0.7)
  then set_currentStatus yellow state
  else set_currentStatus green state.

(** Main concurrent workflow orchestrator. *)
Definition runConcurrentWorkflow (conversationId userMessage companyId : string)
    (previousMessages : list BaseMessage) : M ConcurrentWorkflowState :=
  let state := initial_state conversationId userMessage companyId previousMessages in
  let catch (state : ConcurrentWorkflowState) (_ : error) := ret (error_state state) in
  (* Step 1: analysis and context retrieval in parallel *)
  guarded (step1_analysis <- analysisRunnable ;;
           step1_context <- contextRetrievalRunnable ;;
           ret (step1_analysis, step1_context))
          (catch state) (fun step1Results =>
  let '(step1_analysis, step1_context) := step1Results in
  guarded (object step1_analysis) (catch state) (fun analysis =>
  let state := set_confidence (JS.or (analysis.aiConfidence analysis) (JNum 0.8)) state in
  let state := set_needsHumanIntervention
                 (JS.or (analysis.needsImmediateHuman analysis) (JBool false)) state in
  let state := set_retrievedContext (context.context step1_context) state in
  let state := set_sources (context.sources step1_context) state in
  (* Early exit for immediate escalation *)
  if ToBoolean (JS.and (needsHumanIntervention state)
                       (JBool (JS.lt (confidence state) (JNum 0.3))))
  then
    let state := set_finalResponse early_escalation_message
                (set_currentStatus red state) in
    guarded (handleConcurrentHandoff state) (catch state) ret
  else
    (* Step 2: response generation and suggestions in parallel *)
    guarded (step2_response <- responseRunnable ;;
             step2_suggestions <- suggestionsRunnable (confidence state) ;;
             ret (step2_response, step2_suggestions))
            (catch state) (fun step2Results =>
    let '(step2_response, step2_suggestions) := step2Results in
    guarded (object step2_response) (catch state) (fun response =>
    let state := set_finalResponse (aiResponse.response response) state in
    let state := set_confidence
                   (JNum (Math_min (JS.mul (confidence state) (JNum 0.6)
                                    + JS.mul (aiResponse.confidence response) (JNum 0.4))%float
                                   0.95)) state in
    let state := set_needsHumanIntervention
                   (JS.or (needsHumanIntervention state)
                          (aiResponse.suggestsHumanHelp response)) state in
    let state := set_suggestions step2_suggestions state in
    (* Step 3: determine status and handle handoff if needed *)
    let state := classify state in
    if ConversationStatus_eqb (currentStatus state) red
    then guarded (handleConcurrentHandoff state) (catch state) ret
    else ret state)))).

(** Main function to process user messages with concurrent optimization. *)
Definition processUserMessageConcurrent (conversationId userMessage companyId : string)
    (previousMessages : list BaseMessage) : M WorkflowResult :=
  result <- runConcurrentWorkflow conversationId userMessage companyId previousMessages ;;
  ret (mkResult (finalResponse result) (currentStatus result) (confidence result)
                (suggestions result) (sources_or_undefined (sources result))).

End Turn.

End Concurrent.

(* ===================================================================== *)
(** * The simple workflow                                                 *)
(* ===================================================================== *)

Module Simple.

(** The payload the analysis prompt asks for.  A string property is
    [None] when absent. *)
Module analysisJson.
Record t : Type := mk {
  intent : option string;
  urgency : option string;
  complexity : option string;
  needsHuman : value;
  confidence : value
}.
End analysisJson.

(** What [analyzeQuery] returns. *)
Module analysis.
Record t : Type := mk {
  intent : string;
  urgency : string;
  complexity : string;
  needsHuman : value;
  confidence : value
}.
End analysis.

(** [s || d] on a string property: absent and empty are falsy. *)
Definition or_string (s : option string) (d : string) : string :=
  match s with
  | None => d
  | Some EmptyString => d
  | Some v => v
  end.

Definition mockContext : list string :=
  [ "Company policy: We offer 24/7 customer support for all premium users.";
    "FAQ: Account issues can usually be resolved by clearing browser cache.";
    "Knowledge base: Password reset requires email verification.";
    "Support hours: Our human agents are available Monday-Friday 9AM-6PM EST.";
    "Escalation policy: Complex technical issues should be escalated to Level 2 support." ].

Definition unavailable_context : list string :=
  [ "I apologize, but I'm having trouble accessing our knowledge base right now.";
    "For immediate assistance, please contact our support team.";
    "Our support hours are Monday-Friday 9AM-6PM EST." ].

Definition static_suggestions : list AISuggestion :=
  [ mkSuggestion "suggestion_0" "Review the user's account history for similar issues" (JNum 0.7);
    mkSuggestion "suggestion_1" "Check the knowledge base for relevant documentation" (JNum 0.8);
    mkSuggestion "suggestion_2" "Consider escalating to technical support if needed" (JNum 0.8) ].

Definition sorry_message : string :=
  "I'm sorry, I'm having trouble processing your request right now. Please try again or contact human support.".

Definition some_technical_difficulties : string :=
  "I'm experiencing some technical difficulties. Please try again or contact human support.".

(** The keyword match of the fallback: the mock passages that include one
    of the words of the query, or the first three when none does. *)
Definition keyword_context (userQuery : string) : list string :=
  let keywords := split_space (toLowerCase userQuery) in
  let relevantContext :=
    filter (fun context => JS.some (fun keyword => includes (toLowerCase context) keyword) keywords)
           mockContext in
  if (0 <? List.length relevantContext)%nat then relevantContext else slice0 3 mockContext.

(** The confidence [generateResponse] gives a response text. *)
Definition response_confidence (aiResponse : string) (context : list string)
    (sources : list Source) : float :=
  let confidence := 0.8%float in
  let confidence :=
    if includes (toLowerCase aiResponse) "not sure"
       || includes (toLowerCase aiResponse) "don't know"
    then 0.6%float else confidence in
  let confidence :=
    if (List.length context =? 0)%nat
       || JS.some (fun c => includes c "trouble accessing") context
    then 0.5%float else confidence in
  if (0 <? List.length sources)%nat
  then Math_min (confidence + 0.1)%float 0.95
  else confidence.

Section Turn.

Variable env : Env analysisJson.t string.

(** Analyze user query and determine intent. *)
Definition analyzeQuery (userQuery : string) : M analysis.t :=
  try_catch
    (parsed <- invoke_json CallAnalyzer (llm_analysis env) ;;
     analysis <- object parsed ;;
     ret (analysis.mk
            (or_string (analysisJson.intent analysis) "general_inquiry")
            (or_string (analysisJson.urgency analysis) "medium")
            (or_string (analysisJson.complexity analysis) "moderate")
            (JS.or (analysisJson.needsHuman analysis) (JBool false))
            (JS.or (analysisJson.confidence analysis) (JNum 0.8))))
    (fun _ =>
       ret (analysis.mk "general_inquiry" "medium" "moderate" (JBool false) (JNum 0.5))).

(** Retrieve relevant context using RAG.  [companyId] is optional, and an
    empty one is falsy. *)
Definition retrieveContext (userQuery : string) (companyId : option string)
    : M (list string * list Source) :=
  let fallback := ret (keyword_context userQuery, []) in
  try_catch
    (match companyId with
     | Some (String _ _) =>
         searchResults <- search (kb_search env) ;;
         let '(chunks, found) := searchResults in
         if (0 <? List.length chunks)%nat then ret (chunks, found) else fallback
     | _ => fallback
     end)
    (fun _ => ret (unavailable_context, [])).

(** [await llm.invoke(...)] read as text: anything but a string makes
    [toLowerCase] throw. *)
Definition invoke_text (c : call) (r : reply string) : M string :=
  record_call c ;;;
  match r with
  | Rejects => throw ModelError
  | Parsed content => ret content
  | _ => throw TypeError
  end.

(** Generate AI response with enhanced context awareness. *)
Definition generateResponse (userQuery : string) (context : list string)
    (sources : list Source) : M (string * float) :=
  try_catch
    (aiResponse <- invoke_text CallGenerator (llm_response env) ;;
     ret (aiResponse, response_confidence aiResponse context sources))
    (fun _ => ret (sorry_message, 0.3%float)).

(** Generate suggestions for human agents. *)
Definition generateSuggestions (userQuery : string) (context : list string)
    (confidence : float) (sources : list Source) : M (list AISuggestion) :=
  if (0.8 <? confidence)%float
  then ret []
  else
    try_catch
      (parsed <- invoke_json CallSuggester (llm_suggestions env) ;;
       suggestions <- object parsed ;;
       ret (number_suggestions suggestions))
      (fun _ => ret static_suggestions).

(** Step 4 of [processUserMessage]. *)
Definition classify (needsHuman : value) (confidence : float) : ConversationStatus :=
  let status := green in
  let status :=
    if ToBoolean (JS.or needsHuman (JBool (confidence <? 0.7)%float))
    then yellow else status in
  if (confidence <? 0.5)%float then red else status.

Definition error_result : WorkflowResult :=
  mkResult some_technical_difficulties red (JNum 0.0) [error_suggestion] None.

(** Main workflow function to process a user message. *)
Definition processUserMessage (conversationId userMessage : string)
    (companyId : option string) (previousMessages : list BaseMessage) : M WorkflowResult :=
  let catch (_ : error) := ret error_result in
  guarded (analyzeQuery userMessage) catch (fun analysis =>
  guarded (retrieveContext userMessage companyId) catch (fun retrieved =>
  let '(context, sources) := retrieved in
  guarded (generateResponse userMessage context sources) catch (fun generated =>
  let '(response, confidence) := generated in
  let status := classify (analysis.needsHuman analysis) confidence in
  guarded (generateSuggestions userMessage context confidence sources) catch
          (fun suggestions =>
  ret (mkResult response status (JNum confidence) suggestions
                (sources_or_undefined sources)))))).

End Turn.

End Simple.


(* ===================================================================== *)
(** * The knowledge base search                                           *)
(* ===================================================================== *)

(** [KnowledgeBaseService.search], which the three retrieval steps call. *)
Module KnowledgeBase.

(** A row of [knowledge_base_chunks] as the search reads it:
    [document_id], [chunk_text] and [metadata?.fileName], which is [None]
    when the metadata or the property is absent.  A file name that is not a
    string is outside the model. *)
Record KnowledgeBaseChunk : Type := mkChunk {
  document_id : string;
  chunk_text : string;
  metadata_fileName : option string
}.

(** What [EmbeddingsService.searchKnowledgeBase] comes to. *)
Inductive embeddings_reply : Type :=
| EmbeddingsThrow
| EmbeddingsChunks (chunks : list KnowledgeBaseChunk).

(** [KnowledgeBaseSearchResult]. *)
Record KnowledgeBaseSearchResult : Type := mkSearchResult {
  chunks : list KnowledgeBaseChunk;
  context : string;
  sources : list Source
}.

(** [documentGroups]: a [Map] from document ids to chunks.  A [Map] keeps
    its keys in the order of their insertion and holds each key once. *)
Definition DocumentGroups : Type := list (string * list KnowledgeBaseChunk).

(** [documentGroups.has(docId)]. *)
Definition has (docId : string) (documentGroups : DocumentGroups) : bool :=
  existsb (fun entry => String.eqb (fst entry) docId) documentGroups.

(** [documentGroups.set(docId, [])] for a key that is not in the map. *)
Definition set_new (docId : string) (documentGroups : DocumentGroups) : DocumentGroups :=
  documentGroups ++ [(docId, [])].

(** [documentGroups.get(docId)!.push(chunk)]. *)
Definition push (docId : string) (chunk : KnowledgeBaseChunk)
    (documentGroups : DocumentGroups) : DocumentGroups :=
  map (fun entry =>
         if String.eqb (fst entry) docId then (fst entry, snd entry ++ [chunk]) else entry)
      documentGroups.

(** The body of [for (const chunk of chunks)]. *)
Definition group_step (documentGroups : DocumentGroups) (chunk : KnowledgeBaseChunk)
    : DocumentGroups :=
  let docId := document_id chunk in
  let documentGroups :=
    if negb (has docId documentGroups) then set_new docId documentGroups
    else documentGroups in
  push docId chunk documentGroups.

Definition group_chunks (chunks : list KnowledgeBaseChunk) : DocumentGroups :=
  fold_left group_step chunks [].

(** [docChunks[0].metadata?.fileName || 'Unknown Document']; reading
    [metadata] of the first chunk of an empty group throws. *)
Definition first_fileName (docChunks : list KnowledgeBaseChunk) : outcome string :=
  match docChunks with
  | [] => Thrown TypeError
  | chunk :: _ =>
      Returned (match metadata_fileName chunk with
                | None => "Unknown Document"
                | Some EmptyString => "Unknown Document"
                | Some fileName => fileName
                end)
  end.

(** What [docChunks.forEach] pushes to [contextParts]: the text of each
    chunk, and an empty line after each but the last. *)
Definition chunk_parts (docChunks : list KnowledgeBaseChunk) : list string :=
  List.concat (map_index
                 (fun chunk index =>
               chunk_text chunk
               :: (if (index <? List.length docChunks - 1)%nat then [EmptyString] else []))
            0 docChunks).

(** The loop [for (const [documentId, docChunks] of documentGroups)], from
    the [sources] and [contextParts] built so far. *)
Fixpoint build (documentGroups : DocumentGroups) (found : list Source)
    (contextParts : list string) : outcome (list Source * list string) :=
  match documentGroups with
  | [] => Returned (found, contextParts)
  | (documentId, docChunks) :: rest =>
      match first_fileName docChunks with
      | Thrown e => Thrown e
      | Returned fileName =>
          build rest
                (found ++ [mkSource documentId fileName (List.length docChunks)])
                (contextParts
                   ++ [(LF ++ "--- From " ++ fileName ++ " ---")%string]
                   ++ chunk_parts docChunks)
      end
  end.

(** [KnowledgeBaseService.search(query, companyId, { includeContext })]: the
    limit and the threshold only reach the embeddings search.  The [catch]
    block throws the error again. *)
Definition search (reply : embeddings_reply) (includeContext : bool)
    : outcome KnowledgeBaseSearchResult :=
  match reply with
  | EmbeddingsThrow => Thrown SearchError
  | EmbeddingsChunks chunks =>
      if includeContext && (0 <? List.length chunks)%nat
      then
        match build (group_chunks chunks) [] [] with
        | Thrown e => Thrown e
        | Returned (found, contextParts) =>
            Returned (mkSearchResult chunks (String.concat LF contextParts) found)
        end
      else Returned (mkSearchResult chunks EmptyString [])
  end.

(** What a retrieval step gets from [await KnowledgeBaseService.search(...,
    { includeContext: true })] and reads of it: the texts of
    [searchResults.chunks] and [searchResults.sources]. *)
Definition retrieval_reply (reply : embeddings_reply) : search_reply :=
  match search reply true with
  | Thrown _ => SearchThrows
  | Returned searchResults =>
      SearchResults (map chunk_text (chunks searchResults)) (sources searchResults)
  end.

(** The chunks of one document among [seen], in their order. *)
Definition own (docId : string) (seen : list KnowledgeBaseChunk) : list KnowledgeBaseChunk :=
  filter (fun chunk => String.eqb (document_id chunk) docId) seen.

(** What the grouping loop keeps true: each document seen so far has one
    entry, the entry holds the chunks of the document in their order, and
    the document of the first chunk comes first. *)
Definition grouped (documentGroups : DocumentGroups) (seen : list KnowledgeBaseChunk) : Prop :=
  NoDup (map fst documentGroups)
  /\ (forall docId, In docId (map fst documentGroups) <-> In docId (map document_id seen))
  /\ (forall entry, In entry documentGroups -> snd entry = own (fst entry) seen)
  /\ hd_error (map fst documentGroups) = hd_error (map document_id seen).

End KnowledgeBase.

(* ===================================================================== *)
(** * Manual handoff and status read                                      *)
(* ===================================================================== *)

Module Manual.

(** What the read of a conversation's row can come to. *)
Inductive read_reply : Type :=
| ReadOk        (* the statement ran *)
| ReadError     (* the client returns [{ error }] *)
| ReadThrows.   (* the client throws *)

(** [await supabaseAdmin.from('conversations').select('status')
    .eq('id', cid).single()]: the status of the row, or [None] for
    [{ error }].  With [single()], no row is an error. *)
Definition select_status (r : read_reply) (cid : string) : M (option ConversationStatus) :=
  fun w =>
    match r with
    | ReadOk => (Returned (conversations w cid), w)
    | ReadError => (Returned None, w)
    | ReadThrows => (Thrown DatabaseError, w)
    end.

(** Function to manually trigger handoff for a conversation. *)
Definition triggerManualHandoff (r : db_reply) (conversationId reason : string) : M bool :=
  try_catch
    (error <- update_conversation r conversationId red ;;
     if error then ret false else ret true)
    (fun _ => ret false).

(** Function to get conversation status; [None] is [null]. *)
Definition getConversationStatus (r : read_reply) (conversationId : string)
    : M (option ConversationStatus) :=
  try_catch
    (row <- select_status r conversationId ;;
     match row with
     | None => ret None
     | Some status => ret (Some status)
     end)
    (fun _ => ret None).

End Manual.

(* ===================================================================== *)
(** * The pool of model clients                                           *)
(* ===================================================================== *)

Module LLMPool.

(** The static fields of [LLMPool].  A [ChatOpenAI] instance is named by
    the number of instances constructed before it. *)
Record t : Type := mk {
  instances : list nat;
  currentIndex : nat;
  constructed : nat
}.

Definition maxInstances : nat := 5.

(** The class at module load. *)
Definition initial : t := mk [] 0 0.

(** [this.instances.push(new ChatOpenAI({ ... }))]. *)
Definition push_new (pool : t) : t :=
  mk (instances pool ++ [constructed pool]) (currentIndex pool) (S (constructed pool)).

(** [for (let i = 0; i < this.maxInstances; i++) { ... }]. *)
Fixpoint initialize (count : nat) (pool : t) : t :=
  match count with
  | O => pool
  | S count => initialize count (push_new pool)
  end.

(** [LLMPool.getInstance()]: the instance returned, [None] for
    [undefined], and the class after the call. *)
Definition getInstance (pool : t) : option nat * t :=
  let pool :=
    if (List.length (instances pool) =? 0)%nat then initialize maxInstances pool
    else pool in
  let instance := nth_error (instances pool) (currentIndex pool) in
  (instance,
   mk (instances pool) ((currentIndex pool + 1) mod maxInstances) (constructed pool)).

(** [count] calls of [getInstance] in a row: what they return, and the
    class after them. *)
Fixpoint getInstances (count : nat) (pool : t) : list (option nat) * t :=
  match count with
  | O => ([], pool)
  | S count =>
      let (instance, pool) := getInstance pool in
      let (rest, pool) := getInstances count pool in
      (instance :: rest, pool)
  end.

(** [LLMPool.warmUp()]: the instances it invokes, each inside its own
    [try] block. *)
Definition warmUp (pool : t) : list nat := instances pool.

End LLMPool.

(* ===================================================================== *)
(** * Utilities                                                           *)
(* ===================================================================== *)

Module Utils.

(** [truncateText(text, maxLength)], for an integer [maxLength]:
    [substring] reads a negative end as 0 and stops at the end of the
    text. *)
Definition truncateText (text : string) (maxLength : Z) : string :=
  if (Z.of_nat (String.length text) <=? maxLength)%Z then text
  else (substring 0 (Z.to_nat maxLength) text ++ "...")%string.

(** The value of the type [ConversationStatus] as the string it is. *)
Definition status_name (status : ConversationStatus) : string :=
  match status with
  | green => "green"
  | yellow => "yellow"
  | red => "red"
  | resolved_ai => "resolved_ai"
  | resolved_human => "resolved_human"
  | typing_ai => "typing_ai"
  | typing_user => "typing_user"
  | active_human_needed => "active_human_needed"
  end.

Definition gray : string := "text-gray-600 bg-gray-50 border-gray-200".

(** [getStatusColor(status)]: a [switch] on the string. *)
Definition getStatusColor (status : string) : string :=
  if String.eqb status "green" || String.eqb status "resolved_ai"
  then "text-green-600 bg-green-50 border-green-200"
  else if String.eqb status "yellow" || String.eqb status "active_human_needed"
  then "text-yellow-600 bg-yellow-50 border-yellow-200"
  else if String.eqb status "red"
  then "text-red-600 bg-red-50 border-red-200"
  else if String.eqb status "resolved_human"
  then "text-blue-600 bg-blue-50 border-blue-200"
  else gray.

(** [getStatusLabel(status)]. *)
Definition getStatusLabel (status : string) : string :=
  if String.eqb status "green" then "AI Handling"
  else if String.eqb status "yellow" || String.eqb status "active_human_needed"
  then "Needs Attention"
  else if String.eqb status "red" then "Escalated"
  else if String.eqb status "resolved_ai" then "Resolved by AI"
  else if String.eqb status "resolved_human" then "Resolved by Agent"
  else if String.eqb status "typing_ai" then "AI Typing..."
  else if String.eqb status "typing_user" then "User Typing..."
  else status.

(** [formatRelativeTime(date)], on the two [getTime()] values in
    milliseconds: [now] and that of the date, [None] for an invalid date,
    whose [getTime()] is [NaN].  Times are integers of at most 8.64e15 in
    absolute value, on which the divisions and [Math.floor] are exact. *)
Definition plural (count : Z) : string :=
  if (1 <? count)%Z then "s" else EmptyString.

Definition number (count : Z) : string :=
  DecimalString.NilZero.string_of_int (Z.to_int count).

Definition formatRelativeTime (now : Z) (targetDate : option Z) : string :=
  match targetDate with
  | None => "NaN day ago"
  | Some targetDate =>
      let diffInSeconds := ((now - targetDate) / 1000)%Z in
      if (diffInSeconds <? 60)%Z then "just now"
      else if (diffInSeconds <? 3600)%Z then
        let minutes := (diffInSeconds / 60)%Z in
        (number minutes ++ " minute" ++ plural minutes ++ " ago")%string
      else if (diffInSeconds <? 86400)%Z then
        let hours := (diffInSeconds / 3600)%Z in
        (number hours ++ " hour" ++ plural hours ++ " ago")%string
      else
        let days := (diffInSeconds / 86400)%Z in
        (number days ++ " day" ++ plural days ++ " ago")%string
  end.

End Utils.

(* ===================================================================== *)
(** * Regular expressions                                                 *)
(* ===================================================================== *)

(** The regular expressions of the two validators, on strings of code units
    below 256.  Both expressions are anchored at both ends, so that
    [regex.test(str)] is whether the whole string is in the language of the
    expression. *)
Module Regex.

Inductive regex : Type :=
| Empty                                   (* matches nothing *)
| Eps                                     (* the empty string *)
| Class (member : ascii -> bool)          (* [...] and single characters *)
| Seq (r1 r2 : regex)                     (* r1 r2 *)
| Alt (r1 r2 : regex)                     (* r1 | r2 *)
| Star (r : regex).                       (* r* *)

(** [r+] and [r{n}]. *)
Definition Plus (r : regex) : regex := Seq r (Star r).

Fixpoint Repeat (n : nat) (r : regex) : regex :=
  match n with
  | O => Eps
  | S n => Seq r (Repeat n r)
  end.

(** A single character. *)
Definition Chr (c : ascii) : regex := Class (Ascii.eqb c).

(** The strings an expression matches as a whole. *)
Inductive lang : regex -> string -> Prop :=
| lang_Eps : lang Eps EmptyString
| lang_Class (member : ascii -> bool) (c : ascii) :
    member c = true -> lang (Class member) (String c EmptyString)
| lang_Seq (r1 r2 : regex) (s1 s2 : string) :
    lang r1 s1 -> lang r2 s2 -> lang (Seq r1 r2) (s1 ++ s2)
| lang_Alt_l (r1 r2 : regex) (s : string) : lang r1 s -> lang (Alt r1 r2) s
| lang_Alt_r (r1 r2 : regex) (s : string) : lang r2 s -> lang (Alt r1 r2) s
| lang_Star_nil (r : regex) : lang (Star r) EmptyString
| lang_Star_cons (r : regex) (s1 s2 : string) :
    lang r s1 -> lang (Star r) s2 -> lang (Star r) (s1 ++ s2).

(** Matching by derivatives. *)
Fixpoint nullable (r : regex) : bool :=
  match r with
  | Empty => false
  | Eps => true
  | Class _ => false
  | Seq r1 r2 => nullable r1 && nullable r2
  | Alt r1 r2 => nullable r1 || nullable r2
  | Star _ => true
  end.

Fixpoint deriv (c : ascii) (r : regex) : regex :=
  match r with
  | Empty => Empty
  | Eps => Empty
  | Class member => if member c then Eps else Empty
  | Seq r1 r2 =>
      if nullable r1 then Alt (Seq (deriv c r1) r2) (deriv c r2)
      else Seq (deriv c r1) r2
  | Alt r1 r2 => Alt (deriv c r1) (deriv c r2)
  | Star r => Seq (deriv c r) (Star r)
  end.

(** [/^r$/.test(s)]. *)
Fixpoint test (r : regex) (s : string) : bool :=
  match s with
  | EmptyString => nullable r
  | String c s => test (deriv c r) s
  end.

(** Every character of the string is in the class. *)
Fixpoint all_in (member : ascii -> bool) (s : string) : bool :=
  match s with
  | EmptyString => true
  | String c s => member c && all_in member s
  end.

(** [\s] below 256: tab, line feed, vertical tab, form feed, carriage
    return, space and no-break space. *)
Definition whitespace (c : ascii) : bool :=
  let n := nat_of_ascii c in
  ((9 <=? n) && (n <=? 13) || (n =? 32) || (n =? 160))%nat.

(** [[a-b]], and a class under the flag [i], which compares the characters
    without their case. *)
Definition range (a b : ascii) (c : ascii) : bool :=
  ((nat_of_ascii a <=? nat_of_ascii c) && (nat_of_ascii c <=? nat_of_ascii b))%nat.

Definition ignore_case (member : ascii -> bool) (c : ascii) : bool :=
  member (lower_ascii c).

End Regex.

Module Validators.

Import Regex.

(** [[^\s@]]. *)
Definition plain (c : ascii) : bool := negb (whitespace c || Ascii.eqb c "@").

(** [/^[^\s@]+@[^\s@]+\.[^\s@]+$/]. *)
Definition emailRegex : regex :=
  Seq (Plus (Class plain))
 (Seq (Chr "@")
 (Seq (Plus (Class plain))
 (Seq (Chr ".")
      (Plus (Class plain))))).

(** [validateEmail(email)]. *)
Definition validateEmail (email : string) : bool := test emailRegex email.

(** [[0-9a-f]], [[1-5]] and [[89ab]] under the flag [i]. *)
Definition hex (c : ascii) : bool :=
  ignore_case (fun c => range "0" "9" c || range "a" "f" c) c.

Definition version (c : ascii) : bool := ignore_case (range "1" "5") c.

Definition variant (c : ascii) : bool :=
  ignore_case (fun c => Ascii.eqb c "8" || Ascii.eqb c "9"
                        || Ascii.eqb c "a" || Ascii.eqb c "b") c.

(** [/^[0-9a-f]{8}-[0-9a-f]{4}-[1-5][0-9a-f]{3}-[89ab][0-9a-f]{3}-[0-9a-f]{12}$/i]. *)
Definition uuidRegex : regex :=
  Seq (Repeat 8 (Class hex))
 (Seq (Chr "-")
 (Seq (Repeat 4 (Class hex))
 (Seq (Chr "-")
 (Seq (Class version)
 (Seq (Repeat 3 (Class hex))
 (Seq (Chr "-")
 (Seq (Class variant)
 (Seq (Repeat 3 (Class hex))
 (Seq (Chr "-")
      (Repeat 12 (Class hex))))))))))).

(** Helper function to validate UUID format. *)
Definition isValidUUID (str : string) : bool := test uuidRegex str.

End Validators.

(* ===================================================================== *)
(** * The chat route                                                      *)
(* ===================================================================== *)

(** [POST /api/chat], which runs the handoff workflow. *)
Module Route.

Import Validators.










Section Handler.

Variable env : Env Handoff.analysis.t Handoff.aiResponse.t.

(** [uuidv4()]: the identifiers it returns, in the order of the calls. *)
Variable uuidv4 : nat -> string.


End Handler.

End Route.


(** One reply given to both orchestrated workflows. *)
Module Agreement.

(** The analyzer's reply as the JSON object it parses to.  The handoff
    workflow reads the flag under the name [needsImmedateHuman], the
    concurrent workflow under [needsImmediateHuman]: the object can have
    either property, both or none. *)
Module analysisJson.
Record t : Type := mk {
  intent : string;
  urgency : string;
  complexity : string;
  aiConfidence : value;
  needsImmedateHuman : value;
  needsImmediateHuman : value;
  reasoning : string
}.
End analysisJson.

(** The generator's reply as the JSON object it parses to. *)
Module responseJson.
Record t : Type := mk {
  response : string;
  confidence : value;
  suggestsHumanHelp : value;
  reasoning : string
}.
End responseJson.

(** What each workflow reads of the objects. *)
Definition handoff_analysis (j : analysisJson.t) : Handoff.analysis.t :=
  Handoff.analysis.mk (analysisJson.intent j) (analysisJson.aiConfidence j)
                      (analysisJson.needsImmedateHuman j) (analysisJson.reasoning j).

Definition concurrent_analysis (j : analysisJson.t) : Concurrent.analysis.t :=
  Concurrent.analysis.mk (analysisJson.intent j) (analysisJson.urgency j)
                         (analysisJson.complexity j) (analysisJson.aiConfidence j)
                         (analysisJson.needsImmediateHuman j) (analysisJson.reasoning j).

Definition handoff_response (j : responseJson.t) : Handoff.aiResponse.t :=
  Handoff.aiResponse.mk (responseJson.response j) (responseJson.confidence j)
                        (responseJson.suggestsHumanHelp j).

Definition concurrent_response (j : responseJson.t) : Concurrent.aiResponse.t :=
  Concurrent.aiResponse.mk (responseJson.response j) (responseJson.confidence j)
                           (responseJson.suggestsHumanHelp j) (responseJson.reasoning j).

(** A reply that comes to the same for a workflow that reads [f] of the
    object it parses to. *)
Definition read {A B : Type} (f : A -> B) (r : reply A) : reply B :=
  match r with
  | Rejects => Rejects
  | Unparsable => Unparsable
  | ParsedNull => ParsedNull
  | Parsed a => Parsed (f a)
  end.


End Agreement.
(* ===================================================================== *)
(** * Closed forms                                                        *)
(* ===================================================================== *)

(** What each stage of the handoff workflow returns and what it leaves in
    the world, read off the answers of the environment.  The lemmas of
    [HandoffRun] below show that the stages compute exactly these. *)
Module HandoffForm.

Import Handoff.

Section Turn.

Variable env : Env analysis.t aiResponse.t.

Definition analyzed (state : HandoffWorkflowState) : HandoffWorkflowState :=
  match llm_analysis env with
  | Parsed analysis =>
      with_escalationReason
        (if ToBoolean (analysis.needsImmedateHuman analysis)
         then analysis.reasoning analysis else EmptyString)
     (with_needsHumanIntervention
        (JS.or (analysis.needsImmedateHuman analysis) (JBool false))
     (with_confidence (JS.or (analysis.aiConfidence analysis) (JNum 0.8)) state))
  | _ =>
      with_escalationReason "Analysis failed - proceeding with caution"
     (with_needsHumanIntervention (JBool false)
     (with_confidence (JNum 0.5) state))
  end.

Definition retrieved (state : HandoffWorkflowState) : HandoffWorkflowState :=
  match kb_search env with
  | SearchResults (chunk :: chunks) found =>
      with_sources found (with_retrievedContext (chunk :: chunks) state)
  | SearchResults [] _ =>
      with_sources [] (with_retrievedContext fallbackContext state)
  | SearchThrows =>
      with_confidence (JNum (Math_min (JS.mul (confidence state) (JNum 0.7)) 0.5))
     (with_sources [] (with_retrievedContext search_error_context state))
  end.

Definition generated (state : HandoffWorkflowState) : HandoffWorkflowState :=
  match llm_response env with
  | Parsed aiResponse =>
      with_needsHumanIntervention
        (JS.or (needsHumanIntervention state) (aiResponse.suggestsHumanHelp aiResponse))
     (with_confidence
        (JNum (Math_min (JS.mul (confidence state) (JNum 0.6)
                         + JS.mul (aiResponse.confidence aiResponse) (JNum 0.4))%float
                        0.95))
     (with_finalResponse (aiResponse.response aiResponse) state))
  | _ =>
      with_escalationReason "AI response generation failed"
     (with_needsHumanIntervention (JBool true)
     (with_confidence (JNum 0.3)
     (with_finalResponse generation_failed_message state)))
  end.

Definition suggested : list AISuggestion :=
  match llm_suggestions env with
  | Parsed suggestions => number_suggestions suggestions
  | _ => [fallback_suggestion]
  end.

Definition must_escalate (state : HandoffWorkflowState) : bool :=
  ToBoolean (JS.or (needsHumanIntervention state)
                   (JBool (JS.lt (confidence state) (JNum 0.5)))).

Definition determined (state : HandoffWorkflowState) : HandoffWorkflowState :=
  if must_escalate state
  then with_suggestions [escalate_immediately; review_context]
         (with_currentStatus red state)
  else if JS.lt (confidence state) (JNum 0.7)
  then with_suggestions suggested (with_currentStatus yellow state)
  else with_suggestions [] (with_currentStatus green state).

Definition determined_world (state : HandoffWorkflowState) (w : World) : World :=
  if must_escalate state then w
  else if JS.lt (confidence state) (JNum 0.7) then add_call CallSuggester w
  else w.

Definition handed (state : HandoffWorkflowState) : HandoffWorkflowState :=
  match db_update env with
  | DbThrows => state
  | _ =>
      if ConversationStatus_eqb (currentStatus state) red
      then with_finalResponse (finalResponse state ++ handoff_sentence)
             (with_agentAssigned false state)
      else state
  end.

Definition handed_world (state : HandoffWorkflowState) (w : World) : World :=
  let w' := add_call (CallStatusUpdate (conversationId state) (currentStatus state)) w in
  match db_update env with
  | DbOk =>
      mkWorld (calls w')
              (set_status (conversationId state) (currentStatus state) (conversations w'))
  | _ => w'
  end.

Definition early_exit (state : HandoffWorkflowState) : bool :=
  ToBoolean (JS.and (needsHumanIntervention state)
                    (JBool (JS.lt (confidence state) (JNum 0.3)))).

Definition escalated_early (state : HandoffWorkflowState) : HandoffWorkflowState :=
  with_finalResponse early_escalation_message (with_currentStatus red state).

Definition final (conversationId userMessage companyId : string)
    (previousMessages : list BaseMessage) : HandoffWorkflowState :=
  let state := analyzed (initial_state conversationId userMessage companyId previousMessages) in
  if early_exit state then handed (escalated_early state)
  else
    let state := determined (generated (retrieved state)) in
    if ConversationStatus_eqb (currentStatus state) red then handed state else state.

Definition final_world (conversationId userMessage companyId : string)
    (previousMessages : list BaseMessage) (w : World) : World :=
  let state := analyzed (initial_state conversationId userMessage companyId previousMessages) in
  let w := add_call CallAnalyzer w in
  if early_exit state then handed_world (escalated_early state) w
  else
    let w := add_call CallGenerator (add_call CallRetriever w) in
    let w := determined_world (generated (retrieved state)) w in
    let state := determined (generated (retrieved state)) in
    if ConversationStatus_eqb (currentStatus state) red then handed_world state w else w.

(** What the analysis step leaves in the state, whatever the state. *)
Definition analyzer_confidence : value :=
  match llm_analysis env with
  | Parsed analysis => JS.or (analysis.aiConfidence analysis) (JNum 0.8)
  | _ => JNum 0.5
  end.

Definition analyzer_flag : value :=
  match llm_analysis env with
  | Parsed analysis => JS.or (analysis.needsImmedateHuman analysis) (JBool false)
  | _ => JBool false
  end.

(** The test of the early exit, on what the analysis step left. *)
Definition short_circuits : bool :=
  ToBoolean (JS.and analyzer_flag (JBool (JS.lt analyzer_confidence (JNum 0.3)))).

(** The confidence the state carries into the generation step: the
    analyzer's, reduced when the search threw. *)
Definition carried_confidence : value :=
  match kb_search env with
  | SearchThrows => JNum (Math_min (JS.mul analyzer_confidence (JNum 0.7)) 0.5)
  | SearchResults _ _ => analyzer_confidence
  end.

(** A human-needed flag fired: the analyzer's [needsImmedateHuman] or
    the generator's [suggestsHumanHelp] is truthy in a parsed payload. *)
Definition flag_fired : bool :=
  match llm_analysis env with
  | Parsed analysis => ToBoolean (analysis.needsImmedateHuman analysis)
  | _ => false
  end
  || match llm_response env with
     | Parsed aiResponse => ToBoolean (aiResponse.suggestsHumanHelp aiResponse)
     | _ => false
     end.

(** The confidences the model reports are not negative: the analyzer's is
    falsy (and then defaulted) or at least 0, and the generator's is at
    least 0. *)
Definition reports_nonnegative : Prop :=
  match llm_analysis env with
  | Parsed analysis =>
      ToBoolean (analysis.aiConfidence analysis) = false
      \/ (0 <=? ToNumber (analysis.aiConfidence analysis))%float = true
  | _ => True
  end
  /\ match llm_response env with
     | Parsed aiResponse => (0 <=? ToNumber (aiResponse.confidence aiResponse))%float = true
     | _ => True
     end.

(** Every model call of the turn throws. *)
Definition model_down : Prop :=
  llm_analysis env = Rejects /\ llm_response env = Rejects
  /\ llm_suggestions env = Rejects.

End Turn.

End HandoffForm.

(** The same for the concurrent workflow, by the lemmas of [ConcurrentRun]. *)
Module ConcurrentForm.

Import Concurrent.

Section Turn.

Variable env : Env analysis.t aiResponse.t.

Definition analysed : option analysis.t :=
  match llm_analysis env with
  | Parsed payload => Some payload
  | ParsedNull => None
  | _ => Some default_analysis
  end.

Definition retrieved : context.t :=
  match kb_search env with
  | SearchResults (chunk :: chunks) found => context.mk (chunk :: chunks) found true
  | SearchResults [] _ => context.mk fallbackContext [] false
  | SearchThrows => context.mk search_error_context [] false
  end.

Definition responded : option aiResponse.t :=
  match llm_response env with
  | Parsed payload => Some payload
  | ParsedNull => None
  | _ => Some default_response
  end.

Definition suggested (input_confidence : value) : list AISuggestion :=
  if JS.gt input_confidence (JNum 0.7) then []
  else match llm_suggestions env with
       | Parsed suggestions => number_suggestions suggestions
       | _ => [fallback_suggestion]
       end.

Definition suggested_world (input_confidence : value) (w : World) : World :=
  if JS.gt input_confidence (JNum 0.7) then w else add_call CallSuggester w.

(** Whether the status update goes through: the statement runs and the
    conversation has a row. *)
Definition update_succeeds (state : ConcurrentWorkflowState) (w : World) : bool :=
  match db_update env, conversations w (conversationId state) with
  | DbOk, Some _ => true
  | _, _ => false
  end.

Definition handed (state : ConcurrentWorkflowState) (w : World) : ConcurrentWorkflowState :=
  if update_succeeds state w && ConversationStatus_eqb (currentStatus state) red
  then set_finalResponse (finalResponse state ++ handoff_sentence) state
  else state.

Definition handed_world (state : ConcurrentWorkflowState) (w : World) : World :=
  let w' := add_call (CallStatusUpdate (conversationId state) (currentStatus state)) w in
  if update_succeeds state w
  then mkWorld (calls w')
               (set_status (conversationId state) (currentStatus state) (conversations w'))
  else w'.

Definition after_step1 (analysis : analysis.t) (state : ConcurrentWorkflowState)
    : ConcurrentWorkflowState :=
  set_sources (context.sources retrieved)
 (set_retrievedContext (context.context retrieved)
 (set_needsHumanIntervention
    (JS.or (analysis.needsImmediateHuman analysis) (JBool false))
 (set_confidence (JS.or (analysis.aiConfidence analysis) (JNum 0.8)) state))).

Definition early_exit (state : ConcurrentWorkflowState) : bool :=
  ToBoolean (JS.and (needsHumanIntervention state)
                    (JBool (JS.lt (confidence state) (JNum 0.3)))).

Definition escalated_early (state : ConcurrentWorkflowState) : ConcurrentWorkflowState :=
  set_finalResponse early_escalation_message (set_currentStatus red state).

Definition blended (analyzer_confidence generator_confidence : value) : float :=
  Math_min (JS.mul analyzer_confidence (JNum 0.6)
            + JS.mul generator_confidence (JNum 0.4))%float 0.95.

Definition after_step2 (response : aiResponse.t) (state : ConcurrentWorkflowState)
    : ConcurrentWorkflowState :=
  set_suggestions (suggested (confidence state))
 (set_needsHumanIntervention
    (JS.or (needsHumanIntervention state) (aiResponse.suggestsHumanHelp response))
 (set_confidence
    (JNum (blended (confidence state) (aiResponse.confidence response)))
 (set_finalResponse (aiResponse.response response) state))).

Definition final (conversationId userMessage companyId : string)
    (previousMessages : list BaseMessage) (w : World) : ConcurrentWorkflowState :=
  let state := initial_state conversationId userMessage companyId previousMessages in
  let w := add_call CallRetriever (add_call CallAnalyzer w) in
  match analysed with
  | None => error_state state
  | Some analysis =>
      let state := after_step1 analysis state in
      if early_exit state then handed (escalated_early state) w
      else
        let w := suggested_world (confidence state) (add_call CallGenerator w) in
        match responded with
        | None => error_state state
        | Some response =>
            let state := classify (after_step2 response state) in
            if ConversationStatus_eqb (currentStatus state) red
            then handed state w else state
        end
  end.

Definition final_world (conversationId userMessage companyId : string)
    (previousMessages : list BaseMessage) (w : World) : World :=
  let state := initial_state conversationId userMessage companyId previousMessages in
  let w := add_call CallRetriever (add_call CallAnalyzer w) in
  match analysed with
  | None => w
  | Some analysis =>
      let state := after_step1 analysis state in
      if early_exit state then handed_world (escalated_early state) w
      else
        let w := suggested_world (confidence state) (add_call CallGenerator w) in
        match responded with
        | None => w
        | Some response =>
            let state := classify (after_step2 response state) in
            if ConversationStatus_eqb (currentStatus state) red
            then handed_world state w else w
        end
  end.

Definition analyzer_confidence : value :=
  match analysed with
  | Some analysis => JS.or (analysis.aiConfidence analysis) (JNum 0.8)
  | None => JUndefined
  end.

Definition analyzer_flag : value :=
  match analysed with
  | Some analysis => JS.or (analysis.needsImmediateHuman analysis) (JBool false)
  | None => JUndefined
  end.

Definition short_circuits : bool :=
  ToBoolean (JS.and analyzer_flag (JBool (JS.lt analyzer_confidence (JNum 0.3)))).

End Turn.

End ConcurrentForm.

(** The same for the simple workflow, by the lemmas of [SimpleRun]. *)
Module SimpleForm.

Import Simple.

Section Turn.

Variable env : Env analysisJson.t string.

Definition analysed : analysis.t :=
  match llm_analysis env with
  | Parsed payload =>
      analysis.mk
        (or_string (analysisJson.intent payload) "general_inquiry")
        (or_string (analysisJson.urgency payload) "medium")
        (or_string (analysisJson.complexity payload) "moderate")
        (JS.or (analysisJson.needsHuman payload) (JBool false))
        (JS.or (analysisJson.confidence payload) (JNum 0.8))
  | _ => analysis.mk "general_inquiry" "medium" "moderate" (JBool false) (JNum 0.5)
  end.

(** Whether [retrieveContext] searches the knowledge base. *)
Definition searches (companyId : option string) : bool :=
  match companyId with
  | Some (String _ _) => true
  | _ => false
  end.

Definition retrieved (userQuery : string) (companyId : option string)
    : list string * list Source :=
  if searches companyId then
    match kb_search env with
    | SearchThrows => (unavailable_context, [])
    | SearchResults (chunk :: chunks) found => (chunk :: chunks, found)
    | SearchResults [] _ => (keyword_context userQuery, [])
    end
  else (keyword_context userQuery, []).

Definition retrieved_world (companyId : option string) (w : World) : World :=
  if searches companyId then add_call CallRetriever w else w.

Definition generated (context : list string) (sources : list Source) : string * float :=
  match llm_response env with
  | Parsed aiResponse => (aiResponse, response_confidence aiResponse context sources)
  | _ => (sorry_message, 0.3%float)
  end.

Definition suggested (confidence : float) : list AISuggestion :=
  if (0.8 <? confidence)%float then []
  else match llm_suggestions env with
       | Parsed suggestions => number_suggestions suggestions
       | _ => static_suggestions
       end.

Definition suggested_world (confidence : float) (w : World) : World :=
  if (0.8 <? confidence)%float then w else add_call CallSuggester w.

Definition final (userMessage : string) (companyId : option string) : WorkflowResult :=
  let context := fst (retrieved userMessage companyId) in
  let sources := snd (retrieved userMessage companyId) in
  let response := fst (generated context sources) in
  let confidence := snd (generated context sources) in
  mkResult response (classify (analysis.needsHuman analysed) confidence) (JNum confidence)
           (suggested confidence) (sources_or_undefined sources).

Definition final_world (userMessage : string) (companyId : option string) (w : World)
    : World :=
  let context := fst (retrieved userMessage companyId) in
  let sources := snd (retrieved userMessage companyId) in
  let confidence := snd (generated context sources) in
  suggested_world confidence
    (add_call CallGenerator (retrieved_world companyId (add_call CallAnalyzer w))).

(** The analyzer's [needsHuman] is truthy in a parsed payload. *)
Definition flag_fired : bool :=
  match llm_analysis env with
  | Parsed payload => ToBoolean (analysisJson.needsHuman payload)
  | _ => false
  end.

End Turn.

(** The three tests of [generateResponse], by name. *)
Definition hedged (aiResponse : string) : bool :=
  includes (toLowerCase aiResponse) "not sure"
  || includes (toLowerCase aiResponse) "don't know".

Definition unavailable (context : list string) : bool :=
  (List.length context =? 0)%nat
  || JS.some (fun c => includes c "trouble accessing") context.

Definition grounded (sources : list Source) : bool :=
  (0 <? List.length sources)%nat.

(** The confidence policy in the words of the specification, as amended:
    start from 0.8, cap at 0.6 on hedging, cap at 0.5 when the context is
    unavailable, then add 0.1 clamped to 0.95 when there are sources. *)
Definition confidence_policy (aiResponse : string) (context : list string)
    (sources : list Source) : float :=
  let start := 0.8%float in
  let capped_on_hedging := if hedged aiResponse then Math_min start 0.6 else start in
  let capped_on_context :=
    if unavailable context then Math_min capped_on_hedging 0.5 else capped_on_hedging in
  if grounded sources then Math_min (capped_on_context + 0.1)%float 0.95
  else capped_on_context.

End SimpleForm.

(** A binary64 number that is a zero, positive or plus infinity. *)
Definition nonneg (s : spec_float) : bool :=
  match s with
  | S754_zero _ => true
  | S754_finite false _ _ => true
  | S754_infinity false => true
  | _ => false
  end.

(* ===================================================================== *)
(** * Sample turns                                                        *)
(* ===================================================================== *)

(** Concrete environments and a concrete world, for the examples below. *)
Module Sample.

(** A world with one green conversation and no call made yet. *)
Definition world : World :=
  mkWorld [] (fun k => if String.eqb k "conv-1" then Some green else None).

Definition passage : string := "Support is open from 9AM to 6PM on weekdays.".
Definition handbook : Source := mkSource "doc-1" "handbook.pdf" 1.

(** The analyzer asks for a human with confidence 0.1. *)
Definition urgent : Env Handoff.analysis.t Handoff.aiResponse.t :=
  mkEnv (Parsed (Handoff.analysis.mk "urgent_issue" (JNum 0.1) (JBool true) "emergency"))
        (SearchResults [passage] [handbook])
        (Parsed (Handoff.aiResponse.mk "We are open from 9AM." (JNum 0.9) (JBool false)))
        Rejects DbOk.

(** The analyzer asks for a human and reports the confidence -1. *)
Definition negative : Env Handoff.analysis.t Handoff.aiResponse.t :=
  mkEnv (Parsed (Handoff.analysis.mk "urgent_issue" (JNum (-1)) (JBool true) "emergency"))
        (SearchResults [passage] [handbook])
        (Parsed (Handoff.aiResponse.mk "We are open from 9AM." (JNum 0.9) (JBool false)))
        Rejects DbOk.


(** Every model call throws; search and database answer. *)
Definition outage : Env Handoff.analysis.t Handoff.aiResponse.t :=
  mkEnv Rejects (SearchResults [passage] [handbook]) Rejects Rejects DbOk.


(** A confident turn. *)
Definition confident : Env Handoff.analysis.t Handoff.aiResponse.t :=
  mkEnv (Parsed (Handoff.analysis.mk "general_inquiry" (JNum 0.9) (JBool false) "plain"))
        (SearchResults [passage] [handbook])
        (Parsed (Handoff.aiResponse.mk "We are open from 9AM." (JNum 0.9) (JBool false)))
        Rejects DbOk.

(** The generator's payload has no [confidence]. *)
Definition unrated : Env Handoff.analysis.t Handoff.aiResponse.t :=
  mkEnv (Parsed (Handoff.analysis.mk "general_inquiry" (JNum 0.9) (JBool false) "plain"))
        (SearchResults [passage] [handbook])
        (Parsed (Handoff.aiResponse.mk "We are open from 9AM." JUndefined (JBool false)))
        Rejects DbOk.

(** The concurrent workflow: the analyzer asks for a human with
    confidence 0.1; in the second environment the update fails. *)
Definition concurrent_urgent : Env Concurrent.analysis.t Concurrent.aiResponse.t :=
  mkEnv (Parsed (Concurrent.analysis.mk "urgent_issue" "critical" "complex"
                   (JNum 0.1) (JBool true) "emergency"))
        (SearchResults [passage] [handbook])
        (Parsed (Concurrent.aiResponse.mk "We are open from 9AM." (JNum 0.9) (JBool false)
                   "grounded"))
        Rejects DbOk.


(** The model answers the suggestions prompt with four suggestions. *)
Definition four_suggestions : list SuggestionJson :=
  [ mkSuggestionJson "Check the account" (JNum 0.9);
    mkSuggestionJson "Check the invoice" (JNum 0.8);
    mkSuggestionJson "Check the plan" (JNum 0.7);
    mkSuggestionJson "Call the customer" (JNum 0.6) ].


(** The simple workflow: the analyzer sets [needsHuman], the answer does
    not hedge, and there is no company to search for. *)
Definition simple_flagged : Env Simple.analysisJson.t string :=
  mkEnv (Parsed (Simple.analysisJson.mk (Some "account_help") (Some "medium") (Some "simple")
                   (JBool true) (JNum 0.9)))
        (SearchResults [] [])
        (Parsed "Our office is open on weekdays.")
        Rejects DbOk.

Definition simple_zero : Env Simple.analysisJson.t string :=
  mkEnv (Parsed (Simple.analysisJson.mk (Some "account_help") (Some "medium") (Some "simple")
                   (JBool true) (JNum 0)))
        (SearchResults [] [])
        (Parsed "Our office is open on weekdays.")
        Rejects DbOk.

(** The simple workflow without a flag: a plain answer, nothing to search. *)
Definition simple_plain : Env Simple.analysisJson.t string :=
  mkEnv (Parsed (Simple.analysisJson.mk (Some "general_inquiry") (Some "low") (Some "simple")
                   (JBool false) (JNum 0.9)))
        (SearchResults [] [])
        (Parsed "Our office is open on weekdays.")
        Rejects DbOk.




End Sample.


(** More sample environments, for the examples of the later sections. *)
Module Turns.







(** A reply of the analyzer with the confidence 0.29 and the flag under the
    name [needsImmediateHuman] only, and a generator that reports 0.95. *)
Definition one_flag : Agreement.analysisJson.t :=
  Agreement.analysisJson.mk "urgent_issue" "critical" "complex" (JNum 0.29)
                            JUndefined (JBool true) "emergency".

Definition sure_reply : Agreement.responseJson.t :=
  Agreement.responseJson.mk "We are open from 9AM." (JNum 0.95) (JBool false) "grounded".

Definition one_flag_handoff : Env Handoff.analysis.t Handoff.aiResponse.t :=
  mkEnv (Agreement.read Agreement.handoff_analysis (Parsed one_flag))
        (SearchResults [Sample.passage] [Sample.handbook])
        (Agreement.read Agreement.handoff_response (Parsed sure_reply))
        (Parsed Sample.four_suggestions) DbOk.

Definition one_flag_concurrent : Env Concurrent.analysis.t Concurrent.aiResponse.t :=
  mkEnv (Agreement.read Agreement.concurrent_analysis (Parsed one_flag))
        (SearchResults [Sample.passage] [Sample.handbook])
        (Agreement.read Agreement.concurrent_response (Parsed sure_reply))
        (Parsed Sample.four_suggestions) DbOk.

(** Three chunks of two documents; the chunk of the second document has no
    file name. *)
Definition found_chunks : list KnowledgeBase.KnowledgeBaseChunk :=
  [ KnowledgeBase.mkChunk "doc-1" "Support is open from 9AM to 6PM on weekdays."
                          (Some "handbook.pdf");
    KnowledgeBase.mkChunk "doc-2" "Refunds take five working days." None;
    KnowledgeBase.mkChunk "doc-1" "Agents answer within one hour." (Some "handbook.pdf") ].

(** A confident turn of the handoff workflow over these chunks. *)
Definition grounded : Env Handoff.analysis.t Handoff.aiResponse.t :=
  mkEnv (Parsed (Handoff.analysis.mk "general_inquiry" (JNum 0.9) (JBool false) "plain"))
        (KnowledgeBase.retrieval_reply (KnowledgeBase.EmbeddingsChunks found_chunks))
        (Parsed (Handoff.aiResponse.mk "We are open from 9AM." (JNum 0.9) (JBool false)))
        Rejects DbOk.



(** The simple workflow over a knowledge base that answers. *)
Definition simple_grounded : Env Simple.analysisJson.t string :=
  mkEnv (Parsed (Simple.analysisJson.mk (Some "general_inquiry") (Some "low") (Some "simple")
                   (JBool false) (JNum 0.9)))
        (SearchResults [Sample.passage] [Sample.handbook])
        (Parsed "Our office is open on weekdays.")
        Rejects DbOk.


End Turns.
(* ===================================================================== *)
(** * The order of binary64 numbers                                       *)
(* ===================================================================== *)

Module FloatOrder.

Local Open Scope float_scope.

Lemma SFcompare_swap (x y : spec_float) :
  SFcompare y x = match SFcompare x y with
                  | Some c => Some (CompOpp c)
                  | None => None
                  end.
Proof.
  destruct x as [sx|sx| |sx mx ex], y as [sy|sy| |sy my ey]; simpl;
    try destruct sx; try destruct sy; try reflexivity;
    rewrite (Z.compare_antisym ex ey);
    destruct (ex ?= ey)%Z; simpl; try reflexivity;
    change (PosDef.Pos.compare_cont Eq) with Pos.compare;
    rewrite (Pos.compare_antisym mx my); try reflexivity;
    destruct (mx ?= my)%positive; reflexivity.
Qed.

Lemma SFcompare_lt_trans (x y z : spec_float) :
  SFcompare x y = Some Lt -> SFcompare y z = Some Lt -> SFcompare x z = Some Lt.
Proof.
  destruct x as [sx|sx| |sx mx ex], y as [sy|sy| |sy my ey], z as [sz|sz| |sz mz ez];
    simpl; try destruct sx; try destruct sy; try destruct sz; simpl;
    try discriminate; try reflexivity;
    change (PosDef.Pos.compare_cont Eq) with Pos.compare;
    intros Hxy Hyz; f_equal;
    destruct (Z.compare_spec ex ey), (Z.compare_spec ey ez), (Z.compare_spec ex ez);
    try discriminate; try lia; subst;
    destruct (Pos.compare_spec mx my), (Pos.compare_spec my mz), (Pos.compare_spec mx mz);
    simpl in *; try discriminate; try reflexivity; try lia.
Qed.

(** Two numbers compare unless one of them is [NaN]. *)
Lemma SFcompare_None (x y : spec_float) :
  SFcompare x y = None -> SFcompare x x = None \/ SFcompare y y = None.
Proof.
  destruct x as [sx|sx| |sx mx ex], y as [sy|sy| |sy my ey]; simpl;
    try discriminate; auto.
Qed.

Lemma ltb_compare (x y : float) :
  (x <? y) = true <-> SFcompare (Prim2SF x) (Prim2SF y) = Some Lt.
Proof.
  rewrite ltb_spec. unfold SFltb.
  destruct (SFcompare (Prim2SF x) (Prim2SF y)) as [[ | | ]|];
    split; intros H; try discriminate; reflexivity.
Qed.

Lemma is_nan_compare (x : float) :
  is_nan x = true <-> SFcompare (Prim2SF x) (Prim2SF x) = None.
Proof.
  unfold is_nan. rewrite FloatAxioms.eqb_spec. unfold SFeqb.
  pose proof (SFcompare_swap (Prim2SF x) (Prim2SF x)) as Hs.
  destruct (SFcompare (Prim2SF x) (Prim2SF x)) as [[ | | ]|]; simpl in *;
    split; intros H; try discriminate; try reflexivity.
Qed.

Lemma ltb_asym (x y : float) : (x <? y) = true -> (y <? x) = false.
Proof.
  intros H. apply ltb_compare in H.
  destruct (y <? x) eqn:E; [|reflexivity].
  apply ltb_compare in E. rewrite (SFcompare_swap (Prim2SF x) (Prim2SF y)), H in E.
  discriminate.
Qed.

Lemma ltb_irrefl (x : float) : (x <? x) = false.
Proof.
  destruct (x <? x) eqn:E; [|reflexivity].
  rewrite (ltb_asym x x E) in E. discriminate.
Qed.

Lemma ltb_trans (x y z : float) :
  (x <? y) = true -> (y <? z) = true -> (x <? z) = true.
Proof.
  rewrite !ltb_compare. apply SFcompare_lt_trans.
Qed.

(** A number that is not below a bound is at least the bound, unless one
    of the two is [NaN]. *)
Lemma nlt_leb (x y : float) :
  is_nan x = false -> is_nan y = false -> (x <? y) = false -> (y <=? x) = true.
Proof.
  intros Hx Hy H. rewrite leb_spec. unfold SFleb.
  rewrite ltb_spec in H. unfold SFltb in H.
  rewrite (SFcompare_swap (Prim2SF x) (Prim2SF y)).
  destruct (SFcompare (Prim2SF x) (Prim2SF y)) as [[ | | ]|] eqn:E; simpl;
    try reflexivity; try discriminate.
  apply SFcompare_None in E. destruct E as [E|E]; apply is_nan_compare in E; congruence.
Qed.

Lemma ltb_nan_r (x y : float) : is_nan y = true -> (x <? y) = false.
Proof.
  intros H. apply is_nan_compare in H.
  rewrite ltb_spec. unfold SFltb.
  destruct (Prim2SF y); simpl in H; try discriminate.
  destruct (Prim2SF x); reflexivity.
Qed.

Lemma ltb_nan_l (x y : float) : is_nan x = true -> (x <? y) = false.
Proof.
  intros H. apply is_nan_compare in H.
  rewrite ltb_spec. unfold SFltb.
  destruct (Prim2SF x); simpl in H; try discriminate.
  reflexivity.
Qed.


(** A number below [a] is not above any [b] that [a] is below. *)
Lemma below_not_above (x a b : float) :
  (x <? a) = true -> (a <? b) = true -> (b <? x) = false.
Proof.
  intros Hxa Hab. apply ltb_asym. now apply ltb_trans with a.
Qed.

(** A number not above [a] is not above any [b] that [a] is below. *)
Lemma not_above_mono (x a b : float) :
  (a <? x) = false -> (a <? b) = true -> (b <? x) = false.
Proof.
  intros Hax Hab. destruct (b <? x) eqn:E; [|reflexivity].
  rewrite (ltb_trans a b x Hab E) in Hax. discriminate.
Qed.

(** [Math.min(x, k)] is never above [k]. *)
Lemma Math_min_upper (x k : float) : (k <? Math_min x k) = false.
Proof.
  unfold Math_min.
  destruct (is_nan x || is_nan k) eqn:En.
  - apply ltb_nan_r. reflexivity.
  - destruct (x <? k) eqn:E1; [now apply ltb_asym|].
    destruct (k <? x) eqn:E2; [apply ltb_irrefl|].
    destruct (get_sign x); [exact E2|apply ltb_irrefl].
Qed.

Lemma is_nan_Prim2SF (x : float) : is_nan x = true <-> Prim2SF x = S754_nan.
Proof.
  rewrite is_nan_compare. destruct (Prim2SF x) as [s|s| |s m e]; simpl.
  - split; discriminate.
  - destruct s; split; discriminate.
  - split; reflexivity.
  - split; discriminate.
Qed.

(** A sum with [NaN] is [NaN]. *)
Lemma add_nan_r (x y : float) : is_nan y = true -> is_nan (x + y) = true.
Proof.
  rewrite !is_nan_Prim2SF, add_spec. intros ->.
  unfold SF64add, SFadd. destruct (Prim2SF x); reflexivity.
Qed.

Lemma Math_min_nan_l (x k : float) : is_nan x = true -> is_nan (Math_min x k) = true.
Proof. intros H. unfold Math_min. rewrite H. reflexivity. Qed.

(** ** Signs *)

Lemma shr_1_nonneg (mrs : shr_record) :
  (0 <= shr_m mrs)%Z -> (0 <= shr_m (shr_1 mrs))%Z.
Proof.
  destruct mrs as [m r s]. simpl. destruct m as [|[p|p|]|p]; simpl; lia.
Qed.

Lemma iter_shr_1_nonneg (p : positive) (mrs : shr_record) :
  (0 <= shr_m mrs)%Z -> (0 <= shr_m (SpecFloat.iter_pos shr_1 p mrs))%Z.
Proof.
  revert mrs. induction p as [p IH|p IH|]; intros mrs H; simpl.
  - apply IH, IH, shr_1_nonneg, H.
  - apply IH, IH, H.
  - apply shr_1_nonneg, H.
Qed.

Lemma shr_fexp_nonneg (prec emax m e : Z) (l : location) :
  (0 <= m)%Z -> (0 <= shr_m (fst (shr_fexp prec emax m e l)))%Z.
Proof.
  intros H. unfold shr_fexp, shr.
  assert (0 <= shr_m (shr_record_of_loc m l))%Z as H0.
  { destruct l as [|[| |]]; simpl; exact H. }
  destruct (_ - e)%Z; simpl; auto using iter_shr_1_nonneg.
Qed.

Lemma round_nearest_even_nonneg (m : Z) (l : location) :
  (0 <= m)%Z -> (0 <= round_nearest_even m l)%Z.
Proof.
  intros H. unfold round_nearest_even. destruct l as [|[| |]]; try lia.
  destruct (Z.even m); lia.
Qed.

(** Rounding a mantissa that is not negative, with the sign plus, gives a
    number that is not negative. *)
Lemma binary_round_aux_nonneg (prec emax m e : Z) (l : location) :
  (0 <= m)%Z -> nonneg (binary_round_aux prec emax false m e l) = true.
Proof.
  intros H. unfold binary_round_aux.
  pose proof (shr_fexp_nonneg prec emax m e l H) as H1.
  destruct (shr_fexp prec emax m e l) as [mrs' e']. simpl in H1.
  pose proof (shr_fexp_nonneg prec emax _ e' loc_Exact
                (round_nearest_even_nonneg _ (loc_of_shr_record mrs') H1)) as H2.
  destruct (shr_fexp prec emax _ e' loc_Exact) as [mrs'' e'']. simpl in H2.
  destruct (shr_m mrs''); try reflexivity; [|lia].
  destruct (_ <=? _)%Z; reflexivity.
Qed.

Lemma SFmul_nonneg (prec emax : Z) (x : spec_float) (m : positive) (e : Z) :
  nonneg x = true -> nonneg (SFmul prec emax x (S754_finite false m e)) = true.
Proof.
  destruct x as [sx|[|]| |[|] mx ex]; simpl; try discriminate; auto.
  intros _. apply binary_round_aux_nonneg. lia.
Qed.

Lemma SFadd_nonneg (prec emax : Z) (x y : spec_float) :
  nonneg x = true -> nonneg y = true -> nonneg (SFadd prec emax x y) = true.
Proof.
  destruct x as [sx|[|]| |[|] mx ex], y as [sy|[|]| |[|] my ey]; simpl;
    try discriminate; auto.
  - destruct sx, sy; reflexivity.
  - intros _ _. unfold binary_normalize. simpl. unfold binary_round.
    destruct (shl_align _ _ _) as [mz ez]. apply binary_round_aux_nonneg. lia.
Qed.

Lemma leb_zero_nonneg (x : float) : (0 <=? x) = true <-> nonneg (Prim2SF x) = true.
Proof.
  rewrite leb_spec. unfold SFleb.
  change (Prim2SF 0) with (S754_zero false).
  destruct (Prim2SF x) as [s|[|]| |[|] m e]; simpl; split; intros H;
    try discriminate; reflexivity.
Qed.

(** A number that is not negative times a positive finite one is not
    negative. *)
Lemma mul_nonneg (x k : float) :
  (0 <=? x) = true ->
  (exists m e, Prim2SF k = S754_finite false m e) ->
  (0 <=? x * k) = true.
Proof.
  rewrite !leb_zero_nonneg, mul_spec. intros H (m & e & ->).
  now apply SFmul_nonneg.
Qed.

Lemma add_nonneg (x y : float) :
  (0 <=? x) = true -> (0 <=? y) = true -> (0 <=? x + y) = true.
Proof.
  rewrite !leb_zero_nonneg, add_spec. apply SFadd_nonneg.
Qed.

Lemma leb_zero_not_nan (x : float) : (0 <=? x) = true -> is_nan x = false.
Proof.
  rewrite leb_zero_nonneg. intros H.
  destruct (is_nan x) eqn:E; [|reflexivity].
  apply is_nan_Prim2SF in E. rewrite E in H. discriminate.
Qed.

Lemma Math_min_nonneg (x k : float) :
  (0 <=? x) = true -> (0 <=? k) = true -> (0 <=? Math_min x k) = true.
Proof.
  intros Hx Hk. unfold Math_min.
  rewrite (leb_zero_not_nan x Hx), (leb_zero_not_nan k Hk). cbn [orb].
  destruct (x <? k); [exact Hx|].
  destruct (k <? x); [exact Hk|].
  destruct (get_sign x); assumption.
Qed.

End FloatOrder.

(* ===================================================================== *)
(** * The handoff workflow computes its closed form                       *)
(* ===================================================================== *)

Module HandoffRun.

Import Handoff HandoffForm.

Section Turn.

Variable env : Env analysis.t aiResponse.t.

Lemma handoff_analyzeQuery_run (state : HandoffWorkflowState) (w : World) :
  analyzeQuery env state w = (Returned (analyzed env state), add_call CallAnalyzer w).
Proof.
  unfold analyzeQuery, analyzed, try_catch, bind, invoke_json, record_call.
  destruct (llm_analysis env); reflexivity.
Qed.

Lemma handoff_retrieveContext_run (state : HandoffWorkflowState) (w : World) :
  retrieveContext env state w = (Returned (retrieved env state), add_call CallRetriever w).
Proof.
  unfold retrieveContext, retrieved, try_catch, bind, search, record_call.
  destruct (kb_search env) as [|[|chunk chunks] found]; reflexivity.
Qed.

Lemma handoff_generateResponse_run (state : HandoffWorkflowState) (w : World) :
  generateResponse env state w = (Returned (generated env state), add_call CallGenerator w).
Proof.
  unfold generateResponse, generated, try_catch, bind, invoke_json, record_call.
  destruct (llm_response env); reflexivity.
Qed.

Lemma handoff_generateSuggestions_run (state : HandoffWorkflowState) (w : World) :
  generateSuggestions env state w = (Returned (suggested env), add_call CallSuggester w).
Proof.
  unfold generateSuggestions, suggested, try_catch, bind, invoke_json, record_call.
  destruct (llm_suggestions env); reflexivity.
Qed.

Lemma determineStatus_run (state : HandoffWorkflowState) (w : World) :
  determineStatus env state w
  = (Returned (determined env state), determined_world state w).
Proof.
  unfold determineStatus, determined, determined_world, must_escalate.
  destruct (ToBoolean _); [reflexivity|].
  destruct (JS.lt _ _); [|reflexivity].
  unfold bind. rewrite handoff_generateSuggestions_run. reflexivity.
Qed.

Lemma handleHandoff_run (state : HandoffWorkflowState) (w : World) :
  handleHandoff env state w = (Returned (handed env state), handed_world env state w).
Proof.
  unfold handleHandoff, handed, handed_world, try_catch, bind,
    update_conversation, record_call.
  destruct (db_update env); simpl;
    destruct (ConversationStatus_eqb (currentStatus state) red); reflexivity.
Qed.

Theorem runHandoffWorkflow_run (conversationId userMessage companyId : string)
    (previousMessages : list BaseMessage) (w : World) :
  runHandoffWorkflow env conversationId userMessage companyId previousMessages w
  = (Returned (final env conversationId userMessage companyId previousMessages),
     final_world env conversationId userMessage companyId previousMessages w).
Proof.
  unfold runHandoffWorkflow, final, final_world, guarded.
  rewrite handoff_analyzeQuery_run. fold (early_exit (analyzed env
    (initial_state conversationId userMessage companyId previousMessages))).
  destruct (early_exit _).
  - unfold escalated_early. rewrite handleHandoff_run. reflexivity.
  - rewrite handoff_retrieveContext_run, handoff_generateResponse_run, determineStatus_run.
    destruct (ConversationStatus_eqb _ red).
    + rewrite handleHandoff_run. reflexivity.
    + reflexivity.
Qed.

Theorem processUserMessageWithHandoff_run (conversationId userMessage companyId : string)
    (previousMessages : list BaseMessage) (w : World) :
  processUserMessageWithHandoff env conversationId userMessage companyId previousMessages w
  = (let state := final env conversationId userMessage companyId previousMessages in
     Returned (mkResult (finalResponse state) (currentStatus state) (confidence state)
                        (suggestions state) (sources_or_undefined (sources state))),
     final_world env conversationId userMessage companyId previousMessages w).
Proof.
  unfold processUserMessageWithHandoff, bind.
  rewrite runHandoffWorkflow_run. reflexivity.
Qed.

End Turn.

End HandoffRun.

(* ===================================================================== *)
(** * Facts about the handoff workflow                                    *)
(* ===================================================================== *)

Module HandoffFacts.

Import Handoff HandoffForm HandoffRun FloatOrder.

(** [v || 0.8] is below 0.3 only when [v] itself is truthy and below
    0.3. *)
Lemma or_default_below (v : value) :
  JS.lt (JS.or v (JNum 0.8)) (JNum 0.3) = true ->
  ToBoolean v = true /\ JS.or v (JNum 0.8) = v /\ JS.lt v (JNum 0.3) = true.
Proof.
  unfold JS.or. destruct (ToBoolean v) eqn:E.
  - auto.
  - intros H. vm_compute in H. discriminate H.
Qed.

Section Turn.

Variable env : Env analysis.t aiResponse.t.

Lemma early_exit_inv (state : HandoffWorkflowState) :
  early_exit state = true ->
  ToBoolean (needsHumanIntervention state) = true
  /\ JS.lt (confidence state) (JNum 0.3) = true.
Proof.
  unfold early_exit, JS.and.
  destruct (ToBoolean (needsHumanIntervention state)) eqn:E; simpl.
  - auto.
  - rewrite E. discriminate.
Qed.

Lemma must_escalate_spec (state : HandoffWorkflowState) :
  must_escalate state
  = ToBoolean (needsHumanIntervention state) || JS.lt (confidence state) (JNum 0.5).
Proof.
  unfold must_escalate, JS.or.
  destruct (ToBoolean (needsHumanIntervention state)) eqn:E; simpl; auto.
Qed.

Lemma handed_confidence (state : HandoffWorkflowState) :
  confidence (handed env state) = confidence state.
Proof.
  unfold handed.
  destruct (db_update env), (ConversationStatus_eqb (currentStatus state) red); reflexivity.
Qed.

Lemma handed_currentStatus (state : HandoffWorkflowState) :
  currentStatus (handed env state) = currentStatus state.
Proof.
  unfold handed.
  destruct (db_update env), (ConversationStatus_eqb (currentStatus state) red); reflexivity.
Qed.

Lemma handed_suggestions (state : HandoffWorkflowState) :
  suggestions (handed env state) = suggestions state.
Proof.
  unfold handed.
  destruct (db_update env), (ConversationStatus_eqb (currentStatus state) red); reflexivity.
Qed.

Lemma handed_needsHumanIntervention (state : HandoffWorkflowState) :
  needsHumanIntervention (handed env state) = needsHumanIntervention state.
Proof.
  unfold handed.
  destruct (db_update env), (ConversationStatus_eqb (currentStatus state) red); reflexivity.
Qed.

Lemma determined_needsHumanIntervention (state : HandoffWorkflowState) :
  needsHumanIntervention (determined env state) = needsHumanIntervention state.
Proof.
  unfold determined.
  destruct (must_escalate state); [reflexivity|].
  destruct (JS.lt (confidence state) (JNum 0.7)); reflexivity.
Qed.

Lemma determined_confidence (state : HandoffWorkflowState) :
  confidence (determined env state) = confidence state.
Proof.
  unfold determined.
  destruct (must_escalate state); [reflexivity|].
  destruct (JS.lt _ _); reflexivity.
Qed.

(** The status [determineStatus] gives, by the three cases of its test. *)
Lemma determined_currentStatus (state : HandoffWorkflowState) :
  currentStatus (determined env state)
  = if must_escalate state then red
    else if JS.lt (confidence state) (JNum 0.7) then yellow else green.
Proof.
  unfold determined.
  destruct (must_escalate state); [reflexivity|].
  destruct (JS.lt _ _); reflexivity.
Qed.

(** The confidence that leaves the generation step is a number, and it
    is not above the clamp. *)
Lemma generated_confidence (state : HandoffWorkflowState) :
  exists c, confidence (generated env state) = JNum c /\ (0.95 <? c)%float = false.
Proof.
  unfold generated. destruct (llm_response env); simpl.
  1,2,3: exists 0.3%float; split; reflexivity.
  eexists. split; [reflexivity|]. apply Math_min_upper.
Qed.

Lemma analyzed_confidence (state : HandoffWorkflowState) :
  confidence (analyzed env state) = analyzer_confidence env.
Proof. unfold analyzed, analyzer_confidence. destruct (llm_analysis env); reflexivity. Qed.

Lemma analyzed_needsHumanIntervention (state : HandoffWorkflowState) :
  needsHumanIntervention (analyzed env state) = analyzer_flag env.
Proof. unfold analyzed, analyzer_flag. destruct (llm_analysis env); reflexivity. Qed.

Lemma analyzed_early_exit (state : HandoffWorkflowState) :
  early_exit (analyzed env state) = short_circuits env.
Proof.
  unfold early_exit, short_circuits.
  now rewrite analyzed_confidence, analyzed_needsHumanIntervention.
Qed.

Lemma retrieved_confidence (state : HandoffWorkflowState) :
  confidence (retrieved env (analyzed env state)) = carried_confidence env.
Proof.
  unfold retrieved, carried_confidence.
  destruct (kb_search env) as [|[|chunk chunks] found]; simpl;
    now rewrite analyzed_confidence.
Qed.

Lemma retrieved_needsHumanIntervention (state : HandoffWorkflowState) :
  needsHumanIntervention (retrieved env state) = needsHumanIntervention state.
Proof.
  unfold retrieved. destruct (kb_search env) as [|[|chunk chunks] found]; reflexivity.
Qed.

(** Once a flag fired, the generation step leaves it set. *)
Lemma generated_flag (state : HandoffWorkflowState) :
  needsHumanIntervention state = analyzer_flag env ->
  flag_fired env = true ->
  ToBoolean (needsHumanIntervention (generated env state)) = true.
Proof.
  unfold generated, flag_fired, analyzer_flag. intros ->.
  destruct (llm_response env) as [| | |aiResponse]; simpl; try reflexivity.
  destruct (llm_analysis env) as [| | |analysis]; simpl;
    unfold JS.or; simpl.
  1,2,3: intros ->; reflexivity.
  destruct (ToBoolean (analysis.needsImmedateHuman analysis)) eqn:E; simpl.
  - rewrite E. intros _. exact E.
  - simpl. intros ->. reflexivity.
Qed.









(** A reported confidence of zero is replaced by 0.8. *)
Lemma or_default_zero (x : float) :
  is_zero x = true -> JS.or (JNum x) (JNum 0.8) = JNum 0.8.
Proof. intros H. unfold JS.or. simpl. rewrite H. reflexivity. Qed.

(** Without a flag, the generation step leaves none when it can read the
    payload. *)
Lemma generated_no_flag (state : HandoffWorkflowState) (aiResponse : aiResponse.t) :
  needsHumanIntervention state = analyzer_flag env ->
  llm_response env = Parsed aiResponse ->
  flag_fired env = false ->
  ToBoolean (needsHumanIntervention (generated env state)) = false.
Proof.
  unfold generated, flag_fired, analyzer_flag. intros -> ->.
  cbn [needsHumanIntervention with_needsHumanIntervention].
  intros H. apply orb_false_iff in H. destruct H as [Ha Hr].
  unfold JS.or.
  destruct (llm_analysis env) as [| | |analysis]; cbn [ToBoolean]; try exact Hr.
  rewrite Ha. cbn [ToBoolean]. exact Hr.
Qed.

Lemma determined_suggestions (state : HandoffWorkflowState) :
  suggestions (determined env state)
  = if must_escalate state then [escalate_immediately; review_context]
    else if JS.lt (confidence state) (JNum 0.7) then suggested env else [].
Proof.
  unfold determined.
  destruct (must_escalate state); [reflexivity|].
  destruct (JS.lt (confidence state) (JNum 0.7)); reflexivity.
Qed.

Lemma analyzer_confidence_nonneg :
  reports_nonnegative env ->
  (0 <=? ToNumber (analyzer_confidence env))%float = true.
Proof.
  unfold reports_nonnegative, analyzer_confidence. intros [H _].
  destruct (llm_analysis env) as [| | |analysis]; try reflexivity.
  unfold JS.or. destruct H as [H|H].
  - rewrite H. reflexivity.
  - destruct (ToBoolean (analysis.aiConfidence analysis)); [exact H|reflexivity].
Qed.

Lemma carried_confidence_nonneg :
  reports_nonnegative env ->
  (0 <=? ToNumber (carried_confidence env))%float = true.
Proof.
  intros H. pose proof (analyzer_confidence_nonneg H) as Ha.
  unfold carried_confidence. destruct (kb_search env); [|exact Ha].
  cbn [ToNumber]. apply Math_min_nonneg; [|reflexivity].
  unfold JS.mul. cbn [ToNumber]. apply mul_nonneg; [exact Ha|].
  eexists. eexists. reflexivity.
Qed.

(** With reports that are not negative, the confidence that leaves the
    generation step is not negative. *)
Lemma generated_confidence_nonneg (state : HandoffWorkflowState) :
  reports_nonnegative env ->
  confidence state = carried_confidence env ->
  (0 <=? ToNumber (confidence (generated env state)))%float = true.
Proof.
  intros H Hc. pose proof (carried_confidence_nonneg H) as Hn.
  destruct H as [_ H]. unfold generated.
  destruct (llm_response env) as [| | |aiResponse]; try reflexivity.
  cbn [confidence with_needsHumanIntervention with_confidence ToNumber].
  rewrite Hc. apply Math_min_nonneg; [|reflexivity].
  unfold JS.mul. cbn [ToNumber].
  apply add_nonneg; (apply mul_nonneg; [assumption|eexists; eexists; reflexivity]).
Qed.

(** The state a turn ends in: either the early escalation, or the
    outcome of the four steps. *)
Lemma final_cases (conversationId userMessage companyId : string)
    (previousMessages : list BaseMessage) :
  let analysed :=
    analyzed env (initial_state conversationId userMessage companyId previousMessages) in
  let answered := generated env (retrieved env analysed) in
  let state := final env conversationId userMessage companyId previousMessages in
  (early_exit analysed = true
   /\ state = handed env (escalated_early analysed))
  \/ (early_exit analysed = false
      /\ currentStatus state = currentStatus (determined env answered)
      /\ confidence state = confidence answered
      /\ suggestions state = suggestions (determined env answered)
      /\ needsHumanIntervention state = needsHumanIntervention answered).
Proof.
  intros analysed answered state. unfold state, final.
  fold analysed. destruct (early_exit analysed); [left; auto|right].
  fold answered. split; [reflexivity|].
  destruct (ConversationStatus_eqb _ red).
  - rewrite handed_currentStatus, handed_confidence, handed_suggestions,
      handed_needsHumanIntervention, determined_confidence,
      determined_needsHumanIntervention.
    repeat split; reflexivity.
  - rewrite determined_confidence, determined_needsHumanIntervention.
    repeat split; reflexivity.
Qed.

End Turn.

End HandoffFacts.

(* ===================================================================== *)
(** * The concurrent workflow computes its closed form                    *)
(* ===================================================================== *)

Module ConcurrentRun.

Import Concurrent ConcurrentForm.

Section Turn.

Variable env : Env analysis.t aiResponse.t.








End Turn.

End ConcurrentRun.

(* ===================================================================== *)
(** * Facts about the concurrent workflow                                 *)
(* ===================================================================== *)

Module ConcurrentFacts.

Import Concurrent ConcurrentForm ConcurrentRun.

Section Turn.

Variable env : Env analysis.t aiResponse.t.








End Turn.

End ConcurrentFacts.

(* ===================================================================== *)
(** * The simple workflow computes its closed form                        *)
(* ===================================================================== *)

Module SimpleRun.

Import Simple SimpleForm.

Section Turn.

Variable env : Env analysisJson.t string.

Lemma simple_analyzeQuery_run (userQuery : string) (w : World) :
  analyzeQuery env userQuery w = (Returned (analysed env), add_call CallAnalyzer w).
Proof.
  unfold analyzeQuery, analysed, try_catch, bind, invoke_json, record_call.
  destruct (llm_analysis env); reflexivity.
Qed.

Lemma simple_retrieveContext_run (userQuery : string) (companyId : option string) (w : World) :
  retrieveContext env userQuery companyId w
  = (Returned (retrieved env userQuery companyId), retrieved_world companyId w).
Proof.
  unfold retrieveContext, retrieved, retrieved_world, searches, try_catch, bind,
    search, record_call.
  destruct companyId as [[|c s]|]; try reflexivity.
  destruct (kb_search env) as [|[|chunk chunks] found]; reflexivity.
Qed.

Lemma simple_generateResponse_run (userQuery : string) (context : list string)
    (sources : list Source) (w : World) :
  generateResponse env userQuery context sources w
  = (Returned (generated env context sources), add_call CallGenerator w).
Proof.
  unfold generateResponse, generated, invoke_text, try_catch, bind, record_call.
  destruct (llm_response env); reflexivity.
Qed.

Lemma simple_generateSuggestions_run (userQuery : string) (context : list string)
    (confidence : float) (sources : list Source) (w : World) :
  generateSuggestions env userQuery context confidence sources w
  = (Returned (suggested env confidence), suggested_world confidence w).
Proof.
  unfold generateSuggestions, suggested, suggested_world.
  destruct (0.8 <? confidence)%float; [reflexivity|].
  unfold try_catch, bind, invoke_json, record_call.
  destruct (llm_suggestions env); reflexivity.
Qed.

Theorem processUserMessage_run (conversationId userMessage : string)
    (companyId : option string) (previousMessages : list BaseMessage) (w : World) :
  processUserMessage env conversationId userMessage companyId previousMessages w
  = (Returned (final env userMessage companyId), final_world env userMessage companyId w).
Proof.
  unfold processUserMessage, final, final_world, guarded.
  rewrite simple_analyzeQuery_run, simple_retrieveContext_run.
  destruct (retrieved env userMessage companyId) as [context sources].
  rewrite simple_generateResponse_run.
  cbv beta iota zeta delta [fst snd].
  destruct (generated env context sources) as [response confidence].
  rewrite simple_generateSuggestions_run. reflexivity.
Qed.

End Turn.

End SimpleRun.

(* ===================================================================== *)
(** * Facts about the simple workflow                                     *)
(* ===================================================================== *)

Module SimpleFacts.

Import Simple SimpleForm FloatOrder.

Lemma ToBoolean_or (a b : value) :
  ToBoolean (JS.or a b) = ToBoolean a || ToBoolean b.
Proof.
  unfold JS.or. destruct (ToBoolean a) eqn:E; simpl; [exact E|reflexivity].
Qed.

(** [generateResponse] follows the confidence policy. *)
Lemma response_confidence_policy (aiResponse : string) (context : list string)
    (sources : list Source) :
  response_confidence aiResponse context sources
  = confidence_policy aiResponse context sources.
Proof.
  unfold response_confidence, confidence_policy, hedged, unavailable, grounded.
  destruct (includes (toLowerCase aiResponse) "not sure"
            || includes (toLowerCase aiResponse) "don't know");
    destruct ((List.length context =? 0)%nat
              || JS.some (fun c => includes c "trouble accessing") context);
    destruct (0 <? List.length sources)%nat; reflexivity.
Qed.

Lemma response_confidence_not_nan (aiResponse : string) (context : list string)
    (sources : list Source) :
  is_nan (response_confidence aiResponse context sources) = false.
Proof.
  unfold response_confidence.
  destruct (includes (toLowerCase aiResponse) "not sure"
            || includes (toLowerCase aiResponse) "don't know");
    destruct ((List.length context =? 0)%nat
              || JS.some (fun c => includes c "trouble accessing") context);
    destruct (0 <? List.length sources)%nat; reflexivity.
Qed.

Section Turn.

Variable env : Env analysisJson.t string.

Lemma generated_not_nan (context : list string) (sources : list Source) :
  is_nan (snd (generated env context sources)) = false.
Proof.
  unfold generated. destruct (llm_response env); try reflexivity.
  apply response_confidence_not_nan.
Qed.

Lemma analysed_needsHuman :
  ToBoolean (analysis.needsHuman (analysed env)) = flag_fired env.
Proof.
  unfold analysed, flag_fired. destruct (llm_analysis env); try reflexivity.
  cbn [analysis.needsHuman]. rewrite ToBoolean_or. apply orb_false_r.
Qed.

(** The status of step 4, by its two tests. *)
Lemma classify_spec (needsHuman : value) (confidence : float) :
  classify needsHuman confidence
  = if (confidence <? 0.5)%float then red
    else if ToBoolean needsHuman || (confidence <? 0.7)%float then yellow
    else green.
Proof.
  unfold classify. rewrite ToBoolean_or. cbn [ToBoolean].
  destruct (confidence <? 0.5)%float; reflexivity.
Qed.

End Turn.

(** The passages of the keyword fallback come from the mock context. *)
Lemma keyword_context_incl (userQuery : string) :
  incl (keyword_context userQuery) mockContext.
Proof.
  unfold keyword_context.
  destruct (0 <? List.length _)%nat.
  - intros x Hx. apply filter_In in Hx. tauto.
  - intros x Hx. unfold slice0, mockContext in *. cbn [firstn In] in *. tauto.
Qed.

Lemma existsb_incl {A : Type} (p : A -> bool) (l l' : list A) :
  incl l l' -> existsb p l' = false -> existsb p l = false.
Proof.
  intros Hi Hf. destruct (existsb p l) eqn:E; [|reflexivity].
  apply existsb_exists in E. destruct E as (x & Hx & Hp).
  assert (existsb p l' = true) as Ht by (apply existsb_exists; exists x; auto).
  congruence.
Qed.

Lemma keyword_context_nonempty (userQuery : string) :
  (List.length (keyword_context userQuery) =? 0)%nat = false.
Proof.
  unfold keyword_context.
  destruct (0 <? List.length _)%nat eqn:E.
  - destruct (filter _ mockContext); [discriminate E|reflexivity].
  - reflexivity.
Qed.

(** The context of the keyword fallback is never taken for an unavailable
    knowledge base. *)
Lemma keyword_context_available (userQuery : string) :
  unavailable (keyword_context userQuery) = false.
Proof.
  unfold unavailable. rewrite keyword_context_nonempty. cbn [orb]. unfold JS.some.
  apply existsb_incl with mockContext; [apply keyword_context_incl|reflexivity].
Qed.



End SimpleFacts.

(* ===================================================================== *)
(** * The confidence of a result                                          *)
(* ===================================================================== *)

(** A concrete turn is run by evaluation. *)
Ltac run_turn := vm_compute; reflexivity.

Section ResultConfidence.

Import Handoff HandoffForm HandoffRun HandoffFacts FloatOrder.
Local Open Scope float_scope.

(** C3, against the claim: the analyzer reports the confidence -1 together
    with its human-needed flag; the turn escalates early and returns the
    reported value as it is, below the interval [0, 1]. *)
Lemma negative_confidence_is_returned :
  exists r w',
    processUserMessageWithHandoff Sample.negative "conv-1" "help" "acme" [] Sample.world
    = (Returned r, w')
    /\ Result.confidence r = JNum (-1)
    /\ (-1 <? 0) = true.
Proof.
  eexists. eexists. split; [run_turn|]. split; reflexivity.
Qed.

(** C3 (amended): the confidence of every result of the handoff workflow,
    read as a number, is never above the clamp 0.95, hence never above 1,
    and it is at least 0 whenever the confidences the model reports are not
    negative.  Past the early exit it is a number: the clamped blend or a
    fallback.  On the early exit it is the value the analyzer reported, as it
    is: a truthy value below 0.3, which may be a string or an array.  The
    blend is clamped from above only: nothing clamps it from below and
    nothing filters [NaN]. *)
Theorem result_confidence_clamped_above
    (env : Env analysis.t aiResponse.t)
    (conversationId userMessage companyId : string)
    (previousMessages : list BaseMessage) (w w' : World) (r : WorkflowResult) :
  processUserMessageWithHandoff env conversationId userMessage companyId previousMessages w
  = (Returned r, w') ->
  (0.95 <? ToNumber (Result.confidence r)) = false
  /\ (1 <? ToNumber (Result.confidence r)) = false
  /\ (reports_nonnegative env -> (0 <=? ToNumber (Result.confidence r)) = true)
  /\ (short_circuits env = false -> exists c, Result.confidence r = JNum c)
  /\ (short_circuits env = true ->
      exists analysis,
        llm_analysis env = Parsed analysis
        /\ Result.confidence r = analysis.aiConfidence analysis
        /\ ToBoolean (analysis.aiConfidence analysis) = true
        /\ JS.lt (analysis.aiConfidence analysis) (JNum 0.3) = true).
Proof.
  rewrite processUserMessageWithHandoff_run. intros H. injection H as <- _.
  cbv zeta. unfold mkResult. cbn [Result.confidence].
  set (state := final env conversationId userMessage companyId previousMessages).
  assert ((0.95 <? ToNumber (confidence state)) = false
          /\ (reports_nonnegative env -> (0 <=? ToNumber (confidence state)) = true)
          /\ (short_circuits env = false -> exists c, confidence state = JNum c)
          /\ (short_circuits env = true ->
              exists analysis,
                llm_analysis env = Parsed analysis
                /\ confidence state = analysis.aiConfidence analysis
                /\ ToBoolean (analysis.aiConfidence analysis) = true
                /\ JS.lt (analysis.aiConfidence analysis) (JNum 0.3) = true))
    as (Hle & Hge & Hnum & Hearly).
  { unfold state.
    destruct (final_cases env conversationId userMessage companyId previousMessages)
      as [[Hearly ->]|(Hlate & _ & -> & _)].
    - rewrite handed_confidence. unfold escalated_early. cbn [confidence
        with_finalResponse with_currentStatus].
      pose proof Hearly as Hs. rewrite analyzed_early_exit in Hs.
      apply early_exit_inv in Hearly. destruct Hearly as [_ Hlt].
      rewrite analyzed_confidence in *.
      split; [|split; [|split]].
      + apply below_not_above with 0.3; [exact Hlt|reflexivity].
      + apply analyzer_confidence_nonneg.
      + intros Hn. congruence.
      + intros _. unfold analyzer_confidence in *.
        destruct (llm_analysis env) as [| | |analysis]; try discriminate Hlt.
        destruct (or_default_below _ Hlt) as (Ht & Hv & Hx3).
        exists analysis. rewrite Hv. auto.
    - rewrite analyzed_early_exit in Hlate.
      destruct (generated_confidence env (retrieved env (analyzed env
                  (initial_state conversationId userMessage companyId previousMessages))))
        as (c & Hc & Hle).
      rewrite Hc. cbn [ToNumber].
      split; [exact Hle|]. split; [|split].
      + intros Hr.
        pose proof (generated_confidence_nonneg env _ Hr
                      (retrieved_confidence env
                         (initial_state conversationId userMessage companyId
                            previousMessages))) as Hn.
        rewrite Hc in Hn. exact Hn.
      + intros _. now exists c.
      + intros Hs. congruence. }
  split; [exact Hle|]. split; [|auto].
  apply not_above_mono with 0.95; [exact Hle|reflexivity].
Qed.

Lemma result_confidence_clamped_above_witness :
  exists r w',
    processUserMessageWithHandoff Sample.confident "conv-1" "hours?" "acme" [] Sample.world
    = (Returned r, w')
    /\ (0.95 <? ToNumber (Result.confidence r)) = false
    /\ (1 <? ToNumber (Result.confidence r)) = false
    /\ (0 <=? ToNumber (Result.confidence r)) = true
    /\ exists c, Result.confidence r = JNum c.
Proof.
  eexists. eexists. split; [run_turn|].
  edestruct (result_confidence_clamped_above
               Sample.confident "conv-1" "hours?" "acme" [] Sample.world)
    as (H95 & H1 & H0 & Hn & _); [run_turn|].
  split; [exact H95|]. split; [exact H1|]. split.
  - apply H0. split; [right|]; reflexivity.
  - apply Hn. reflexivity.
Defined.

End ResultConfidence.

(* ===================================================================== *)
(** * The default of the analyzer confidence                              *)
(* ===================================================================== *)

Section AnalyzerDefault.

Import FloatOrder.
Local Open Scope float_scope.




End AnalyzerDefault.

(* ===================================================================== *)
(** * Outage of the language model                                        *)
(* ===================================================================== *)

Section Outage.

Import Handoff HandoffForm HandoffRun HandoffFacts.

(** C4, against the claim: with every model call throwing, the handoff
    workflow returns the confidence 0.3 and two suggestions, not the
    confidence 0.0 and one suggestion of confidence 1.0: each stage catches
    its own failure, and the catch block of the orchestrator is not reached. *)
Lemma outage_returns_stage_fallbacks :
  exists r w',
    processUserMessageWithHandoff Sample.outage "conv-1" "help" "acme" [] Sample.world
    = (Returned r, w')
    /\ Result.status r = red
    /\ Result.confidence r = JNum 0.3
    /\ Result.confidence r <> JNum 0.0
    /\ List.length (Result.suggestions r) = 2
    /\ map Suggestion.confidence (Result.suggestions r) = [JNum 0.95; JNum 0.8].
Proof.
  eexists. eexists. split; [run_turn|].
  repeat split; try reflexivity.
  cbn [Result.confidence]. intros H.
  apply (f_equal (fun v => is_zero (ToNumber v))) in H. vm_compute in H. discriminate.
Qed.

(** C4 (amended): no turn of the handoff workflow throws to its caller; and
    when every model call throws, the turn returns red with the confidence
    0.3 of the generation fallback, the generation fallback message (followed
    by the handoff sentence unless the status update throws), and the two
    fixed suggestions of the red status. *)
Theorem model_outage_returns_red
    (env : Env analysis.t aiResponse.t)
    (conversationId userMessage companyId : string)
    (previousMessages : list BaseMessage) (w : World) :
  (exists r w',
      processUserMessageWithHandoff env conversationId userMessage companyId
        previousMessages w = (Returned r, w'))
  /\ (model_down env ->
      exists r w',
        processUserMessageWithHandoff env conversationId userMessage companyId
          previousMessages w = (Returned r, w')
        /\ Result.status r = red
        /\ Result.confidence r = JNum 0.3
        /\ Result.suggestions r = [escalate_immediately; review_context]
        /\ Result.response r
           = match db_update env with
             | DbThrows => generation_failed_message
             | _ => (generation_failed_message ++ handoff_sentence)%string
             end).
Proof.
  rewrite processUserMessageWithHandoff_run. split.
  - eexists. eexists. reflexivity.
  - intros (Ha & Hr & Hs). eexists. eexists. split; [reflexivity|].
    cbv zeta. unfold mkResult.
    cbn [Result.status Result.confidence Result.suggestions Result.response].
    unfold final. rewrite analyzed_early_exit.
    assert (short_circuits env = false) as ->.
    { unfold short_circuits, analyzer_flag, analyzer_confidence. rewrite Ha. reflexivity. }
    cbv zeta.
    set (answered := generated env _).
    assert (must_escalate answered = true) as He.
    { unfold answered, generated, must_escalate. rewrite Hr. reflexivity. }
    assert (determined env answered
            = with_suggestions [escalate_immediately; review_context]
                (with_currentStatus red answered)) as Hd.
    { unfold determined. now rewrite He. }
    rewrite Hd. cbn [currentStatus with_suggestions with_currentStatus ConversationStatus_eqb].
    rewrite handed_currentStatus, handed_confidence, handed_suggestions.
    cbn [currentStatus confidence suggestions with_suggestions with_currentStatus].
    repeat split.
    + unfold answered, generated. rewrite Hr. reflexivity.
    + unfold handed, answered, generated. rewrite Hr.
      destruct (db_update env); reflexivity.
Qed.

Lemma model_outage_returns_red_witness :
  exists r w',
    processUserMessageWithHandoff Sample.outage "conv-1" "help" "acme" [] Sample.world
    = (Returned r, w')
    /\ Result.status r = red
    /\ Result.confidence r = JNum 0.3
    /\ Result.suggestions r = [escalate_immediately; review_context]
    /\ Result.response r = (generation_failed_message ++ handoff_sentence)%string.
Proof.
  exact (proj2 (model_outage_returns_red Sample.outage "conv-1" "help" "acme" []
                  Sample.world)
               (conj eq_refl (conj eq_refl eq_refl))).
Defined.

End Outage.

(* ===================================================================== *)
(** * Suggestions and severity                                            *)
(* ===================================================================== *)

(** C2, at the failing input: the analyzer asks for a human with confidence
    0.1.  Both handoff workflows take the early exit and return the red
    status with no suggestion at all, where the red branch of the status step
    and the catch block both supply some. *)
Lemma early_escalation_returns_no_suggestion :
  (exists r w',
      Handoff.processUserMessageWithHandoff Sample.urgent "conv-1" "help" "acme" []
        Sample.world = (Returned r, w')
      /\ Result.status r = red /\ Result.suggestions r = [])
  /\ (exists r w',
         Concurrent.processUserMessageConcurrent Sample.concurrent_urgent "conv-1" "help"
           "acme" [] Sample.world = (Returned r, w')
         /\ Result.status r = red /\ Result.suggestions r = []).
Proof.
  split; eexists; eexists; (split; [run_turn|]); split; reflexivity.
Qed.

Section Severity.

Import FloatOrder.
Local Open Scope float_scope.

(** C1, against the claim: in the simple workflow the analyzer sets its
    human-needed flag and the answer gets the confidence 0.8; the turn is
    classified yellow, not red: there the flag alone asks for review only. *)
Lemma simple_flag_yields_yellow :
  exists r w',
    Simple.processUserMessage Sample.simple_flagged "conv-1" "hello" None [] Sample.world
    = (Returned r, w')
    /\ SimpleForm.flag_fired Sample.simple_flagged = true
    /\ Result.status r = yellow
    /\ Result.status r <> red.
Proof.
  eexists. eexists. split; [run_turn|].
  split; [reflexivity|]. split; [reflexivity|]. discriminate.
Qed.

(** C1 (amended): in the handoff workflow a result is red whenever its
    confidence is below 0.5 or a human-needed flag fired, and it is green
    only when no flag fired and its confidence is not below 0.7 (at least
    0.7 when it is not [NaN]).  In the simple workflow a result is red
    exactly when its confidence is below 0.5, the analyzer's flag alone
    gives yellow or red, and a result is green only when no flag fired and
    its confidence is at least 0.7. *)
Theorem severity_follows_confidence_and_flags :
  (forall (env : Env Handoff.analysis.t Handoff.aiResponse.t)
          (conversationId userMessage companyId : string)
          (previousMessages : list BaseMessage) (w w' : World) (r : WorkflowResult),
      Handoff.processUserMessageWithHandoff env conversationId userMessage companyId
        previousMessages w = (Returned r, w') ->
      (JS.lt (Result.confidence r) (JNum 0.5) = true -> Result.status r = red)
      /\ (HandoffForm.flag_fired env = true -> Result.status r = red)
      /\ (Result.status r = green ->
          HandoffForm.flag_fired env = false
          /\ JS.lt (Result.confidence r) (JNum 0.7) = false
          /\ (is_nan (ToNumber (Result.confidence r)) = false ->
              (0.7 <=? ToNumber (Result.confidence r)) = true)))
  /\ (forall (env : Env Simple.analysisJson.t string)
             (conversationId userMessage : string) (companyId : option string)
             (previousMessages : list BaseMessage) (w w' : World) (r : WorkflowResult),
         Simple.processUserMessage env conversationId userMessage companyId
           previousMessages w = (Returned r, w') ->
         (JS.lt (Result.confidence r) (JNum 0.5) = true <-> Result.status r = red)
         /\ (SimpleForm.flag_fired env = true ->
             Result.status r = yellow \/ Result.status r = red)
         /\ (Result.status r = green ->
             SimpleForm.flag_fired env = false
             /\ (0.7 <=? ToNumber (Result.confidence r)) = true)).
Proof.
  split.
  - intros env conversationId userMessage companyId previousMessages w w' r.
    rewrite HandoffRun.processUserMessageWithHandoff_run. intros H. injection H as <- _.
    cbv zeta. unfold mkResult. cbn [Result.confidence Result.status].
    assert ((JS.lt (Handoff.confidence (HandoffForm.final env conversationId userMessage
                                          companyId previousMessages)) (JNum 0.5) = true
             \/ HandoffForm.flag_fired env = true ->
             Handoff.currentStatus (HandoffForm.final env conversationId userMessage
                                      companyId previousMessages) = red)
            /\ (Handoff.currentStatus (HandoffForm.final env conversationId userMessage
                                         companyId previousMessages) = green ->
                JS.lt (Handoff.confidence (HandoffForm.final env conversationId userMessage
                                             companyId previousMessages)) (JNum 0.7) = false))
      as [Hred Hgreen].
    { destruct (HandoffFacts.final_cases env conversationId userMessage companyId
                  previousMessages) as [[_ ->]|(_ & -> & -> & _ & _)].
      - rewrite HandoffFacts.handed_currentStatus. split; [reflexivity|discriminate].
      - rewrite HandoffFacts.determined_currentStatus, HandoffFacts.must_escalate_spec.
        set (answered := HandoffForm.generated env _).
        split.
        + intros [Hlow|Hflag].
          * rewrite Hlow, orb_true_r. reflexivity.
          * unfold answered. rewrite HandoffFacts.generated_flag; [reflexivity| |exact Hflag].
            rewrite HandoffFacts.retrieved_needsHumanIntervention.
            apply HandoffFacts.analyzed_needsHumanIntervention.
        + destruct (ToBoolean (Handoff.needsHumanIntervention answered)
                    || JS.lt (Handoff.confidence answered) (JNum 0.5)); [discriminate|].
          destruct (JS.lt (Handoff.confidence answered) (JNum 0.7)); [discriminate|].
          reflexivity. }
    split; [auto|]. split; [auto|].
    intros Hg. split; [|split].
    + destruct (HandoffForm.flag_fired env) eqn:E; [|reflexivity].
      rewrite Hred in Hg by auto. discriminate.
    + auto.
    + intros Hn. apply nlt_leb; [exact Hn|reflexivity|]. apply (Hgreen Hg).
  - intros env conversationId userMessage companyId previousMessages w w' r.
    rewrite SimpleRun.processUserMessage_run. intros H. injection H as <- _.
    unfold SimpleForm.final. cbv zeta. unfold mkResult.
    cbn [Result.confidence Result.status].
    set (context := fst (SimpleForm.retrieved env userMessage companyId)).
    set (sources := snd (SimpleForm.retrieved env userMessage companyId)).
    pose proof (SimpleFacts.generated_not_nan env context sources) as Hn.
    set (c := snd (SimpleForm.generated env context sources)) in *.
    rewrite SimpleFacts.classify_spec, SimpleFacts.analysed_needsHuman.
    unfold JS.lt. cbn [ToNumber].
    destruct (c <? 0.5) eqn:E5.
    + split; [split; reflexivity|]. split; [auto|discriminate].
    + destruct (SimpleForm.flag_fired env); cbn [orb].
      * split; [split; discriminate|]. split; [auto|discriminate].
      * destruct (c <? 0.7) eqn:E7.
        -- split; [split; discriminate|]. split; discriminate.
        -- split; [split; discriminate|]. split; [discriminate|].
           intros _. split; [reflexivity|].
           apply nlt_leb; [exact Hn|reflexivity|exact E7].
Qed.

Lemma severity_follows_confidence_and_flags_witness :
  (exists r w',
      Handoff.processUserMessageWithHandoff Sample.urgent "conv-1" "help" "acme" []
        Sample.world = (Returned r, w')
      /\ Result.status r = red)
  /\ (exists r w',
         Simple.processUserMessage Sample.simple_flagged "conv-1" "hello" None []
           Sample.world = (Returned r, w')
         /\ (Result.status r = yellow \/ Result.status r = red)).
Proof.
  split.
  - eexists. eexists. split; [run_turn|].
    refine (proj1 (proj2 (proj1 severity_follows_confidence_and_flags
                            Sample.urgent "conv-1" "help" "acme" [] Sample.world _ _ _))
                  eq_refl).
    run_turn.
  - eexists. eexists. split; [run_turn|].
    refine (proj1 (proj2 (proj2 severity_follows_confidence_and_flags
                            Sample.simple_flagged "conv-1" "hello" None [] Sample.world
                            _ _ _))
                  eq_refl).
    run_turn.
Defined.

End Severity.

(* ===================================================================== *)
(** * The early escalation                                                *)
(* ===================================================================== *)

Section EarlyEscalation.

Import FloatOrder.
Local Open Scope float_scope.





End EarlyEscalation.

(* ===================================================================== *)
(** * The combined confidence                                             *)
(* ===================================================================== *)

Section CombinedConfidence.

Import FloatOrder.
Local Open Scope float_scope.




End CombinedConfidence.

(* ===================================================================== *)
(** * The confidence policy of the response generator                     *)
(* ===================================================================== *)

Section ConfidencePolicy.

Import Simple SimpleForm SimpleRun SimpleFacts.
Local Open Scope float_scope.

(** C7, against the claim: there is no company to search for, so the
    retrieval step uses its fallback context (the first three mock passages,
    no tenant passage, no search); the answer does not hedge; the generator's
    confidence is 0.8, above the cap 0.5 the claim puts on fallback context. *)
Lemma fallback_context_is_not_capped :
  exists r w',
    processUserMessage Sample.simple_plain "conv-1" "hello" None [] Sample.world
    = (Returned r, w')
    /\ retrieved Sample.simple_plain "hello" None = (slice0 3 mockContext, [])
    /\ ~ In CallRetriever (calls w')
    /\ Result.confidence r = JNum 0.8
    /\ (0.5 <? 0.8) = true.
Proof.
  eexists. eexists. split; [run_turn|].
  split; [reflexivity|]. split; [|split; reflexivity].
  cbn [calls]. intros [H|[H|[H|[]]]]; discriminate H.
Qed.

(** C7 (amended): the generator of the simple workflow computes its
    confidence by the policy, applied in order: start from 0.8 (the model's
    answer is plain text and reports no confidence); cap at 0.6 when the text
    contains "not sure" or "don't know" in any letter case; cap at 0.5 when
    the context is empty or holds a passage with "trouble accessing", which
    is the context of a failed search and never the keyword fallback; then,
    when there are sources, add 0.1 clamped to at most 0.95. *)
Theorem generator_confidence_follows_the_policy :
  (forall (aiResponse : string) (context : list string) (sources : list Source),
      response_confidence aiResponse context sources
      = confidence_policy aiResponse context sources)
  /\ (forall (env : Env analysisJson.t string) (userQuery aiResponse : string)
             (context : list string) (sources : list Source) (w : World),
         llm_response env = Parsed aiResponse ->
         generateResponse env userQuery context sources w
         = (Returned (aiResponse, confidence_policy aiResponse context sources),
            add_call CallGenerator w))
  /\ (forall userQuery : string, unavailable (keyword_context userQuery) = false)
  /\ unavailable unavailable_context = true.
Proof.
  split; [|split; [|split]].
  - apply response_confidence_policy.
  - intros env userQuery aiResponse context sources w H.
    rewrite simple_generateResponse_run. unfold generated. rewrite H.
    now rewrite response_confidence_policy.
  - apply keyword_context_available.
  - reflexivity.
Qed.

Lemma generator_confidence_follows_the_policy_witness :
  generateResponse Sample.simple_plain "hello" (slice0 3 mockContext) [] Sample.world
  = (Returned ("Our office is open on weekdays.",
               confidence_policy "Our office is open on weekdays." (slice0 3 mockContext) []),
     add_call CallGenerator Sample.world).
Proof.
  exact (proj1 (proj2 generator_confidence_follows_the_policy)
           Sample.simple_plain "hello" _ (slice0 3 mockContext) [] Sample.world eq_refl).
Defined.

End ConfidencePolicy.

(* ===================================================================== *)
(** * The suggestion generator                                            *)
(* ===================================================================== *)

Section SuggestionGenerator.

Import SimpleFacts.




End SuggestionGenerator.

(* ===================================================================== *)
(** * A failed status update                                              *)
(* ===================================================================== *)

Section FailedUpdate.




End FailedUpdate.

(* ===================================================================== *)
(** * Past the early exit                                                 *)
(* ===================================================================== *)

Section PastTheEarlyExit.

Import Handoff HandoffForm HandoffRun HandoffFacts FloatOrder.
Local Open Scope float_scope.

(** X1: in the handoff workflow, when the turn does not escalate early, no
    human-needed flag fired and the generator's payload has no [confidence],
    the combined confidence is [NaN]; both threshold tests of the status
    step are false on it, and the turn is classified green. *)
Theorem unrated_answer_is_green
    (env : Env analysis.t aiResponse.t)
    (conversationId userMessage companyId : string)
    (previousMessages : list BaseMessage) (w w' : World) (r : WorkflowResult)
    (payload : aiResponse.t) :
  processUserMessageWithHandoff env conversationId userMessage companyId previousMessages w
  = (Returned r, w') ->
  short_circuits env = false ->
  flag_fired env = false ->
  llm_response env = Parsed payload ->
  aiResponse.confidence payload = JUndefined ->
  Result.status r = green
  /\ Result.suggestions r = []
  /\ exists c, Result.confidence r = JNum c /\ is_nan c = true.
Proof.
  rewrite processUserMessageWithHandoff_run. intros H Hs Hf Hp Hu.
  injection H as <- _. cbv zeta. unfold mkResult.
  cbn [Result.status Result.suggestions Result.confidence].
  destruct (final_cases env conversationId userMessage companyId previousMessages)
    as [[He _]|(_ & -> & -> & -> & _)].
  { rewrite analyzed_early_exit in He. congruence. }
  set (ready := retrieved env _).
  assert (needsHumanIntervention ready = analyzer_flag env) as Hn.
  { unfold ready. rewrite retrieved_needsHumanIntervention.
    apply analyzed_needsHumanIntervention. }
  pose proof (generated_no_flag env ready payload Hn Hp Hf) as Hg.
  assert (exists c, confidence (generated env ready) = JNum c /\ is_nan c = true)
    as (c & Hc & Hnan).
  { unfold generated. rewrite Hp, Hu.
    cbn [confidence with_needsHumanIntervention with_confidence].
    eexists. split; [reflexivity|].
    apply Math_min_nan_l, add_nan_r. reflexivity. }
  assert (must_escalate (generated env ready) = false) as Hm.
  { rewrite must_escalate_spec, Hg, Hc. unfold JS.lt. cbn [ToNumber orb].
    now apply ltb_nan_l. }
  assert (JS.lt (confidence (generated env ready)) (JNum 0.7) = false) as H7.
  { rewrite Hc. unfold JS.lt. cbn [ToNumber]. now apply ltb_nan_l. }
  rewrite determined_currentStatus, determined_suggestions, Hm, H7.
  split; [reflexivity|]. split; [reflexivity|].
  exists c. auto.
Qed.

Lemma unrated_answer_is_green_witness :
  exists r w',
    processUserMessageWithHandoff Sample.unrated "conv-1" "hours?" "acme" [] Sample.world
    = (Returned r, w')
    /\ Result.status r = green
    /\ Result.suggestions r = []
    /\ exists c, Result.confidence r = JNum c /\ is_nan c = true.
Proof.
  eexists. eexists. split; [run_turn|].
  refine (unrated_answer_is_green
            Sample.unrated "conv-1" "hours?" "acme" [] Sample.world _ _ _ _
            eq_refl eq_refl eq_refl eq_refl).
  run_turn.
Defined.



End PastTheEarlyExit.

(* ===================================================================== *)
(** * What a turn of the handoff workflow calls and stores                *)
(* ===================================================================== *)

Section HandoffTrace.

Import Handoff HandoffForm HandoffRun HandoffFacts.

Lemma set_status_same (cid : string) (s : ConversationStatus)
    (t : string -> option ConversationStatus) :
  set_status cid s t cid = match t cid with Some _ => Some s | None => None end.
Proof. unfold set_status. now rewrite String.eqb_refl. Qed.

Lemma set_status_other (cid k : string) (s : ConversationStatus)
    (t : string -> option ConversationStatus) :
  k <> cid -> set_status cid s t k = t k.
Proof.
  intros H. unfold set_status. destruct (String.eqb k cid) eqn:E; [|reflexivity].
  apply String.eqb_eq in E. contradiction.
Qed.





End HandoffTrace.

Section HandoffStore.

Import Handoff HandoffForm HandoffRun HandoffFacts.






End HandoffStore.

Section ConcurrentTurn.

Import Concurrent ConcurrentForm ConcurrentRun ConcurrentFacts.

Variable env : Env analysis.t aiResponse.t.


Lemma concurrent_handed_sources (state : ConcurrentWorkflowState) (w : World) :
  sources (handed env state w) = sources state.
Proof. unfold handed. destruct (_ && _); reflexivity. Qed.







End ConcurrentTurn.



Section SimpleTurn.

Import Simple SimpleForm SimpleRun SimpleFacts.

Local Open Scope float_scope.

Lemma response_confidence_values (aiResponse : string) (context : list string)
    (found : list Source) :
  In (response_confidence aiResponse context found) [0.5; 0.6; 0.7; 0.8; 0.9].
Proof.
  unfold response_confidence. cbv zeta.
  destruct (includes _ "not sure" || includes _ "don't know")%bool;
    destruct ((List.length context =? 0)%nat || JS.some _ context)%bool;
    destruct (0 <? List.length found)%nat;
    vm_compute; tauto.
Qed.

Lemma response_confidence_at_least_half (aiResponse : string) (context : list string)
    (found : list Source) :
  (response_confidence aiResponse context found <? 0.5) = false.
Proof.
  pose proof (response_confidence_values aiResponse context found) as H.
  cbn [In] in H.
  destruct H as [<-|[<-|[<-|[<-|[<-|[]]]]]]; vm_compute; reflexivity.
Qed.

(** X8: a turn of the simple workflow always returns, never calls the status
    update and leaves the conversations table as it was, whatever the
    models, the search and the arguments are.  It calls the analyzer, the
    retriever when a non-empty company id is given, the generator, and the
    suggester unless the confidence of the result is above 0.8. *)
Theorem simple_turn_calls
    (env : Env analysisJson.t string)
    (conversationId userMessage : string) (companyId : option string)
    (previousMessages : list BaseMessage) (w : World) :
  exists (r : WorkflowResult) (c : float),
    processUserMessage env conversationId userMessage companyId previousMessages w
    = (Returned r,
       mkWorld (calls w ++ [CallAnalyzer]
                        ++ (match companyId with
                            | Some (String _ _) => [CallRetriever]
                            | _ => []
                            end)
                        ++ [CallGenerator]
                        ++ (if 0.8 <? c then [] else [CallSuggester]))
               (conversations w))
    /\ Result.confidence r = JNum c.
Proof.
  rewrite processUserMessage_run.
  exists (final env userMessage companyId).
  exists (snd (generated env (fst (retrieved env userMessage companyId))
                             (snd (retrieved env userMessage companyId)))).
  split; [|reflexivity].
  f_equal. unfold final_world. cbv zeta.
  unfold suggested_world, retrieved_world, searches.
  destruct w as [cs t].
  destruct (0.8 <? _); destruct companyId as [[|a s]|];
    unfold add_call; cbn [calls conversations]; rewrite <- ?app_assoc;
    cbn [app]; rewrite ?app_nil_r; reflexivity.
Qed.

(** X9: in the simple workflow a result is red exactly when the generator
    call failed.  Its confidence is then 0.3 and its text the apology; when
    the generator replied, the confidence is one of 0.5, 0.6, 0.7, 0.8 and
    0.9, so neither the analyzer's flag nor a hedging answer nor an
    unavailable knowledge base makes the result red. *)
Theorem simple_red_only_when_generator_fails
    (env : Env analysisJson.t string)
    (conversationId userMessage : string) (companyId : option string)
    (previousMessages : list BaseMessage) (w w' : World) (r : WorkflowResult) :
  processUserMessage env conversationId userMessage companyId previousMessages w
  = (Returned r, w') ->
  (Result.status r = red <-> forall text, llm_response env <> Parsed text)
  /\ ((forall text, llm_response env <> Parsed text) ->
      Result.confidence r = JNum 0.3 /\ Result.response r = sorry_message)
  /\ (forall text, llm_response env = Parsed text ->
      Result.response r = text
      /\ exists c, Result.confidence r = JNum c /\ In c [0.5; 0.6; 0.7; 0.8; 0.9]).
Proof.
  rewrite processUserMessage_run. intros H. injection H as <- _.
  unfold final. cbv zeta. unfold mkResult.
  cbn [Result.status Result.confidence Result.response].
  rewrite classify_spec. unfold generated.
  destruct (llm_response env) as [| | |text] eqn:E; cbn [fst snd].
  1-3: split; [|split];
    [ split; [intros _ text' H'; discriminate H' | intros _; vm_compute; reflexivity]
    | intros _; split; reflexivity
    | intros text' H'; discriminate H' ].
  rewrite response_confidence_at_least_half.
  split; [|split].
  - split.
    + intros H. destruct (_ || _)%bool; discriminate H.
    + intros H. now destruct (H text).
  - intros H. now destruct (H text).
  - intros text' H'. injection H' as <-. split; [reflexivity|].
    eexists. split; [reflexivity|]. apply response_confidence_values.
Qed.

Lemma simple_red_only_when_generator_fails_witness :
  exists r w',
    processUserMessage Sample.simple_flagged "conv-1" "help" None [] Sample.world
    = (Returned r, w')
    /\ Result.status r <> red.
Proof.
  eexists. eexists. split; [run_turn|].
  edestruct (simple_red_only_when_generator_fails
               Sample.simple_flagged "conv-1" "help" None [] Sample.world)
    as [H _]; [run_turn|].
  intros Hr. exact (proj1 H Hr "Our office is open on weekdays."%string eq_refl).
Defined.

(** X10: the simple workflow ignores what the analyzer reports beyond the
    truth value of its human-needed flag.  Two turns that differ only in the
    analyzer's reply, with flags of the same truth value, return the same
    result and make the same calls: the analyzer's confidence, intent,
    urgency and complexity do not reach the result. *)
Theorem simple_result_ignores_analyzer_confidence
    (env env' : Env analysisJson.t string)
    (conversationId userMessage : string) (companyId : option string)
    (previousMessages : list BaseMessage) (w : World) :
  kb_search env = kb_search env' ->
  llm_response env = llm_response env' ->
  llm_suggestions env = llm_suggestions env' ->
  flag_fired env = flag_fired env' ->
  processUserMessage env conversationId userMessage companyId previousMessages w
  = processUserMessage env' conversationId userMessage companyId previousMessages w.
Proof.
  intros Hk Hr Hs Hf. rewrite !processUserMessage_run.
  assert (retrieved env userMessage companyId = retrieved env' userMessage companyId)
    as Hret by (unfold retrieved; now rewrite Hk).
  assert (forall context found, generated env context found = generated env' context found)
    as Hgen by (intros; unfold generated; now rewrite Hr).
  assert (forall c, suggested env c = suggested env' c)
    as Hsug by (intros; unfold suggested; now rewrite Hs).
  f_equal.
  - unfold final. cbv zeta. rewrite Hret, !Hgen, Hsug. unfold mkResult. f_equal.
    now rewrite !classify_spec, !analysed_needsHuman, Hf.
  - unfold final_world. cbv zeta. now rewrite Hret, !Hgen.
Qed.

Lemma simple_result_ignores_analyzer_confidence_witness :
  processUserMessage Sample.simple_flagged "conv-1" "help" None [] Sample.world
  = processUserMessage Sample.simple_zero "conv-1" "help" None [] Sample.world.
Proof.
  apply (simple_result_ignores_analyzer_confidence
           Sample.simple_flagged Sample.simple_zero); reflexivity.
Defined.

End SimpleTurn.

Section KeywordFallback.

Import Simple SimpleForm SimpleFacts.

Lemma toLowerCase_app (a b : string) :
  toLowerCase (a ++ b) = (toLowerCase a ++ toLowerCase b)%string.
Proof. induction a as [|c a IH]; cbn [String.append toLowerCase]; congruence. Qed.

Lemma split_space_nonempty (s : string) : split_space s <> [].
Proof.
  induction s as [|c s IH]; cbn [split_space]; [discriminate|].
  destruct (Ascii.eqb c " "); [discriminate|].
  destruct (split_space s); discriminate.
Qed.

(** ["a b".split(' ')] is the pieces of [a] followed by the pieces of [b]. *)
Lemma split_space_app (a b : string) :
  split_space (a ++ " " ++ b) = split_space a ++ split_space b.
Proof.
  induction a as [|c a IH]; [reflexivity|].
  cbn [String.append split_space] in *.
  destruct (Ascii.eqb c " "); [now rewrite IH|].
  rewrite IH. pose proof (split_space_nonempty a) as Hn.
  destruct (split_space a); [now destruct Hn|reflexivity].
Qed.

Lemma includes_empty (s : string) : includes s EmptyString = true.
Proof. destruct s; reflexivity. Qed.

Lemma existsb_In {A : Type} (p : A -> bool) (l : list A) (x : A) :
  In x l -> p x = true -> existsb p l = true.
Proof. intros Hin Hp. apply existsb_exists. now exists x. Qed.

(** The test of the keyword filter holds for every passage when one of the
    words is empty. *)
Lemma keyword_context_empty_word (userQuery : string) :
  In EmptyString (split_space (toLowerCase userQuery)) ->
  keyword_context userQuery = mockContext.
Proof.
  intros Hin. unfold keyword_context. cbv zeta.
  assert (forall context,
             JS.some (fun keyword => includes (toLowerCase context) keyword)
                     (split_space (toLowerCase userQuery)) = true) as Hall.
  { intros context. unfold JS.some.
    apply (existsb_In _ _ EmptyString Hin). apply includes_empty. }
  unfold mockContext at 1 2. cbn [filter]. rewrite !Hall. reflexivity.
Qed.

Lemma keyword_context_length (userQuery : string) :
  (1 <= List.length (keyword_context userQuery) <= 5)%nat.
Proof.
  pose proof (keyword_context_nonempty userQuery) as Hn.
  apply Nat.eqb_neq in Hn. split; [lia|].
  unfold keyword_context. cbv zeta.
  destruct (0 <? _)%nat.
  - unfold mockContext. cbn [filter].
    repeat match goal with |- context [if ?b then _ else _] => destruct b end;
      cbn [List.length]; lia.
  - cbn. lia.
Qed.

(** X11: the keyword fallback of the simple workflow.  It returns passages
    of the mock knowledge base only, at least one and at most five of them,
    and never one that makes the generator cap its confidence for an
    unavailable knowledge base.  A message that is empty, that starts or
    ends with a space, or that has two spaces in a row splits into words one
    of which is empty, and the empty word is found in every passage: such a
    message gets all five passages, whatever its other words are. *)
Theorem keyword_fallback_on_an_empty_word (userQuery : string) :
  incl (keyword_context userQuery) mockContext
  /\ (1 <= List.length (keyword_context userQuery) <= 5)%nat
  /\ unavailable (keyword_context userQuery) = false
  /\ ((userQuery = EmptyString
       \/ (exists rest, userQuery = (" " ++ rest)%string)
       \/ (exists start, userQuery = (start ++ " ")%string)
       \/ (exists start rest, userQuery = (start ++ " " ++ " " ++ rest)%string)) ->
      keyword_context userQuery = mockContext).
Proof.
  split; [apply keyword_context_incl|].
  split; [apply keyword_context_length|].
  split; [apply keyword_context_available|].
  intros H. apply keyword_context_empty_word.
  destruct H as [->|[[rest ->]|[[start ->]|[start [rest ->]]]]].
  - left. reflexivity.
  - left. reflexivity.
  - replace (start ++ " ")%string with (start ++ " " ++ EmptyString)%string by reflexivity.
    rewrite toLowerCase_app.
    change (toLowerCase (" " ++ EmptyString)) with (" " ++ EmptyString)%string.
    rewrite split_space_app. apply in_or_app. right. left. reflexivity.
  - rewrite toLowerCase_app.
    change (toLowerCase (" " ++ " " ++ rest))
      with (" " ++ toLowerCase (" " ++ rest))%string.
    rewrite split_space_app. apply in_or_app. right. left. reflexivity.
Qed.

Lemma keyword_fallback_on_an_empty_word_witness :
  keyword_context "refund " = mockContext.
Proof.
  apply (keyword_fallback_on_an_empty_word "refund ").
  right. right. left. exists "refund"%string. reflexivity.
Defined.

End KeywordFallback.

Section SimpleSuggestions.

Import Simple SimpleForm SimpleRun SimpleFacts.

Local Open Scope float_scope.

Lemma response_confidence_top (aiResponse : string) (context : list string)
    (found : list Source) :
  (0.8 <? response_confidence aiResponse context found) = true
  <-> hedged aiResponse = false /\ unavailable context = false /\ found <> [].
Proof.
  unfold response_confidence, hedged, unavailable. cbv zeta.
  destruct (includes _ "not sure" || includes _ "don't know")%bool;
    destruct ((List.length context =? 0)%nat || JS.some _ context)%bool;
    destruct found as [|source found]; cbn [List.length Nat.ltb Nat.leb];
    vm_compute; split; try discriminate; try (intros (H1 & H2 & H3); congruence).
  all: intros _; repeat split; discriminate.
Qed.

(** X25: when the simple workflow asks for no suggestions.  The suggestion
    model is left out, and the result has no suggestion, exactly when the
    generator replied without hedging, from a context that is not the
    unavailable one, and the search had returned sources: then the
    confidence is 0.9.  On every other turn the suggestion model is called,
    also when the result is green with confidence 0.8 or 0.7. *)
Theorem simple_suggestions_skipped_only_when_grounded
    (env : Env analysisJson.t string)
    (conversationId userMessage : string) (companyId : option string)
    (previousMessages : list BaseMessage) (w w' : World) (r : WorkflowResult) :
  processUserMessage env conversationId userMessage companyId previousMessages w
  = (Returned r, w') ->
  let context := fst (retrieved env userMessage companyId) in
  let grounded_answer :=
    exists text, llm_response env = Parsed text
                 /\ hedged text = false
                 /\ unavailable context = false
                 /\ Result.sources r <> None in
  (grounded_answer ->
   Result.confidence r = JNum 0.9 /\ Result.suggestions r = []
   /\ exists before, calls w' = before ++ [CallGenerator])
  /\ (~ grounded_answer ->
      exists before, calls w' = before ++ [CallGenerator; CallSuggester]).
Proof.
  rewrite processUserMessage_run. intros H. injection H as <- <-.
  cbv zeta. unfold final, final_world. cbv zeta. unfold mkResult.
  cbn [Result.confidence Result.suggestions Result.sources].
  set (context := fst (retrieved env userMessage companyId)).
  set (found := snd (retrieved env userMessage companyId)).
  assert (sources_or_undefined found <> None <-> found <> []) as Hsrc.
  { destruct found; cbn [sources_or_undefined]; split; congruence. }
  unfold generated, suggested, suggested_world.
  destruct (llm_response env) as [| | |text] eqn:E; cbn [fst snd].
  1-3: split; [intros (text & Ht & _); discriminate Ht|];
    intros _; change (0.8 <? 0.3) with false;
    eexists; cbn [calls add_call]; rewrite <- app_assoc; reflexivity.
  split.
  - intros (text' & Ht & Hh & Hu & Hs). injection Ht as <-.
    apply Hsrc in Hs.
    assert ((0.8 <? response_confidence text context found) = true) as Hc
        by (apply response_confidence_top; auto).
    rewrite Hc. split; [|split; [reflexivity|eexists; reflexivity]].
    f_equal. revert Hh Hu Hs. clear.
    unfold response_confidence, hedged, unavailable. cbv zeta.
    intros -> -> Hs. destruct found; [now destruct Hs|]. vm_compute. reflexivity.
  - intros Hn.
    destruct (0.8 <? response_confidence text context found) eqn:Hc.
    + exfalso. apply Hn. apply response_confidence_top in Hc.
      destruct Hc as (Hh & Hu & Hs).
      exists text. split; [reflexivity|]. split; [exact Hh|]. split; [exact Hu|].
      now apply Hsrc.
    + eexists. cbn [calls add_call]. rewrite <- app_assoc. reflexivity.
Qed.

Lemma simple_suggestions_skipped_only_when_grounded_witness :
  exists r w',
    processUserMessage Turns.simple_grounded "conv-1" "hours?" (Some "acme"%string) []
                       Sample.world
    = (Returned r, w')
    /\ Result.confidence r = JNum 0.9
    /\ Result.suggestions r = []
    /\ exists before, calls w' = before ++ [CallGenerator].
Proof.
  eexists. eexists. split; [run_turn|].
  edestruct (simple_suggestions_skipped_only_when_grounded
               Turns.simple_grounded "conv-1" "hours?" (Some "acme"%string) []
               Sample.world) as [H _]; [run_turn|].
  apply H. exists "Our office is open on weekdays."%string.
  split; [reflexivity|]. split; [reflexivity|]. split; [reflexivity|discriminate].
Defined.

End SimpleSuggestions.

(* ===================================================================== *)
(** * The two orchestrated workflows side by side                         *)
(* ===================================================================== *)

Section Agree.

Import Agreement.

Variable henv : Env Handoff.analysis.t Handoff.aiResponse.t.
Variable cenv : Env Concurrent.analysis.t Concurrent.aiResponse.t.

Variables conversationId userMessage companyId : string.
Variable previousMessages : list BaseMessage.







End Agree.

(** A reply of the analyzer that has the flag under the name the prompt of
    the concurrent workflow asks for only: the handoff workflow does not see
    the flag and answers yellow, the concurrent workflow escalates early. *)
Lemma flag_name_decides :
  exists r w' r' v',
    Handoff.processUserMessageWithHandoff
      Turns.one_flag_handoff "conv-1" "help" "acme" [] Sample.world = (Returned r, w')
    /\ Concurrent.processUserMessageConcurrent
         Turns.one_flag_concurrent "conv-1" "help" "acme" [] Sample.world = (Returned r', v')
    /\ Result.status r = yellow
    /\ Result.status r' = red.
Proof.
  eexists. eexists. eexists. eexists. split; [run_turn|]. split; [run_turn|].
  split; reflexivity.
Qed.


(* ===================================================================== *)
(** * The knowledge base search                                           *)
(* ===================================================================== *)

Module KnowledgeBaseFacts.

Import KnowledgeBase.

Lemma has_spec (docId : string) (documentGroups : DocumentGroups) :
  has docId documentGroups = true <-> In docId (map fst documentGroups).
Proof.
  unfold has. rewrite existsb_exists, in_map_iff. split.
  - intros [entry [Hin Heq]]. apply String.eqb_eq in Heq. now exists entry.
  - intros [entry [Heq Hin]]. exists entry. split; [exact Hin|]. now apply String.eqb_eq.
Qed.

Lemma push_keys (docId : string) (chunk : KnowledgeBaseChunk)
    (documentGroups : DocumentGroups) :
  map fst (push docId chunk documentGroups) = map fst documentGroups.
Proof.
  unfold push. rewrite map_map. apply map_ext.
  intros entry. now destruct (String.eqb (fst entry) docId).
Qed.

Lemma group_step_keys (documentGroups : DocumentGroups) (chunk : KnowledgeBaseChunk) :
  map fst (group_step documentGroups chunk)
  = if has (document_id chunk) documentGroups then map fst documentGroups
    else map fst documentGroups ++ [document_id chunk].
Proof.
  unfold group_step. cbv zeta. rewrite push_keys.
  destruct (has _ _); cbn [negb]; [reflexivity|].
  unfold set_new. now rewrite map_app.
Qed.

Lemma own_app (docId : string) (seen : list KnowledgeBaseChunk) (chunk : KnowledgeBaseChunk) :
  own docId (seen ++ [chunk])
  = own docId seen ++ (if String.eqb (document_id chunk) docId then [chunk] else []).
Proof. unfold own. rewrite filter_app. cbn [filter]. now destruct (String.eqb _ _). Qed.

Lemma own_nil (docId : string) (seen : list KnowledgeBaseChunk) :
  ~ In docId (map document_id seen) -> own docId seen = [].
Proof.
  unfold own. induction seen as [|chunk seen IH]; [reflexivity|].
  cbn [map In filter]. intros Hn.
  destruct (String.eqb (document_id chunk) docId) eqn:E.
  - apply String.eqb_eq in E. tauto.
  - apply IH. tauto.
Qed.

Lemma own_In (docId : string) (seen : list KnowledgeBaseChunk) :
  In docId (map document_id seen) -> (1 <= List.length (own docId seen))%nat.
Proof.
  unfold own. induction seen as [|chunk seen IH]; [intros []|].
  cbn [map In filter]. intros Hin.
  destruct (String.eqb (document_id chunk) docId) eqn:E.
  - cbn [List.length]. lia.
  - apply IH. destruct Hin as [Heq|Hin]; [|exact Hin].
    apply String.eqb_neq in E. contradiction.
Qed.

Lemma grouped_step (documentGroups : DocumentGroups) (seen : list KnowledgeBaseChunk)
    (chunk : KnowledgeBaseChunk) :
  grouped documentGroups seen ->
  grouped (group_step documentGroups chunk) (seen ++ [chunk]).
Proof.
  intros (Hnd & Hkeys & Hown & Hhd).
  assert (forall entry,
             In entry (group_step documentGroups chunk) ->
             snd entry = own (fst entry) (seen ++ [chunk])) as Hown'.
  { intros entry. unfold group_step. cbv zeta. unfold push. rewrite in_map_iff.
    intros [before [Heq Hin]]. rewrite own_app.
    assert (snd before = own (fst before) seen) as Hb.
    { destruct (has (document_id chunk) documentGroups) eqn:Hh; cbn [negb] in Hin.
      - now apply Hown.
      - unfold set_new in Hin. apply in_app_or in Hin. destruct Hin as [Hin|[<-|[]]].
        + now apply Hown.
        + cbn [fst snd]. symmetry. apply own_nil. rewrite <- Hkeys.
          intros Hc. apply has_spec in Hc. congruence. }
    destruct (String.eqb (fst before) (document_id chunk)) eqn:E;
      subst entry; cbn [fst snd]; rewrite String.eqb_sym, E.
    - now rewrite Hb.
    - now rewrite app_nil_r. }
  unfold grouped. rewrite group_step_keys, map_app. cbn [map].
  destruct (has (document_id chunk) documentGroups) eqn:Hh.
  - apply has_spec in Hh. split; [exact Hnd|]. split; [|split; [exact Hown'|]].
    + intros docId. rewrite in_app_iff. cbn [In]. rewrite Hkeys. split; [tauto|].
      intros [H|[<-|[]]]; [exact H|]. now apply Hkeys.
    + destruct seen as [|first seen]; [|exact Hhd].
      destruct documentGroups as [|entry rest]; [destruct Hh|].
      assert (In (fst entry) (map document_id [])) as [] by (apply Hkeys; now left).
  - assert (~ In (document_id chunk) (map fst documentGroups)) as Hnew.
    { intros Hc. apply has_spec in Hc. congruence. }
    split; [|split; [|split; [exact Hown'|]]].
    + apply NoDup_app; [exact Hnd|repeat constructor; intros []|].
      intros docId Hin [<-|[]]. contradiction.
    + intros docId. rewrite !in_app_iff. cbn [In]. rewrite Hkeys. tauto.
    + destruct seen as [|first seen].
      * destruct documentGroups as [|entry rest]; [reflexivity|].
        assert (In (fst entry) (map document_id [])) as [] by (apply Hkeys; now left).
      * destruct documentGroups as [|entry rest]; [discriminate Hhd|exact Hhd].
Qed.

Lemma grouped_fold (found : list KnowledgeBaseChunk) :
  forall documentGroups seen,
    grouped documentGroups seen ->
    grouped (fold_left group_step found documentGroups) (seen ++ found).
Proof.
  induction found as [|chunk found IH]; intros documentGroups seen H; cbn [fold_left].
  - now rewrite app_nil_r.
  - replace (seen ++ chunk :: found) with ((seen ++ [chunk]) ++ found)
      by now rewrite <- app_assoc.
    apply IH. now apply grouped_step.
Qed.

Lemma group_chunks_grouped (found : list KnowledgeBaseChunk) :
  grouped (group_chunks found) found.
Proof.
  apply (grouped_fold found [] []).
  split; [constructor|]. split; [intros docId; reflexivity|].
  split; [intros entry []|reflexivity].
Qed.

(** The loop over the groups adds one source per group, in the order of the
    groups, and fails on an empty group only.  The first part it adds to the
    context is the header of the first group. *)
Lemma build_spec (documentGroups : DocumentGroups) :
  forall found contextParts,
    (forall entry, In entry documentGroups -> snd entry <> []) ->
    exists added extra,
      build documentGroups found contextParts
      = Returned (found ++ added, contextParts ++ extra)
      /\ Forall2 (fun source entry =>
                    documentId source = fst entry
                    /\ chunkCount source = List.length (snd entry)
                    /\ first_fileName (snd entry) = Returned (fileName source))
                 added documentGroups
      /\ (documentGroups <> [] ->
          exists header rest, extra = (LF ++ header)%string :: rest).
Proof.
  induction documentGroups as [|[docId docChunks] rest IH]; intros found contextParts Hne.
  - exists [], []. cbn [build]. rewrite !app_nil_r.
    split; [reflexivity|]. split; [constructor|]. intros H. now destruct H.
  - cbn [build].
    destruct docChunks as [|chunk docChunks];
      [now destruct (Hne (docId, []) (or_introl eq_refl))|].
    destruct (first_fileName (chunk :: docChunks)) as [name|e] eqn:E; [|discriminate E].
    edestruct (IH (found ++ [mkSource docId name (List.length (chunk :: docChunks))]))
      as (added & extra & Hb & Hf & _).
    { intros entry Hin. apply Hne. now right. }
    rewrite Hb. eexists. eexists. rewrite <- !app_assoc.
    split; [reflexivity|]. split.
    + constructor; [|exact Hf]. cbn [documentId chunkCount fileName fst snd]. auto.
    + intros _. cbn [app]. eexists. eexists. reflexivity.
Qed.

Lemma Forall2_In_l {A B : Type} (R : A -> B -> Prop) (l : list A) (l' : list B) (a : A) :
  Forall2 R l l' -> In a l -> exists b, In b l' /\ R a b.
Proof.
  induction 1 as [|x y l l' Hxy _ IH]; [intros []|].
  intros [<-|Hin].
  - exists y. split; [now left|exact Hxy].
  - destruct (IH Hin) as [b [Hb Hr]]. exists b. split; [now right|exact Hr].
Qed.

Lemma Forall2_map_eq {A B C : Type} (f : A -> C) (g : B -> C) (l : list A) (l' : list B) :
  Forall2 (fun a b => f a = g b) l l' -> map f l = map g l'.
Proof. induction 1; cbn [map]; congruence. Qed.

Lemma list_sum_cons (n : nat) (l : list nat) : list_sum (n :: l) = n + list_sum l.
Proof. reflexivity. Qed.

(** Each chunk counts for the one key that is its document. *)
Lemma count_once (docId : string) (keys : list string) :
  NoDup keys -> In docId keys ->
  list_sum (map (fun key => if String.eqb docId key then 1 else 0) keys) = 1.
Proof.
  induction 1 as [|key keys Hnin Hnd IH]; [intros []|].
  cbn [map In]; rewrite list_sum_cons. intros Hin.
  destruct (String.eqb docId key) eqn:E.
  - apply String.eqb_eq in E. subst key.
    assert (list_sum (map (fun key => if String.eqb docId key then 1 else 0) keys) = 0)
      as ->; [|reflexivity].
    clear IH Hin Hnd. induction keys as [|key keys IH]; [reflexivity|].
    cbn [map]; rewrite ?list_sum_cons. cbn [In] in Hnin.
    destruct (String.eqb docId key) eqn:E.
    + apply String.eqb_eq in E. symmetry in E. tauto.
    + apply IH. tauto.
  - apply String.eqb_neq in E. destruct Hin as [Heq|Hin]; [congruence|].
    now rewrite IH.
Qed.

Lemma own_total (keys : list string) (seen : list KnowledgeBaseChunk) :
  NoDup keys ->
  (forall docId, In docId (map document_id seen) -> In docId keys) ->
  list_sum (map (fun key => List.length (own key seen)) keys) = List.length seen.
Proof.
  intros Hnd. induction seen as [|chunk seen IH]; intros Hin.
  - cbn [List.length]. clear. induction keys as [|key keys IH]; [reflexivity|].
    cbn [map]; rewrite ?list_sum_cons. now rewrite IH.
  - transitivity
      (list_sum (map (fun key => if String.eqb (document_id chunk) key then 1 else 0) keys)
       + list_sum (map (fun key => List.length (own key seen)) keys)).
    + clear. induction keys as [|key keys IH]; [reflexivity|].
      cbn [map]; rewrite !list_sum_cons. rewrite IH. unfold own at 1. cbn [filter].
      fold (own key seen).
      destruct (String.eqb (document_id chunk) key); cbn [List.length]; lia.
    + rewrite (count_once (document_id chunk) keys Hnd) by (apply Hin; now left).
      rewrite IH by (intros docId H; apply Hin; now right). reflexivity.
Qed.

(** The search with [includeContext] on a list of chunks that is not empty:
    it returns, with one source per group. *)
Lemma search_run (found : list KnowledgeBaseChunk) :
  found <> [] ->
  exists added extra,
    search (EmbeddingsChunks found) true
    = Returned (mkSearchResult found (String.concat LF extra) added)
    /\ Forall2 (fun source entry =>
                  documentId source = fst entry
                  /\ chunkCount source = List.length (snd entry)
                  /\ first_fileName (snd entry) = Returned (fileName source))
               added (group_chunks found)
    /\ exists header rest, extra = (LF ++ header)%string :: rest.
Proof.
  intros Hsome.
  destruct (group_chunks_grouped found) as (Hnd & Hkeys & Hown & Hhd).
  assert (forall entry, In entry (group_chunks found) -> snd entry <> []) as Hne.
  { intros entry Hin. rewrite (Hown entry Hin).
    assert (1 <= List.length (own (fst entry) found))%nat as Hlen.
    { apply own_In, Hkeys, in_map, Hin. }
    intros Heq. rewrite Heq in Hlen. cbn in Hlen. lia. }
  destruct (build_spec (group_chunks found) [] [] Hne) as (added & extra & Hb & Hf & Hx).
  cbn [app] in Hb. exists added, extra. split; [|split; [exact Hf|]].
  - unfold search. destruct found as [|chunk found']; [now destruct Hsome|].
    cbn [List.length Nat.ltb Nat.leb andb]. now rewrite Hb.
  - apply Hx. intros Hg. destruct found as [|chunk found']; [now destruct Hsome|].
    assert (In (document_id chunk) (map fst (group_chunks (chunk :: found')))) as Hin
        by (apply Hkeys; now left).
    rewrite Hg in Hin. destruct Hin.
Qed.

(** The sources built from the groups name the documents of the groups,
    and their counts add up to the number of chunks. *)
Lemma sources_counts (found : list KnowledgeBaseChunk) (added : list Source) :
  Forall2 (fun source entry =>
             documentId source = fst entry
             /\ chunkCount source = List.length (snd entry)
             /\ first_fileName (snd entry) = Returned (fileName source))
          added (group_chunks found) ->
  map documentId added = map fst (group_chunks found)
  /\ list_sum (map chunkCount added) = List.length found.
Proof.
  intros Hf. destruct (group_chunks_grouped found) as (Hnd & Hkeys & Hown & _).
  split.
  - apply Forall2_map_eq. eapply Forall2_impl; [|exact Hf]. cbv beta. tauto.
  - rewrite (Forall2_map_eq chunkCount (fun entry => List.length (snd entry))
               added (group_chunks found))
      by (eapply Forall2_impl; [|exact Hf]; cbv beta; tauto).
    rewrite <- (own_total (map fst (group_chunks found)) found Hnd)
      by (intros docId; apply Hkeys).
    rewrite map_map. f_equal. apply map_ext_in.
    intros entry Hin. now rewrite (Hown entry Hin).
Qed.

End KnowledgeBaseFacts.

Section SearchSources.

Import KnowledgeBase KnowledgeBaseFacts.

(** X12: the sources of a knowledge base search account for the chunks it
    found.  The search with [includeContext] returns the chunks unchanged
    and one source per document: no document twice, the document of the
    first chunk first, each source with the number of chunks of its
    document, which is at least one, and with the file name of the first of
    them, or Unknown Document when that chunk has none.  The counts add up
    to the number of chunks, and the context text is empty only when no
    chunk was found.  It throws on no list of chunks. *)
Theorem search_sources_account_for_the_chunks (found : list KnowledgeBaseChunk) :
  exists searchResults,
    search (EmbeddingsChunks found) true = Returned searchResults
    /\ chunks searchResults = found
    /\ NoDup (map documentId (sources searchResults))
    /\ (forall docId, In docId (map documentId (sources searchResults))
                      <-> In docId (map document_id found))
    /\ hd_error (map documentId (sources searchResults))
       = hd_error (map document_id found)
    /\ (forall source, In source (sources searchResults) ->
          chunkCount source = List.length (own (documentId source) found)
          /\ (1 <= chunkCount source)%nat
          /\ first_fileName (own (documentId source) found)
             = Returned (fileName source))
    /\ list_sum (map chunkCount (sources searchResults)) = List.length found
    /\ (context searchResults = EmptyString <-> found = []).
Proof.
  destruct found as [|chunk found'].
  { eexists. split; [reflexivity|]. cbn [chunks sources context map].
    split; [reflexivity|]. split; [constructor|]. split; [tauto|].
    split; [reflexivity|]. split; [intros source []|]. split; [reflexivity|]. tauto. }
  assert (chunk :: found' <> []) as Hsome by discriminate.
  revert Hsome. generalize (chunk :: found'). clear chunk found'. intros found Hsome.
  destruct (search_run found Hsome) as (added & extra & Hrun & Hf & header & rest & Hx).
  destruct (group_chunks_grouped found) as (Hnd & Hkeys & Hown & Hhd).
  destruct (sources_counts found added Hf) as [Hids Htotal].
  eexists. split; [exact Hrun|]. cbn [chunks sources context]. rewrite Hids.
  split; [reflexivity|]. split; [exact Hnd|]. split; [exact Hkeys|]. split; [exact Hhd|].
  split; [|split; [exact Htotal|]].
  - intros source Hin.
    destruct (Forall2_In_l _ _ _ _ Hf Hin) as (entry & He & Hid & Hcount & Hname).
    rewrite Hid, Hcount, <- (Hown entry He). split; [reflexivity|]. split; [|exact Hname].
    assert (1 <= List.length (own (fst entry) found))%nat as Hlen.
    { apply own_In, Hkeys, in_map, He. }
    now rewrite (Hown entry He).
  - split; [|intros Heq; now destruct Hsome].
    intros Hctx. exfalso. subst extra.
    cbn [String.concat] in Hctx. destruct rest; discriminate Hctx.
Qed.

End SearchSources.

Section HandoffSources.

Import Handoff HandoffForm HandoffRun HandoffFacts.

Variable env : Env analysis.t aiResponse.t.

Lemma handed_sources (state : HandoffWorkflowState) :
  Handoff.sources (handed env state) = Handoff.sources state.
Proof.
  unfold handed. destruct (db_update env); try reflexivity;
    destruct (ConversationStatus_eqb _ red); reflexivity.
Qed.

Lemma determined_sources (state : HandoffWorkflowState) :
  Handoff.sources (determined env state) = Handoff.sources state.
Proof.
  unfold determined. destruct (must_escalate state); [reflexivity|].
  destruct (JS.lt _ _); reflexivity.
Qed.

Lemma generated_sources (state : HandoffWorkflowState) :
  Handoff.sources (generated env state) = Handoff.sources state.
Proof. unfold generated. destruct (llm_response env); reflexivity. Qed.

Lemma analyzed_sources (state : HandoffWorkflowState) :
  Handoff.sources (analyzed env state) = Handoff.sources state.
Proof. unfold analyzed. destruct (llm_analysis env); reflexivity. Qed.

Lemma final_sources (conversationId userMessage companyId : string)
    (previousMessages : list BaseMessage) :
  Handoff.sources (final env conversationId userMessage companyId previousMessages)
  = if short_circuits env then []
    else match kb_search env with
         | SearchResults (_ :: _) found => found
         | _ => []
         end.
Proof.
  unfold final. rewrite analyzed_early_exit. cbv zeta.
  destruct (short_circuits env).
  - rewrite handed_sources. unfold escalated_early.
    cbn [Handoff.sources with_finalResponse with_currentStatus].
    now rewrite analyzed_sources.
  - assert (Handoff.sources
              (determined env
                 (generated env
                    (retrieved env
                       (analyzed env
                          (initial_state conversationId userMessage companyId
                                         previousMessages)))))
            = match kb_search env with
              | SearchResults (_ :: _) found => found
              | _ => []
              end) as H.
    { rewrite determined_sources, generated_sources. unfold retrieved.
      destruct (kb_search env) as [|[|chunk texts] found]; reflexivity. }
    destruct (ConversationStatus_eqb _ red); [rewrite handed_sources|]; exact H.
Qed.

(** X13: the sources a turn of the handoff workflow returns are those of
    the knowledge base search.  The result has no [sources] when the turn
    escalated early, when the search threw and when it found no chunk.
    Otherwise it has one source per document of the chunks found, no
    document twice, and the chunk counts add up to the number of chunks. *)
Theorem handoff_result_sources
    (reply : KnowledgeBase.embeddings_reply)
    (conversationId userMessage companyId : string)
    (previousMessages : list BaseMessage) (w w' : World) (r : WorkflowResult) :
  kb_search env = KnowledgeBase.retrieval_reply reply ->
  processUserMessageWithHandoff env conversationId userMessage companyId previousMessages w
  = (Returned r, w') ->
  match Result.sources r with
  | None =>
      short_circuits env = true
      \/ reply = KnowledgeBase.EmbeddingsThrow
      \/ reply = KnowledgeBase.EmbeddingsChunks []
  | Some found =>
      short_circuits env = false
      /\ exists found_chunks,
          reply = KnowledgeBase.EmbeddingsChunks found_chunks
          /\ found_chunks <> []
          /\ NoDup (map documentId found)
          /\ (forall docId, In docId (map documentId found)
                            <-> In docId (map KnowledgeBase.document_id found_chunks))
          /\ list_sum (map chunkCount found) = List.length found_chunks
  end.
Proof.
  intros Hk. rewrite processUserMessageWithHandoff_run. intros H. injection H as <- _.
  cbv zeta. unfold mkResult. cbn [Result.sources].
  rewrite final_sources, Hk.
  destruct (short_circuits env); [left; reflexivity|].
  destruct reply as [|found_chunks]; [right; left; reflexivity|].
  destruct found_chunks as [|chunk found_chunks]; [right; right; reflexivity|].
  assert (chunk :: found_chunks <> []) as Hsome by discriminate.
  unfold KnowledgeBase.retrieval_reply.
  destruct (KnowledgeBaseFacts.search_run _ Hsome) as (added & extra & -> & Hf & _).
  destruct (KnowledgeBaseFacts.sources_counts _ _ Hf) as [Hids Htotal].
  destruct (KnowledgeBaseFacts.group_chunks_grouped (chunk :: found_chunks))
    as (Hnd & Hkeys & _ & _).
  cbn [KnowledgeBase.chunks KnowledgeBase.sources map].
  destruct added as [|source found].
  { cbn in Htotal. discriminate Htotal. }
  cbn [sources_or_undefined]. split; [reflexivity|].
  exists (chunk :: found_chunks). split; [reflexivity|]. split; [discriminate|].
  rewrite Hids. split; [exact Hnd|]. split; [exact Hkeys|exact Htotal].
Qed.

End HandoffSources.

Lemma handoff_result_sources_witness :
  exists r w',
    Handoff.processUserMessageWithHandoff Turns.grounded "conv-1" "help" "acme" []
                                          Sample.world
    = (Returned r, w')
    /\ Result.sources r
       = Some [mkSource "doc-1" "handbook.pdf" 2; mkSource "doc-2" "Unknown Document" 1]
    /\ match Result.sources r with
       | None =>
           HandoffForm.short_circuits Turns.grounded = true
           \/ KnowledgeBase.EmbeddingsChunks Turns.found_chunks
              = KnowledgeBase.EmbeddingsThrow
           \/ KnowledgeBase.EmbeddingsChunks Turns.found_chunks
              = KnowledgeBase.EmbeddingsChunks []
       | Some found =>
           HandoffForm.short_circuits Turns.grounded = false
           /\ exists found_chunks,
               KnowledgeBase.EmbeddingsChunks Turns.found_chunks
               = KnowledgeBase.EmbeddingsChunks found_chunks
               /\ found_chunks <> []
               /\ NoDup (map documentId found)
               /\ (forall docId,
                      In docId (map documentId found)
                      <-> In docId (map KnowledgeBase.document_id found_chunks))
               /\ list_sum (map chunkCount found) = List.length found_chunks
       end.
Proof.
  eexists. eexists. split; [run_turn|]. split; [reflexivity|].
  eapply (handoff_result_sources
            Turns.grounded (KnowledgeBase.EmbeddingsChunks Turns.found_chunks)
            "conv-1" "help" "acme" [] Sample.world); [reflexivity|run_turn].
Defined.

(* ===================================================================== *)
(** * Manual handoff, the pool of model clients, utilities                *)
(* ===================================================================== *)

Section ManualHandoff.

Import Manual.

(** X14: a manual handoff reports on the statement, not on the row.  It
    never throws; it returns true exactly when the update ran without an
    error, also when the conversation has no row, and then no row is changed.
    When it returns true and the row is there, the row becomes red; no other
    conversation is touched in any case. *)
Theorem manual_handoff_reports_the_statement
    (r : db_reply) (conversationId reason : string) (w : World) :
  exists w',
    triggerManualHandoff r conversationId reason w
    = (Returned (match r with DbOk => true | _ => false end), w')
    /\ calls w' = calls w ++ [CallStatusUpdate conversationId red]
    /\ conversations w' conversationId
       = match r, conversations w conversationId with
         | DbOk, Some _ => Some red
         | _, row => row
         end
    /\ forall other, other <> conversationId ->
                     conversations w' other = conversations w other.
Proof.
  destruct r; eexists; (split; [reflexivity|]); cbn [calls conversations add_call];
    (split; [reflexivity|]).
  - split; [|intros other Ho; now apply set_status_other].
    rewrite set_status_same. now destruct (conversations w conversationId).
  - split; [now destruct (conversations w conversationId)|reflexivity].
  - split; [now destruct (conversations w conversationId)|reflexivity].
Qed.

(** X15: reading the status back after a manual handoff.  The read never
    throws and changes nothing.  After a handoff that ran, a read that runs
    returns red when the conversation has a row and [null] when it has
    none; after a handoff that failed it returns the status the row had;
    a read that fails returns [null] whatever the row holds. *)
Theorem status_read_back_after_manual_handoff
    (update : db_reply) (read : read_reply) (conversationId reason : string) (w : World) :
  exists w',
    (triggerManualHandoff update conversationId reason ;;;
     getConversationStatus read conversationId)%wf w
    = (Returned
         (match read with
          | ReadOk =>
              match update, conversations w conversationId with
              | DbOk, Some _ => Some red
              | _, row => row
              end
          | _ => None
          end), w')
    /\ calls w' = calls w ++ [CallStatusUpdate conversationId red].
Proof.
  destruct update, read; eexists;
    (split;
     [ cbv beta iota zeta delta
           [bind triggerManualHandoff getConversationStatus try_catch
            update_conversation select_status record_call ret throw add_call];
       cbn [conversations calls]; rewrite ?set_status_same;
       destruct (conversations w conversationId); reflexivity
     | reflexivity ]).
Qed.

End ManualHandoff.

Section Pool.

Import LLMPool.

(** The pool after its first use. *)
Lemma getInstances_ready (count : nat) :
  forall index, (index < 5)%nat ->
    getInstances count (mk [0; 1; 2; 3; 4]%nat index 5)
    = (map (fun k => Some ((index + k) mod 5)%nat) (seq 0 count),
       mk [0; 1; 2; 3; 4]%nat ((index + count) mod 5) 5).
Proof.
  induction count as [|count IH]; intros index Hi.
  - cbn [getInstances seq map]. rewrite Nat.add_0_r, Nat.mod_small by exact Hi.
    reflexivity.
  - cbn [getInstances]. unfold getInstance.
    cbn [instances currentIndex constructed List.length Nat.eqb]. unfold maxInstances.
    rewrite IH by (apply Nat.mod_upper_bound; discriminate).
    f_equal.
    + cbn [seq map]. f_equal.
      * do 5 (destruct index as [|index]; [reflexivity|]). lia.
      * rewrite <- seq_shift, map_map. apply map_ext. intros k.
        rewrite Nat.Div0.add_mod_idemp_l. do 2 f_equal. lia.
    + f_equal. rewrite Nat.Div0.add_mod_idemp_l. f_equal. lia.
Qed.

(** X16: the pool hands out its five clients in turn.  From the class as
    it is at module load, the calls of [getInstance] return client 0, 1, 2,
    3, 4, 0, ... and never [undefined]; the first call constructs the five
    clients and no later call constructs one.  The warm-up that runs at
    module load finds the pool empty and invokes no client. *)
Theorem pool_round_robin (count : nat) :
  fst (getInstances count initial) = map (fun k => Some (k mod 5)%nat) (seq 0 count)
  /\ snd (getInstances (S count) initial)
     = mk [0; 1; 2; 3; 4]%nat (S count mod 5) 5
  /\ warmUp initial = []
  /\ warmUp (snd (getInstances (S count) initial)) = [0; 1; 2; 3; 4]%nat.
Proof.
  assert (forall n, getInstances (S n) initial
                    = (map (fun k => Some (k mod 5)%nat) (seq 0 (S n)),
                       mk [0; 1; 2; 3; 4]%nat (S n mod 5) 5)) as H.
  { intros n. cbn [getInstances]. unfold getInstance, initial.
    cbn [instances currentIndex constructed List.length Nat.eqb].
    unfold maxInstances. cbn [initialize push_new instances currentIndex constructed app].
    change ((0 + 1) mod 5)%nat with 1%nat.
    rewrite getInstances_ready by lia. cbn [seq map nth_error]. f_equal.
    f_equal. rewrite <- seq_shift, map_map. reflexivity. }
  split; [|split; [|split]].
  - destruct count as [|n]; [reflexivity|]. now rewrite H.
  - now rewrite H.
  - reflexivity.
  - now rewrite H.
Qed.

End Pool.

Section Truncate.

Import Utils.

Lemma length_append (a b : string) :
  String.length (a ++ b) = (String.length a + String.length b)%nat.
Proof.
  induction a as [|c a IH]; cbn [String.append String.length Nat.add];
    [reflexivity|now rewrite IH].
Qed.

Lemma substring0_length (s : string) :
  forall n, String.length (substring 0 n s) = Nat.min n (String.length s).
Proof.
  induction s as [|c s IH]; intros [|n]; cbn [substring String.length Nat.min];
    try reflexivity.
  now rewrite IH.
Qed.

Lemma substring0_app (a b : string) :
  forall n, (n <= String.length a)%nat -> substring 0 n (a ++ b) = substring 0 n a.
Proof.
  induction a as [|c a IH]; intros [|n] Hn; cbn [String.length] in Hn;
    cbn [String.append substring]; try reflexivity; try lia.
  - now destruct b.
  - rewrite IH by lia. reflexivity.
Qed.

Lemma substring0_idem (s : string) :
  forall n, substring 0 n (substring 0 n s) = substring 0 n s.
Proof.
  induction s as [|c s IH]; intros [|n]; cbn [substring]; try reflexivity.
  now rewrite IH.
Qed.

(** X17: [truncateText] bounds the text by the limit plus three.  A text
    within the limit is returned as it is.  A longer text is cut to the
    limit, a negative one counting as zero, and gets three dots: the result
    is three characters longer than the limit, so longer than the text
    itself when the text exceeds the limit by one or two characters.
    Truncating twice is truncating once. *)
Theorem truncateText_adds_three_dots (text : string) (maxLength : Z) :
  ((Z.of_nat (String.length text) <= maxLength)%Z ->
   truncateText text maxLength = text)
  /\ ((maxLength < Z.of_nat (String.length text))%Z ->
      String.length (truncateText text maxLength) = (Z.to_nat maxLength + 3)%nat
      /\ substring 0 (Z.to_nat maxLength) (truncateText text maxLength)
         = substring 0 (Z.to_nat maxLength) text)
  /\ truncateText (truncateText text maxLength) maxLength = truncateText text maxLength.
Proof.
  assert ((maxLength < Z.of_nat (String.length text))%Z ->
          truncateText text maxLength
          = (substring 0 (Z.to_nat maxLength) text ++ "...")%string
          /\ String.length (substring 0 (Z.to_nat maxLength) text) = Z.to_nat maxLength)
    as Hcut.
  { intros Hlt. unfold truncateText.
    destruct (Z.leb_spec (Z.of_nat (String.length text)) maxLength); [lia|].
    split; [reflexivity|]. rewrite substring0_length. lia. }
  split; [|split].
  - intros Hle. unfold truncateText. apply Z.leb_le in Hle. now rewrite Hle.
  - intros Hlt. destruct (Hcut Hlt) as [-> Hlen]. split.
    + rewrite length_append, Hlen. reflexivity.
    + rewrite substring0_app by lia. apply substring0_idem.
  - destruct (Z.leb_spec (Z.of_nat (String.length text)) maxLength) as [Hle|Hlt].
    + unfold truncateText at 2. apply Z.leb_le in Hle. rewrite Hle.
      unfold truncateText. now rewrite Hle.
    + destruct (Hcut Hlt) as [-> Hlen]. unfold truncateText.
      rewrite length_append, Hlen.
      destruct (Z.leb_spec (Z.of_nat (Z.to_nat maxLength + String.length "..."))
                           maxLength) as [Hle|_].
      * cbn [String.length] in Hle. lia.
      * rewrite substring0_app by lia. now rewrite substring0_idem.
Qed.

Lemma truncateText_adds_three_dots_witness :
  truncateText "abcd" 3 = "abc..."%string
  /\ String.length (truncateText "abcd" 3) = 6%nat.
Proof.
  split; [reflexivity|].
  apply (truncateText_adds_three_dots "abcd" 3). reflexivity.
Defined.

End Truncate.

Section StatusDisplay.

Import Utils.

Lemma status_name_inj (a b : ConversationStatus) :
  status_name a = status_name b -> a = b.
Proof. destruct a, b; intros H; try reflexivity; discriminate H. Qed.

(** X18: how the statuses are displayed.  Each of the eight statuses has a
    label of its own that is not its raw name, except that yellow and
    active_human_needed share theirs; statuses with the same label have the
    same colour.  The two typing statuses, and they only, get the default
    gray.  A string that names no status is its own label and is gray. *)
Theorem statuses_have_labels (status : ConversationStatus) :
  getStatusLabel (status_name status) <> status_name status
  /\ (getStatusColor (status_name status) = gray
      <-> status = typing_ai \/ status = typing_user)
  /\ (forall other,
         getStatusLabel (status_name status) = getStatusLabel (status_name other) ->
         getStatusColor (status_name status) = getStatusColor (status_name other)
         /\ (status = other
             \/ (status = yellow /\ other = active_human_needed)
             \/ (status = active_human_needed /\ other = yellow)))
  /\ (forall text, (forall named, text <> status_name named) ->
         getStatusLabel text = text /\ getStatusColor text = gray).
Proof.
  split; [|split; [|split]].
  - destruct status; vm_compute; discriminate.
  - destruct status; vm_compute; split; intros H;
      try discriminate H; try reflexivity;
      try (destruct H as [H|H]; discriminate H); auto.
  - intros other. destruct status, other; vm_compute; intros H;
      try discriminate H; split; try reflexivity; auto.
  - intros text Hn.
    assert (forall named, String.eqb text (status_name named) = false) as He.
    { intros named. apply String.eqb_neq, Hn. }
    pose proof (He green) as H1. pose proof (He yellow) as H2.
    pose proof (He red) as H3. pose proof (He resolved_ai) as H4.
    pose proof (He resolved_human) as H5. pose proof (He typing_ai) as H6.
    pose proof (He typing_user) as H7. pose proof (He active_human_needed) as H8.
    cbn [status_name] in H1, H2, H3, H4, H5, H6, H7, H8.
    unfold getStatusLabel, getStatusColor.
    rewrite H1, H2, H3, H4, H5, H6, H7, H8. split; reflexivity.
Qed.

Lemma statuses_have_labels_witness :
  getStatusLabel "closed" = "closed"%string /\ getStatusColor "closed" = gray.
Proof.
  apply (statuses_have_labels green).
  intros named. destruct named; discriminate.
Defined.

End StatusDisplay.

Section RelativeTime.

Import Utils.

Local Open Scope Z_scope.

(** X19: the buckets of [formatRelativeTime].  With [seconds] the whole
    seconds from the date to now, a date less than a minute ago, and every
    date in the future, is just now.  Otherwise the text is a count, a unit
    and ago: the count is the whole number of minutes, from 1 to 59, below
    an hour, of hours, from 1 to 23, below a day, and of days beyond; the
    unit is in the plural exactly when the count is above one. *)
Theorem relative_time_buckets (now targetDate : Z) :
  let seconds := (now - targetDate) / 1000 in
  (seconds < 60 -> formatRelativeTime now (Some targetDate) = "just now"%string)
  /\ (60 <= seconds ->
      exists (count : Z) (unit : string) (width : Z),
        formatRelativeTime now (Some targetDate)
        = (number count ++ " " ++ unit ++ (if (1 <? count)%Z then "s" else EmptyString)
             ++ " ago")%string
        /\ 1 <= count
        /\ width * count <= seconds < width * (count + 1)
        /\ ((unit = "minute"%string /\ width = 60 /\ count <= 59)
            \/ (unit = "hour"%string /\ width = 3600 /\ count <= 23)
            \/ (unit = "day"%string /\ width = 86400 /\ 86400 <= seconds))).
Proof.
  cbv zeta. unfold formatRelativeTime. cbv zeta.
  set (seconds := (now - targetDate) / 1000).
  split.
  - intros H. apply Z.ltb_lt in H. now rewrite H.
  - intros H. destruct (Z.ltb_spec seconds 60); [lia|].
    destruct (Z.ltb_spec seconds 3600); [|destruct (Z.ltb_spec seconds 86400)].
    + exists (seconds / 60), "minute"%string, 60. split; [reflexivity|].
      pose proof (Z.div_mod seconds 60 ltac:(lia)).
      pose proof (Z.mod_pos_bound seconds 60 ltac:(lia)).
      repeat split; try lia. left. repeat split; lia.
    + exists (seconds / 3600), "hour"%string, 3600. split; [reflexivity|].
      pose proof (Z.div_mod seconds 3600 ltac:(lia)).
      pose proof (Z.mod_pos_bound seconds 3600 ltac:(lia)).
      repeat split; try lia. right. left. repeat split; lia.
    + exists (seconds / 86400), "day"%string, 86400. split; [reflexivity|].
      pose proof (Z.div_mod seconds 86400 ltac:(lia)).
      pose proof (Z.mod_pos_bound seconds 86400 ltac:(lia)).
      repeat split; try lia. right. right. repeat split; lia.
Qed.

Lemma relative_time_buckets_witness :
  formatRelativeTime 1700000090000 (Some 1700000000000) = "1 minute ago"%string
  /\ formatRelativeTime 1700000000000 (Some 1700000090000) = "just now"%string.
Proof.
  split; [reflexivity|].
  apply (relative_time_buckets 1700000000000 1700000090000). reflexivity.
Defined.

End RelativeTime.

(* ===================================================================== *)
(** * The validators                                                      *)
(* ===================================================================== *)

Module RegexFacts.

Import Regex.

Lemma append_nil_r (s : string) : (s ++ EmptyString)%string = s.
Proof. induction s as [|c s IH]; cbn [String.append]; congruence. Qed.

Lemma append_assoc (a b c : string) : ((a ++ b) ++ c)%string = (a ++ b ++ c)%string.
Proof. induction a as [|x a IH]; cbn [String.append]; congruence. Qed.

Lemma append_eq_nil (a b : string) :
  (a ++ b)%string = EmptyString -> a = EmptyString /\ b = EmptyString.
Proof. destruct a; cbn [String.append]; [auto|discriminate]. Qed.

Lemma lang_Seq_inv (r1 r2 : regex) (s : string) :
  lang (Seq r1 r2) s <-> exists s1 s2, s = (s1 ++ s2)%string /\ lang r1 s1 /\ lang r2 s2.
Proof.
  split.
  - intros H. inversion H; subst. eauto.
  - intros (s1 & s2 & -> & H1 & H2). now constructor.
Qed.

Lemma lang_Alt_inv (r1 r2 : regex) (s : string) :
  lang (Alt r1 r2) s <-> lang r1 s \/ lang r2 s.
Proof.
  split.
  - intros H. inversion H; subst; auto.
  - intros [H|H]; [now apply lang_Alt_l|now apply lang_Alt_r].
Qed.

Lemma lang_Class_inv (member : ascii -> bool) (s : string) :
  lang (Class member) s <-> exists c, s = String c EmptyString /\ member c = true.
Proof.
  split.
  - intros H. inversion H; subst. eauto.
  - intros (c & -> & H). now constructor.
Qed.

Lemma lang_Chr_inv (c : ascii) (s : string) :
  lang (Chr c) s <-> s = String c EmptyString.
Proof.
  unfold Chr. rewrite lang_Class_inv. split.
  - intros (x & -> & H). apply Ascii.eqb_eq in H. now subst.
  - intros ->. exists c. split; [reflexivity|apply Ascii.eqb_refl].
Qed.

Lemma nullable_spec (r : regex) : nullable r = true <-> lang r EmptyString.
Proof.
  induction r as [| |member|r1 IH1 r2 IH2|r1 IH1 r2 IH2|r IH]; cbn [nullable].
  - split; [discriminate|]. intros H. inversion H.
  - split; [constructor|reflexivity].
  - split; [discriminate|]. intros H. inversion H.
  - rewrite andb_true_iff, IH1, IH2, lang_Seq_inv. split.
    + intros [H1 H2]. now exists EmptyString, EmptyString.
    + intros (s1 & s2 & Heq & H1 & H2). symmetry in Heq.
      apply append_eq_nil in Heq. destruct Heq. now subst.
  - rewrite orb_true_iff, IH1, IH2, lang_Alt_inv. reflexivity.
  - split; [constructor|reflexivity].
Qed.

Lemma lang_Star_cons_inv (r : regex) (c : ascii) (s : string) :
  lang (Star r) (String c s) ->
  exists s1 s2, s = (s1 ++ s2)%string /\ lang r (String c s1) /\ lang (Star r) s2.
Proof.
  intros H. remember (Star r) as star eqn:Es. remember (String c s) as cs eqn:Ec.
  revert Es Ec.
  induction H as [| | | | | |r' s1 s2 H1 _ H2 IH2]; intros Es Ec; try discriminate.
  injection Es as ->.
  destruct s1 as [|x s1]; cbn [String.append] in Ec.
  - now apply IH2.
  - injection Ec as -> <-. now exists s1, s2.
Qed.

Lemma lang_deriv (r : regex) :
  forall (c : ascii) (s : string), lang (deriv c r) s <-> lang r (String c s).
Proof.
  induction r as [| |member|r1 IH1 r2 IH2|r1 IH1 r2 IH2|r IH]; intros c s; cbn [deriv].
  - split; intros H; inversion H.
  - split; intros H; inversion H.
  - destruct (member c) eqn:E; split; intros H; inversion H; subst.
    + now constructor.
    + constructor.
    + congruence.
  - assert (lang (Seq (deriv c r1) r2) s
            <-> exists s1 s2, s = (s1 ++ s2)%string
                              /\ lang r1 (String c s1) /\ lang r2 s2) as Hleft.
    { rewrite lang_Seq_inv. split; intros (s1 & s2 & Heq & H1 & H2);
        exists s1, s2; (split; [exact Heq|]); (split; [|exact H2]); now apply IH1. }
    destruct (nullable r1) eqn:En.
    + split.
      * intros H. apply lang_Alt_inv in H. destruct H as [H|H].
        -- apply Hleft in H. destruct H as (s1 & s2 & -> & H1 & H2).
           change (String c (s1 ++ s2)) with (String c s1 ++ s2)%string.
           now constructor.
        -- change (String c s) with (EmptyString ++ String c s)%string.
           constructor; [now apply nullable_spec|now apply IH2].
      * intros H. apply lang_Seq_inv in H. destruct H as (s1 & s2 & Heq & H1 & H2).
        destruct s1 as [|x s1]; cbn [String.append] in Heq.
        -- subst s2. apply lang_Alt_r. now apply IH2.
        -- injection Heq as <- ->. apply lang_Alt_l. apply Hleft. now exists s1, s2.
    + rewrite Hleft. split.
      * intros (s1 & s2 & -> & H1 & H2).
        change (String c (s1 ++ s2)) with (String c s1 ++ s2)%string.
        now constructor.
      * intros H. apply lang_Seq_inv in H. destruct H as (s1 & s2 & Heq & H1 & H2).
        destruct s1 as [|x s1]; cbn [String.append] in Heq.
        -- apply nullable_spec in H1. congruence.
        -- injection Heq as <- ->. now exists s1, s2.
  - rewrite !lang_Alt_inv, IH1, IH2. reflexivity.
  - rewrite lang_Seq_inv. split.
    + intros (s1 & s2 & -> & H1 & H2).
      change (String c (s1 ++ s2)) with (String c s1 ++ s2)%string.
      constructor; [now apply IH|exact H2].
    + intros H. apply lang_Star_cons_inv in H. destruct H as (s1 & s2 & -> & H1 & H2).
      exists s1, s2. split; [reflexivity|]. split; [now apply IH|exact H2].
Qed.

(** The matcher decides the language. *)
Lemma test_spec (s : string) : forall r, test r s = true <-> lang r s.
Proof.
  induction s as [|c s IH]; intros r; cbn [test].
  - apply nullable_spec.
  - rewrite IH. apply lang_deriv.
Qed.

Lemma all_in_app (member : ascii -> bool) (a b : string) :
  all_in member (a ++ b) = all_in member a && all_in member b.
Proof.
  induction a as [|c a IH]; cbn [String.append all_in]; [reflexivity|].
  now rewrite IH, andb_assoc.
Qed.

Lemma lang_Star_Class (member : ascii -> bool) (s : string) :
  lang (Star (Class member)) s <-> all_in member s = true.
Proof.
  split.
  - intros H. remember (Star (Class member)) as star eqn:Es. revert Es.
    induction H as [| | | | | |r s1 s2 H1 _ H2 IH2]; intros Es; try discriminate.
    + reflexivity.
    + injection Es as ->. apply lang_Class_inv in H1. destruct H1 as (c & -> & Hc).
      cbn [String.append all_in]. rewrite Hc. now apply IH2.
  - induction s as [|c s IH]; cbn [all_in]; [constructor|].
    intros H. apply andb_true_iff in H. destruct H as [Hc Hs].
    change (String c s) with (String c EmptyString ++ s)%string.
    constructor; [now constructor|now apply IH].
Qed.

(** [[...]+] matches the non-empty strings of the class. *)
Lemma lang_Plus_Class (member : ascii -> bool) (s : string) :
  lang (Plus (Class member)) s <-> s <> EmptyString /\ all_in member s = true.
Proof.
  unfold Plus. rewrite lang_Seq_inv. split.
  - intros (s1 & s2 & -> & H1 & H2). apply lang_Class_inv in H1.
    destruct H1 as (c & -> & Hc). apply lang_Star_Class in H2.
    cbn [String.append all_in]. rewrite Hc, H2. split; [discriminate|reflexivity].
  - intros [Hne Hall]. destruct s as [|c s]; [now destruct Hne|].
    cbn [all_in] in Hall. apply andb_true_iff in Hall. destruct Hall as [Hc Hs].
    exists (String c EmptyString), s. split; [reflexivity|].
    split; [now constructor|now apply lang_Star_Class].
Qed.

(** [[...]{n}] matches the strings of the class of length [n]. *)
Lemma lang_Repeat_Class (member : ascii -> bool) (n : nat) :
  forall s, lang (Repeat n (Class member)) s
            <-> String.length s = n /\ all_in member s = true.
Proof.
  induction n as [|n IH]; intros s; cbn [Repeat].
  - split.
    + intros H. inversion H. split; reflexivity.
    + intros [Hl _]. destruct s; [constructor|discriminate Hl].
  - rewrite lang_Seq_inv. split.
    + intros (s1 & s2 & -> & H1 & H2). apply lang_Class_inv in H1.
      destruct H1 as (c & -> & Hc). apply IH in H2. destruct H2 as [Hl Hs].
      cbn [String.append String.length all_in]. rewrite Hc, Hl, Hs. split; reflexivity.
    + intros [Hl Hall]. destruct s as [|c s]; [discriminate Hl|].
      cbn [String.length all_in] in *. apply andb_true_iff in Hall.
      destruct Hall as [Hc Hs]. exists (String c EmptyString), s.
      split; [reflexivity|]. split; [now constructor|]. apply IH. split; congruence.
Qed.

End RegexFacts.

Section ValidatorShapes.

Import Regex RegexFacts Validators.

(** X20: the addresses [validateEmail] accepts.  An address is accepted
    exactly when it is a local part, an at sign, a domain, a dot and a last
    label, each of the three non-empty and free of white space and of at
    signs.  So an accepted address has one at sign and a dot after it, the
    domain may itself contain dots, also at its start or end, and nothing
    else is checked. *)
Theorem validateEmail_accepts (email : string) :
  validateEmail email = true
  <-> exists local domain label,
        email = (local ++ "@" ++ domain ++ "." ++ label)%string
        /\ (local <> EmptyString /\ all_in plain local = true)
        /\ (domain <> EmptyString /\ all_in plain domain = true)
        /\ (label <> EmptyString /\ all_in plain label = true).
Proof.
  unfold validateEmail, emailRegex. rewrite test_spec, lang_Seq_inv. split.
  - intros (local & rest1 & -> & Hl & H).
    apply lang_Seq_inv in H. destruct H as (at_sign & rest2 & -> & Ha & H).
    apply lang_Seq_inv in H. destruct H as (domain & rest3 & -> & Hd & H).
    apply lang_Seq_inv in H. destruct H as (dot & label & -> & Hdot & Hlabel).
    apply lang_Chr_inv in Ha. apply lang_Chr_inv in Hdot. subst at_sign dot.
    apply lang_Plus_Class in Hl. apply lang_Plus_Class in Hd.
    apply lang_Plus_Class in Hlabel.
    exists local, domain, label. split; [reflexivity|]. auto.
  - intros (local & domain & label & -> & Hl & Hd & Hlabel).
    exists local. eexists. split; [reflexivity|].
    split; [now apply lang_Plus_Class|].
    change ("@" ++ domain ++ "." ++ label)%string
      with (String "@" EmptyString ++ domain ++ String "." EmptyString ++ label)%string.
    constructor; [now apply lang_Chr_inv|].
    constructor; [now apply lang_Plus_Class|].
    constructor; [now apply lang_Chr_inv|now apply lang_Plus_Class].
Qed.

(** X21: the identifiers [isValidUUID] accepts are the 36 characters of a
    UUID of version 1 to 5: groups of 8, 4, 4, 4 and 12 hexadecimal digits
    in either case between hyphens, the third group starting with a digit
    from 1 to 5 and the fourth with 8, 9, a or b.  A UUID of another
    version, the nil UUID among them, is not accepted. *)
Theorem isValidUUID_accepts (str : string) :
  isValidUUID str = true
  <-> exists g1 g2 v g3 y g4 g5,
        str = (g1 ++ "-" ++ g2 ++ "-" ++ String v g3 ++ "-" ++ String y g4
                  ++ "-" ++ g5)%string
        /\ (String.length g1 = 8%nat /\ all_in hex g1 = true)
        /\ (String.length g2 = 4%nat /\ all_in hex g2 = true)
        /\ version v = true
        /\ (String.length g3 = 3%nat /\ all_in hex g3 = true)
        /\ variant y = true
        /\ (String.length g4 = 3%nat /\ all_in hex g4 = true)
        /\ (String.length g5 = 12%nat /\ all_in hex g5 = true).
Proof.
  unfold isValidUUID, uuidRegex. rewrite test_spec, lang_Seq_inv. split.
  - intros (g1 & rest & -> & H1 & H).
    apply lang_Seq_inv in H. destruct H as (h1 & rest1 & -> & Hh1 & H).
    apply lang_Seq_inv in H. destruct H as (g2 & rest2 & -> & H2 & H).
    apply lang_Seq_inv in H. destruct H as (h2 & rest3 & -> & Hh2 & H).
    apply lang_Seq_inv in H. destruct H as (v & rest4 & -> & Hv & H).
    apply lang_Seq_inv in H. destruct H as (g3 & rest5 & -> & H3 & H).
    apply lang_Seq_inv in H. destruct H as (h3 & rest6 & -> & Hh3 & H).
    apply lang_Seq_inv in H. destruct H as (y & rest7 & -> & Hy & H).
    apply lang_Seq_inv in H. destruct H as (g4 & rest8 & -> & H4 & H).
    apply lang_Seq_inv in H. destruct H as (h4 & g5 & -> & Hh4 & H5).
    apply lang_Chr_inv in Hh1, Hh2, Hh3, Hh4. subst h1 h2 h3 h4.
    apply lang_Class_inv in Hv. destruct Hv as (cv & -> & Hv).
    apply lang_Class_inv in Hy. destruct Hy as (cy & -> & Hy).
    apply lang_Repeat_Class in H1, H2, H3, H4, H5.
    exists g1, g2, cv, g3, cy, g4, g5. split; [reflexivity|]. tauto.
  - intros (g1 & g2 & v & g3 & y & g4 & g5 & -> & H1 & H2 & Hv & H3 & Hy & H4 & H5).
    exists g1. eexists. split; [reflexivity|].
    split; [now apply lang_Repeat_Class|].
    change ("-" ++ g2 ++ "-" ++ String v g3 ++ "-" ++ String y g4 ++ "-" ++ g5)%string
      with (String "-" EmptyString ++ g2 ++ String "-" EmptyString
              ++ String v EmptyString ++ g3 ++ String "-" EmptyString
              ++ String y EmptyString ++ g4 ++ String "-" EmptyString ++ g5)%string.
    constructor; [now apply lang_Chr_inv|].
    constructor; [now apply lang_Repeat_Class|].
    constructor; [now apply lang_Chr_inv|].
    constructor; [now constructor|].
    constructor; [now apply lang_Repeat_Class|].
    constructor; [now apply lang_Chr_inv|].
    constructor; [now constructor|].
    constructor; [now apply lang_Repeat_Class|].
    constructor; [now apply lang_Chr_inv|now apply lang_Repeat_Class].
Qed.

End ValidatorShapes.

(* ===================================================================== *)
(** * The chat route                                                      *)
(* ===================================================================== *)

Section ChatRoute.

Import Handoff HandoffForm HandoffRun HandoffFacts Validators Route.

Variable env : Env Handoff.analysis.t Handoff.aiResponse.t.
Variable uuidv4 : nat -> string.




End ChatRoute.

